(** * Polish B2B tax calculator (2026): shallow embedding and checked properties

    The development embeds these parts of the repository:

    - [app/lib/tax-calculator.ts]: class [TaxCalculator] (vehicle and
      equipment depreciation, VAT benefit, the three regime calculators
      and [compareAll]);
    - the contribution calculator (class [ContributionCalculator]:
      [calculateSocialSecurity], [calculateHealthInsurance],
      [calculateMonthlyContributions], with [DEFAULT_2026_CONFIG]);
    - the HTTP routes that call the calculator or store its rates
      (calculate, tax-config), over tables modelled as lists of rows;
    - the pure computations of the user interface that read the results
      (the recommended regime, the bars of the chart, the warning of the
      car form, the initial state of the configuration form).

    ** Modelling conventions

    - A JavaScript [number] is modelled as an exact rational [Q]; results
      are compared with [==] (equality of rationals).  All inputs are
      finite numbers (no NaN, no infinities), as the callers supply them.
      The products of the end-to-end example are evaluated in IEEE 754
      binary64 as well ([binary64_end_to_end_example]).
    - The arithmetic of the source is IEEE 754 binary64, which rounds
      every operation.  Module [B64] embeds class [TaxCalculator] a second
      time over the primitive binary64 numbers, operation by operation;
      it is used to evaluate the code on concrete inputs, in particular
      where rounding makes the code depart from exact arithmetic.
      Statements about the rational model are equalities in the order of
      operations of the code, comparisons, and bounds that rounding, which
      is monotone, preserves or that leave a margin far above the
      rounding error.
    - An optional field [x?: number] is an [option Q].  JavaScript
      truthiness of such a field ([!x], [x && ...]) is [truthy]: an absent
      field and the number 0 are both falsy.
    - [throw new Error(msg)] is the [Err msg] outcome of the [result]
      type; functions of the source that cannot throw are plain functions.
    - A [forEach] loop that accumulates with [+=] is a left fold over the
      array, starting from the initial value of the accumulator. *)

From Stdlib Require Import QArith Qminmax Qround Lqa List String Bool PrimFloat.
From Stdlib Require FloatOps SpecFloat.
Import ListNotations.
Local Open Scope Q_scope.
Set Warnings "-inexact-float".

(** ** JavaScript values *)

(** Truthiness of an optional number: [undefined] and [0] are falsy. *)
Definition truthy (o : option Q) : bool :=
  match o with
  | Some q => negb (Qeq_bool q 0)
  | None => false
  end.

(** [o && o <= bound] used as a condition, for an optional number [o]. *)
Definition truthy_and_le (o : option Q) (bound : Q) : bool :=
  match o with
  | Some q => truthy o && Qle_bool q bound
  | None => false
  end.

(** [o || d] for an optional number [o] and a number [d]. *)
Definition number_or (o : option Q) (d : Q) : Q :=
  match o with
  | Some q => if truthy o then q else d
  | None => d
  end.

(** [x || undefined] for a number [x]. *)
Definition number_or_undefined (x : Q) : option Q :=
  if Qeq_bool x 0 then None else Some x.

(** [Math.min] and [Math.max] on two finite numbers. *)
Definition Math_min (a b : Q) : Q := Qmin a b.
Definition Math_max (a b : Q) : Q := Qmax a b.

(** ** Exceptions *)

Inductive result (A : Type) : Type :=
| Ok (value : A)
| Err (message : string).

Arguments Ok {A} value.
Arguments Err {A} message.

Definition bind {A B : Type} (r : result A) (k : A -> result B) : result B :=
  match r with
  | Ok a => k a
  | Err m => Err m
  end.

Notation "x <- r ;; k" := (bind r (fun x => k))
  (at level 61, r at next level, right associativity).

(** [xs.forEach(x => { acc += f(x) })] where [f] may throw: the first
    exception leaves the loop. *)
Fixpoint forEach_add {A : Type} (f : A -> result Q) (xs : list A) (acc : Q)
  : result Q :=
  match xs with
  | [] => Ok acc
  | x :: rest => d <- f x ;; forEach_add f rest (acc + d)
  end.

(** ** Types shared by the two source files *)

Inductive ZusType : Type := ulga_na_start | preferencyjny | maly_plus | duzy.
Inductive TaxationForm : Type := liniowy | skala | ryczalt.

(** ** The contribution calculator *)

Module ContributionCalculator.

Record SocialSecurityRates : Type := {
  retirement : Q;
  disability : Q;
  accident : Q;
  sickness : Q
}.

Record HealthInsuranceRate : Type := {
  rate_skala : Q;
  rate_liniowy : Q
}.

Record HealthInsuranceLimits : Type := {
  linear : Q
}.

Record TaxYearConfig : Type := {
  year : Q;
  minimumWageGross : Q;
  averageWagePrognosis : Q;
  averageWageQ4PreviousYear : Q;
  socialSecurityRates : SocialSecurityRates;
  workFundRate : Q;
  solidarityFundRate : Q;
  healthInsuranceRate : HealthInsuranceRate;
  minHealthInsuranceLinear : Q;
  healthInsuranceLimits : HealthInsuranceLimits
}.

(** [DEFAULT_2026_CONFIG], after the assignment that follows its
    declaration: [minHealthInsuranceLinear = minimumWageGross * 0.09]. *)
Definition DEFAULT_2026_CONFIG : TaxYearConfig := {|
  year := 2026;
  minimumWageGross := 4626;
  averageWagePrognosis := 7286;
  averageWageQ4PreviousYear := 7000;
  socialSecurityRates := {|
    retirement := 0.1952;
    disability := 0.08;
    accident := 0.0167;
    sickness := 0.0245
  |};
  workFundRate := 0.0245;
  solidarityFundRate := 0.0245;
  healthInsuranceRate := {| rate_skala := 0.09; rate_liniowy := 0.049 |};
  minHealthInsuranceLinear := 4626 * 0.09;
  healthInsuranceLimits := {| linear := 11600 |}
|}.

Record ContributionInput : Type := {
  taxationForm : TaxationForm;
  zusType : ZusType;
  monthlyRevenue : Q;
  monthlyCosts : Q;
  monthlySocialSecurityBase : option Q;
  voluntarySickness : bool;
  yearlyRevenueToDate : option Q
}.

Record HealthInsuranceResult : Type := {
  amount : Q;
  deductibleFromIncome : Q;
  deductibleFromTax : Q
}.

(** The multiplier chosen by the [if / else if / else] chain of the
    ryczalt branch. *)
Definition rateMultiplier (input : ContributionInput) : Q :=
  if truthy_and_le (yearlyRevenueToDate input) 60000 then 0.6
  else if truthy_and_le (yearlyRevenueToDate input) 300000 then 1.0
  else 1.8.

(** The three branches cover [TaxationForm]; the [return] of zeros that
    follows them in the source is not reached. *)
Definition calculateHealthInsurance
    (input : ContributionInput) (config : TaxYearConfig) (monthlyIncome : Q)
  : HealthInsuranceResult :=
  match taxationForm input with
  | skala =>
      let base := Math_max monthlyIncome (minimumWageGross config) in
      let amount := base * rate_skala (healthInsuranceRate config) in
      {| amount := amount; deductibleFromIncome := amount;
         deductibleFromTax := 0 |}
  | liniowy =>
      let base := Math_max monthlyIncome (minimumWageGross config) in
      let amount :=
        Math_max (base * rate_liniowy (healthInsuranceRate config))
                 (minHealthInsuranceLinear config) in
      {| amount := amount; deductibleFromIncome := amount;
         deductibleFromTax := 0 |}
  | ryczalt =>
      let base := averageWageQ4PreviousYear config in
      let amount := base * 0.09 * rateMultiplier input in
      {| amount := amount; deductibleFromIncome := amount * 0.5;
         deductibleFromTax := 0 |}
  end.

(** [breakdown] of [ContributionOutput]; the optional entries are those
    declared with [?] in the source. *)
Record ContributionBreakdown : Type := {
  bd_retirement : Q;
  bd_disability : Q;
  bd_accident : Q;
  bd_sickness : option Q;
  bd_workFund : option Q;
  bd_solidarityFund : option Q;
  bd_healthInsurance : Q
}.

(** The object returned by [calculateSocialSecurity]. *)
Record SocialSecurityResult : Type := {
  ss_amount : Q;
  ss_base : Q;
  ss_breakdown : ContributionBreakdown
}.

Record ContributionOutput : Type := {
  socialSecurityTotal : Q;
  healthInsuranceAmount : Q;
  deductibleSocialFromIncome : Q;
  deductibleHealthFromIncome : Q;
  deductibleHealthFromTax : option Q;
  breakdown : ContributionBreakdown
}.

(** Step 1 of [calculateSocialSecurity]: the contribution base.  For
    maly_plus it is [input.monthlySocialSecurityBase ||
    config.minimumWageGross]. *)
Definition socialSecurityBase (input : ContributionInput) (config : TaxYearConfig)
  : Q :=
  match zusType input with
  | ulga_na_start => 0
  | preferencyjny => minimumWageGross config * 0.3
  | duzy => averageWagePrognosis config * 0.6
  | maly_plus => number_or (monthlySocialSecurityBase input)
                           (minimumWageGross config)
  end.

Definition calculateSocialSecurity
    (input : ContributionInput) (config : TaxYearConfig)
  : SocialSecurityResult :=
  let base := socialSecurityBase input config in
  if Qeq_bool base 0 then
    {| ss_amount := 0;
       ss_base := 0;
       ss_breakdown := {| bd_retirement := 0;
                          bd_disability := 0;
                          bd_accident := 0;
                          bd_sickness := None;
                          bd_workFund := Some 0;
                          bd_solidarityFund := Some 0;
                          bd_healthInsurance := 0 |} |}
  else
    let retirement := base * retirement (socialSecurityRates config) in
    let disability := base * disability (socialSecurityRates config) in
    let accident := base * accident (socialSecurityRates config) in
    let sickness :=
      if voluntarySickness input
      then base * sickness (socialSecurityRates config)
      else 0 in
    let funded :=
      negb (match zusType input with preferencyjny => true | _ => false end)
      || Qle_bool (minimumWageGross config) base in
    let workFund := if funded then base * workFundRate config else 0 in
    let solidarityFund :=
      if funded then base * solidarityFundRate config else 0 in
    let total :=
      retirement + disability + accident + sickness + workFund + solidarityFund in
    {| ss_amount := total;
       ss_base := base;
       ss_breakdown := {| bd_retirement := retirement;
                          bd_disability := disability;
                          bd_accident := accident;
                          bd_sickness := number_or_undefined sickness;
                          bd_workFund := number_or_undefined workFund;
                          bd_solidarityFund := number_or_undefined solidarityFund;
                          bd_healthInsurance := 0 |} |}.

(** The spread [...socialResult.breakdown] followed by [healthInsurance]
    keeps every entry of the breakdown but the last. *)
Definition calculateMonthlyContributions
    (input : ContributionInput) (config : TaxYearConfig)
  : ContributionOutput :=
  let monthlyIncome := Math_max 0 (monthlyRevenue input - monthlyCosts input) in
  let socialResult := calculateSocialSecurity input config in
  let healthResult := calculateHealthInsurance input config monthlyIncome in
  {| socialSecurityTotal := ss_amount socialResult;
     healthInsuranceAmount := amount healthResult;
     deductibleSocialFromIncome := ss_amount socialResult;
     deductibleHealthFromIncome := deductibleFromIncome healthResult;
     deductibleHealthFromTax := Some (deductibleFromTax healthResult);
     breakdown :=
       {| bd_retirement := bd_retirement (ss_breakdown socialResult);
          bd_disability := bd_disability (ss_breakdown socialResult);
          bd_accident := bd_accident (ss_breakdown socialResult);
          bd_sickness := bd_sickness (ss_breakdown socialResult);
          bd_workFund := bd_workFund (ss_breakdown socialResult);
          bd_solidarityFund := bd_solidarityFund (ss_breakdown socialResult);
          bd_healthInsurance := amount healthResult |} |}.

End ContributionCalculator.

(** ** The tax calculator: data *)

Inductive EngineType : Type := combustion | hybrid_plugin | electric.
Inductive FinancingMethod : Type := cash | leasing.
Inductive UsageType : Type := mixed | full_business.

Definition CAR_DEPRECIATION_LIMITS (e : EngineType) : Q :=
  match e with
  | combustion => 100000
  | hybrid_plugin => 150000
  | electric => 225000
  end.

Definition ZUS_MONTHLY_RATES (z : ZusType) : Q :=
  match z with
  | ulga_na_start => 0
  | preferencyjny => 650
  | maly_plus => 1700
  | duzy => 1900
  end.

(** The shape of [HEALTH_INSURANCE]: one rate per taxation form. *)
Record HealthInsuranceRates : Type := {
  hi_liniowy : Q;
  hi_skala : Q;
  hi_ryczalt : Q
}.

Definition HEALTH_INSURANCE : HealthInsuranceRates :=
  {| hi_liniowy := 0.049; hi_skala := 0.09; hi_ryczalt := 0.049 |}.

Definition RYCZALT_RATES_it_services : Q := 0.12.
Definition RYCZALT_RATES_trade : Q := 0.03.
Definition RYCZALT_RATES_services_general : Q := 0.085.

Definition tax_free_allowance : Q := 30000.
Definition first_bracket_rate : Q := 0.12.
Definition first_bracket_limit : Q := 120000.
Definition second_bracket_rate : Q := 0.32.

Record CarInvestment : Type := {
  car_name : string;
  carPriceNetto : Q;
  engineType : EngineType;
  financingMethod : FinancingMethod;
  usageType : UsageType;
  leasingInitialPaymentPercent : option Q;
  leasingMonths : option Q;
  leasingBuyoutPercent : option Q;
  monthOfPurchase : Q
}.

Record EquipmentInvestment : Type := {
  eq_name : string;
  costNetto : Q;
  eq_monthOfPurchase : Q
}.

Record TaxYearConfigInput : Type := {
  year : Q;
  minimumWageGross : Q;
  averageWagePrognosis : Q;
  averageWageQ4PreviousYear : Q;
  retirementRate : Q;
  disabilityRate : Q;
  accidentRate : Q;
  sicknessRate : Q;
  workFundRate : Q;
  solidarityFundRate : Q;
  healthInsuranceRateSkala : Q;
  healthInsuranceRateLiniowy : Q;
  healthInsuranceLimitLinear : Q
}.

Record ScenarioConfig : Type := {
  yearlyRevenueNetto : Q;
  yearlyFixedCosts : Q;
  vatPayer : bool;
  vatRateMixed : Q;
  zusType : ZusType;
  carInvestments : list CarInvestment;
  equipmentInvestments : list EquipmentInvestment;
  taxYearConfig : option TaxYearConfigInput
}.

Record Breakdown : Type := {
  carDepreciationDeduction : Q;
  equipmentDepreciationDeduction : Q;
  vatBenefit : Q
}.

Record TaxResult : Type := {
  taxationForm : TaxationForm;
  grossRevenue : Q;
  totalCosts : Q;
  taxableIncome : Q;
  incomeTax : Q;
  healthInsurance : Q;
  zusTotal : Q;
  netCashInHand : Q;
  breakdown : Breakdown
}.

(** The object returned by [compareAll]. *)
Record Comparison : Type := {
  cmp_ryczalt : TaxResult;
  cmp_liniowy : TaxResult;
  cmp_skala : TaxResult
}.

Definition leasing_error : string :=
  "Leasing parameters required for leasing financing method".

(** ** The tax calculator: class [TaxCalculator] *)

Module TaxCalculator.

(** The table is local to the method; the [config] argument is not read. *)
Definition getZUSMonthly (zusType : ZusType) (config : option TaxYearConfigInput)
  : Q :=
  match zusType with
  | ulga_na_start => 0
  | preferencyjny => 650
  | maly_plus => 1700
  | duzy => 1900
  end.

Definition getHealthInsuranceRates (config : option TaxYearConfigInput)
  : HealthInsuranceRates :=
  match config with
  | Some c =>
      {| hi_liniowy := healthInsuranceRateLiniowy c;
         hi_skala := healthInsuranceRateSkala c;
         hi_ryczalt := healthInsuranceRateLiniowy c |}
  | None => HEALTH_INSURANCE
  end.

Definition getHealthInsuranceLimit (config : option TaxYearConfigInput) : Q :=
  match config with
  | Some c => healthInsuranceLimitLinear c
  | None => 11000
  end.

(** [Math.min(1, limit / car.carPriceNetto)].  The limit is positive, so
    for a price of 0 the quotient is [+Infinity] in JavaScript and the
    minimum is 1; that is the only division of the method whose divisor
    is not guarded.  (The rationals have one zero; on the binary64 value
    -0 the quotient is [-Infinity]: see [B64.calculateCarDepreciation],
    which performs the division as written.) *)
Definition deductibleRatio (limit price : Q) : Q :=
  if Qeq_bool price 0 then 1 else Math_min 1 (limit / price).

(** The leasing branch after its guard, with the three leasing fields
    read. *)
Definition leasingDeduction
    (car : CarInvestment) (limit : Q)
    (leasingMonths leasingInitialPaymentPercent leasingBuyoutPercent : Q) : Q :=
  let totalLeasingCost := carPriceNetto car in
  let initialPayment := totalLeasingCost * (leasingInitialPaymentPercent / 100) in
  let buyout := totalLeasingCost * (leasingBuyoutPercent / 100) in
  let capitalPart := totalLeasingCost - initialPayment - buyout in
  let deductibleRatio := deductibleRatio limit (carPriceNetto car) in
  let monthsInYear := Math_min (13 - monthOfPurchase car) leasingMonths in
  let monthlyCapital := capitalPart / leasingMonths in
  let yearlyCapitalDeductible := monthlyCapital * monthsInYear * deductibleRatio in
  let initialPaymentDeductible := initialPayment * deductibleRatio in
  let interestRate := 0.05 in
  let yearlyInterest := (capitalPart * interestRate * monthsInYear) / 12 in
  initialPaymentDeductible + yearlyCapitalDeductible + yearlyInterest.

Definition calculateCarDepreciation (car : CarInvestment) : result Q :=
  let limit := CAR_DEPRECIATION_LIMITS (engineType car) in
  match financingMethod car with
  | cash =>
      let depreciableAmount := Math_min (carPriceNetto car) limit in
      let monthsInYear := 13 - monthOfPurchase car in
      Ok ((depreciableAmount * 0.20 * monthsInYear) / 12)
  | leasing =>
      if negb (truthy (leasingMonths car))
         || negb (truthy (leasingInitialPaymentPercent car))
         || negb (truthy (leasingBuyoutPercent car))
      then Err leasing_error
      else
        match leasingMonths car, leasingInitialPaymentPercent car,
              leasingBuyoutPercent car with
        | Some months, Some initialPercent, Some buyoutPercent =>
            Ok (leasingDeduction car limit months initialPercent buyoutPercent)
        | _, _, _ => Err leasing_error (* not reached: a truthy field is present *)
        end
  end.

Definition calculateCarVATBenefit (car : CarInvestment) : Q :=
  let vatRate := 0.23 in
  let vatAmount := carPriceNetto car * vatRate in
  match usageType car with
  | full_business => vatAmount
  | mixed => vatAmount * 0.50
  end.

Definition calculateEquipmentDepreciation (equipment : EquipmentInvestment) : Q :=
  let monthsInYear := 13 - eq_monthOfPurchase equipment in
  (costNetto equipment * 0.30 * monthsInYear) / 12.

Definition calculateYearlyZUS (zusType : ZusType) (config : option TaxYearConfigInput)
  : Q :=
  let monthlyRate := getZUSMonthly zusType config in
  monthlyRate * 12.

(** The block [let vatBenefit = 0; if (config.vatPayer) { ... }], which the
    three regime calculators repeat verbatim: one loop over the cars, then
    one over the equipment, on the same accumulator. *)
Definition vatBenefitOf (config : ScenarioConfig) : Q :=
  if vatPayer config then
    let afterCars :=
      fold_left
        (fun vatBenefit car =>
           vatBenefit + calculateCarVATBenefit car * vatRateMixed config)
        (carInvestments config) 0 in
    fold_left
      (fun vatBenefit eq => vatBenefit + costNetto eq * 0.23 * vatRateMixed config)
      (equipmentInvestments config) afterCars
  else 0.

(** The two depreciation loops of [calculateLiniowy] and [calculateSkala]. *)
Definition carDepreciationOf (config : ScenarioConfig) : result Q :=
  forEach_add calculateCarDepreciation (carInvestments config) 0.

Definition equipmentDepreciationOf (config : ScenarioConfig) : Q :=
  fold_left
    (fun equipmentDepreciation eq =>
       equipmentDepreciation + calculateEquipmentDepreciation eq)
    (equipmentInvestments config) 0.

Definition calculateRyczalt (config : ScenarioConfig) : TaxResult :=
  let ryczaltRate := RYCZALT_RATES_it_services in
  let grossRevenue := yearlyRevenueNetto config in
  let incomeTax := grossRevenue * ryczaltRate in
  let healthInsurance := 6000 in
  let zusTotal := calculateYearlyZUS (zusType config) (taxYearConfig config) in
  let vatBenefit := vatBenefitOf config in
  let netCashInHand :=
    grossRevenue - incomeTax - healthInsurance - zusTotal + vatBenefit in
  {| taxationForm := ryczalt;
     grossRevenue := grossRevenue;
     totalCosts := 0;
     taxableIncome := grossRevenue;
     incomeTax := incomeTax;
     healthInsurance := healthInsurance;
     zusTotal := zusTotal;
     netCashInHand := netCashInHand;
     breakdown := {| carDepreciationDeduction := 0;
                     equipmentDepreciationDeduction := 0;
                     vatBenefit := vatBenefit |} |}.

(** [calculateLiniowy] once the car loop has returned [carDepreciation]. *)
Definition liniowyAfterCars (config : ScenarioConfig) (carDepreciation : Q)
  : TaxResult :=
  let grossRevenue := yearlyRevenueNetto config in
  let healthInsuranceRates := getHealthInsuranceRates (taxYearConfig config) in
  let healthInsuranceLimit := getHealthInsuranceLimit (taxYearConfig config) in
  let equipmentDepreciation := equipmentDepreciationOf config in
  let totalCosts := yearlyFixedCosts config + carDepreciation + equipmentDepreciation in
  let taxableIncome := Math_max 0 (grossRevenue - totalCosts) in
  let incomeTax := taxableIncome * 0.19 in
  let healthInsuranceBase := taxableIncome in
  let healthInsurance :=
    Math_min (healthInsuranceBase * hi_liniowy healthInsuranceRates)
             healthInsuranceLimit in
  let zusTotal := calculateYearlyZUS (zusType config) (taxYearConfig config) in
  let vatBenefit := vatBenefitOf config in
  let netCashInHand :=
    grossRevenue - totalCosts - incomeTax - healthInsurance - zusTotal + vatBenefit in
  {| taxationForm := liniowy;
     grossRevenue := grossRevenue;
     totalCosts := totalCosts;
     taxableIncome := taxableIncome;
     incomeTax := incomeTax;
     healthInsurance := healthInsurance;
     zusTotal := zusTotal;
     netCashInHand := netCashInHand;
     breakdown := {| carDepreciationDeduction := carDepreciation;
                     equipmentDepreciationDeduction := equipmentDepreciation;
                     vatBenefit := vatBenefit |} |}.

Definition calculateLiniowy (config : ScenarioConfig) : result TaxResult :=
  carDepreciation <- carDepreciationOf config ;;
  Ok (liniowyAfterCars config carDepreciation).

(** The progressive tax on [taxableIncome] (the [if / else] of
    [calculateSkala]). *)
Definition progressiveTax (taxableIncome : Q) : Q :=
  if Qle_bool taxableIncome first_bracket_limit then
    taxableIncome * first_bracket_rate
  else
    let firstBracketTax := first_bracket_limit * first_bracket_rate in
    let secondBracketIncome := taxableIncome - first_bracket_limit in
    let secondBracketTax := secondBracketIncome * second_bracket_rate in
    firstBracketTax + secondBracketTax.

(** [calculateSkala] once the car loop has returned [carDepreciation]. *)
Definition skalaAfterCars (config : ScenarioConfig) (carDepreciation : Q)
  : TaxResult :=
  let grossRevenue := yearlyRevenueNetto config in
  let healthInsuranceRates := getHealthInsuranceRates (taxYearConfig config) in
  let equipmentDepreciation := equipmentDepreciationOf config in
  let totalCosts := yearlyFixedCosts config + carDepreciation + equipmentDepreciation in
  let income := Math_max 0 (grossRevenue - totalCosts) in
  let taxableIncome := Math_max 0 (income - tax_free_allowance) in
  let incomeTax := progressiveTax taxableIncome in
  let healthInsurance := income * hi_skala healthInsuranceRates in
  let zusTotal := calculateYearlyZUS (zusType config) (taxYearConfig config) in
  let vatBenefit := vatBenefitOf config in
  let netCashInHand :=
    grossRevenue - totalCosts - incomeTax - healthInsurance - zusTotal + vatBenefit in
  {| taxationForm := skala;
     grossRevenue := grossRevenue;
     totalCosts := totalCosts;
     taxableIncome := taxableIncome;
     incomeTax := incomeTax;
     healthInsurance := healthInsurance;
     zusTotal := zusTotal;
     netCashInHand := netCashInHand;
     breakdown := {| carDepreciationDeduction := carDepreciation;
                     equipmentDepreciationDeduction := equipmentDepreciation;
                     vatBenefit := vatBenefit |} |}.

Definition calculateSkala (config : ScenarioConfig) : result TaxResult :=
  carDepreciation <- carDepreciationOf config ;;
  Ok (skalaAfterCars config carDepreciation).

(** The object literal is evaluated field by field: [calculateRyczalt]
    first, then [calculateLiniowy], then [calculateSkala]; an exception
    in one of them leaves [compareAll] without a result. *)
Definition compareAll (config : ScenarioConfig) : result Comparison :=
  let r := calculateRyczalt config in
  l <- calculateLiniowy config ;;
  s <- calculateSkala config ;;
  Ok {| cmp_ryczalt := r; cmp_liniowy := l; cmp_skala := s |}.

End TaxCalculator.

(** ** Scenarios used as examples *)

(** The seeded rate configuration for 2026 (the record the service loads
    for the default year), in the shape [TaxYearConfigInput]. *)
Definition DEFAULT_2026_INPUT : TaxYearConfigInput := {|
  year := 2026;
  minimumWageGross := 4626;
  averageWagePrognosis := 7286;
  averageWageQ4PreviousYear := 7000;
  retirementRate := 0.1952;
  disabilityRate := 0.08;
  accidentRate := 0.0167;
  sicknessRate := 0.0245;
  workFundRate := 0.0245;
  solidarityFundRate := 0.0245;
  healthInsuranceRateSkala := 0.09;
  healthInsuranceRateLiniowy := 0.049;
  healthInsuranceLimitLinear := 11600
|}.

(** Revenue 180,000, fixed costs 36,000, class maly_plus, VAT payer with a
    recoverable fraction of 1.0, no investments, 2026 rates. *)
Definition scenario_180k : ScenarioConfig := {|
  yearlyRevenueNetto := 180000;
  yearlyFixedCosts := 36000;
  vatPayer := true;
  vatRateMixed := 1.0;
  zusType := maly_plus;
  carInvestments := [];
  equipmentInvestments := [];
  taxYearConfig := Some DEFAULT_2026_INPUT
|}.

Import TaxCalculator.

(** ** The user interface: pure computations of the components *)

(** [Math.max(a, b, c)] on finite numbers. *)
Definition Math_max3 (a b c : Q) : Q := Qmax (Qmax a b) c.

(** [Math.round] on a finite number: the nearest integer, a tie going
    up. *)
Definition Math_round (x : Q) : Z := Qfloor (x + (1 # 2)).

(** The results step of the simulator page: the [isRecommended] flag it
    passes to each of the three [TaxDetailCard]s. *)
Module Simulator.

Definition bestNetCash (results : Comparison) : Q :=
  Math_max3 (netCashInHand (cmp_ryczalt results))
            (netCashInHand (cmp_liniowy results))
            (netCashInHand (cmp_skala results)).

Definition ryczaltRecommended (results : Comparison) : bool :=
  Qeq_bool (netCashInHand (cmp_ryczalt results)) (bestNetCash results).

Definition liniowyRecommended (results : Comparison) : bool :=
  Qeq_bool (netCashInHand (cmp_liniowy results)) (bestNetCash results).

Definition skalaRecommended (results : Comparison) : bool :=
  Qeq_bool (netCashInHand (cmp_skala results)) (bestNetCash results).

End Simulator.

(** [TaxComparisonChart]: one row of four rounded bars per regime. *)
Module TaxComparisonChart.

Record ChartRow : Type := {
  name : string;
  bar_netCash : Z;
  bar_incomeTax : Z;
  bar_healthInsurance : Z;
  bar_zus : Z
}.

Definition chartRow (label : string) (r : TaxResult) : ChartRow := {|
  name := label;
  bar_netCash := Math_round (netCashInHand r);
  bar_incomeTax := Math_round (incomeTax r);
  bar_healthInsurance := Math_round (healthInsurance r);
  bar_zus := Math_round (zusTotal r)
|}.

Definition data (results : Comparison) : list ChartRow :=
  [ chartRow "Ryczałt" (cmp_ryczalt results);
    chartRow "Liniowy 19%" (cmp_liniowy results);
    chartRow "Skala podatkowa" (cmp_skala results) ].

End TaxComparisonChart.

(** [CarInvestmentForm]: the warning shown under the price field. *)
Module CarInvestmentForm.

Definition ENGINE_TYPE_LIMITS (e : EngineType) : Q :=
  match e with
  | combustion => 100000
  | hybrid_plugin => 150000
  | electric => 225000
  end.

(** [car.carPriceNetto > limit]. *)
Definition exceedsLimit (car : CarInvestment) : bool :=
  negb (Qle_bool (carPriceNetto car) (ENGINE_TYPE_LIMITS (engineType car))).

(** The number the warning formats with [toFixed(0)]:
    [(limit / car.carPriceNetto) * 100]; it is only shown when
    [exceedsLimit] holds, so the price is not 0. *)
Definition deductiblePercent (car : CarInvestment) : Q :=
  (ENGINE_TYPE_LIMITS (engineType car) / carPriceNetto car) * 100.

End CarInvestmentForm.

(** [ConfigurationForm]: the initial state of the form. *)
Module ConfigurationForm.

Record ConfigurationData : Type := {
  yearlyRevenueNetto : Q;
  yearlyFixedCosts : Q;
  vatPayer : bool;
  vatRateMixed : Q;
  zusType : ZusType;
  currentTaxationForm : string;
  selectedTaxYear : Q
}.

(** [Partial<ConfigurationData>]: every field may be absent. *)
Record PartialConfigurationData : Type := {
  p_yearlyRevenueNetto : option Q;
  p_yearlyFixedCosts : option Q;
  p_vatPayer : option bool;
  p_vatRateMixed : option Q;
  p_zusType : option ZusType;
  p_currentTaxationForm : option string;
  p_selectedTaxYear : option Q
}.

Record AiSuggestion : Type := {
  revenue : Q;
  fixedCosts : Q
}.

(** [x?.f] on an optional object [x]. *)
Definition field {A B : Type} (x : option A) (f : A -> option B) : option B :=
  match x with
  | Some a => f a
  | None => None
  end.

(** [a || b] for two optional numbers. *)
Definition first_truthy (a b : option Q) : option Q :=
  if truthy a then a else b.

(** [s || d] for an optional string: an absent or empty string is falsy. *)
Definition string_or (s : option string) (d : string) : string :=
  match s with
  | Some EmptyString => d
  | Some str => str
  | None => d
  end.

(** [x ?? d]: only an absent value is replaced. *)
Definition nullish_or {A : Type} (x : option A) (d : A) : A :=
  match x with
  | Some a => a
  | None => d
  end.

Definition initialState
    (initialData : option PartialConfigurationData)
    (aiSuggestion : option AiSuggestion) : ConfigurationData := {|
  yearlyRevenueNetto :=
    number_or
      (first_truthy (field aiSuggestion (fun a => Some (revenue a)))
                    (field initialData p_yearlyRevenueNetto))
      180000;
  yearlyFixedCosts :=
    number_or
      (first_truthy (field aiSuggestion (fun a => Some (fixedCosts a)))
                    (field initialData p_yearlyFixedCosts))
      36000;
  vatPayer := nullish_or (field initialData p_vatPayer) true;
  vatRateMixed := nullish_or (field initialData p_vatRateMixed) 1.0;
  (* [initialData?.zusType || 'maly_plus']: a class, when present, is a
     non-empty string and so is truthy *)
  zusType := nullish_or (field initialData p_zusType) maly_plus;
  currentTaxationForm :=
    string_or (field initialData p_currentTaxationForm) "liniowy";
  selectedTaxYear := number_or (field initialData p_selectedTaxYear) 2026
|}.

End ConfigurationForm.

(** ** The HTTP routes that use the calculator

    The routes read and write four tables.  The tables are modelled as
    lists of rows in insertion order: [select().from(t).where(eq(c, v))]
    followed by [.get()] is the first row whose column [c] equals [v]
    ([find]), followed by [.all()] it is the list of such rows
    ([filter]).  Identifiers produced by [uuidv4()] and the current time
    are arguments of the routes that need them.  A route's [try / catch]
    is modelled for the exceptions of the calculator and of the table
    constraints named below, not for failures of the database
    connection. *)
Module Api.

Inductive InvestmentType : Type := equipment | car_leasing | car_cash.

Record ScenarioRow : Type := {
  s_id : string;
  s_createdAt : Z;
  s_title : option string;
  s_yearlyRevenueNetto : option Q;
  s_yearlyFixedCosts : option Q;
  s_vatPayer : option bool;
  s_vatRateMixed : option Q;
  s_zusType : ZusType;
  s_currentTaxationForm : TaxationForm
}.

Record InvestmentRow : Type := {
  i_id : string;
  i_scenarioId : string;
  i_name : string;
  i_costNetto : Q;
  i_monthOfPurchase : Q;
  i_type : InvestmentType
}.

Record CarDetailRow : Type := {
  cd_investmentId : string;
  cd_engineType : EngineType;
  cd_financingMethod : FinancingMethod;
  cd_carPriceNetto : Q;
  cd_leasingInitialPaymentPercent : option Q;
  cd_leasingMonths : option Q;
  cd_leasingBuyoutPercent : option Q;
  cd_usageType : UsageType
}.

Record TaxYearConfigRow : Type := {
  c_id : string;
  c_year : Q;
  c_minimumWageGross : Q;
  c_averageWagePrognosis : Q;
  c_averageWageQ4PreviousYear : Q;
  c_retirementRate : Q;
  c_disabilityRate : Q;
  c_accidentRate : Q;
  c_sicknessRate : Q;
  c_workFundRate : Q;
  c_solidarityFundRate : Q;
  c_healthInsuranceRateSkala : Q;
  c_healthInsuranceRateLiniowy : Q;
  c_healthInsuranceLimitLinear : Q;
  c_createdAt : Z;
  c_updatedAt : Z
}.

Record Db : Type := {
  scenarios : list ScenarioRow;
  investments : list InvestmentRow;
  carDetails : list CarDetailRow;
  taxYearConfigs : list TaxYearConfigRow
}.

(** *** POST /api/simulation/:id/calculate *)

Record CalculateBody : Type := {
  b_yearlyRevenueNetto : Q;
  b_yearlyFixedCosts : Q;
  b_selectedTaxYear : option Q
}.

Inductive CalculateResponse : Type :=
| Results (results : Comparison)
| NotFound (error : string)
| Failed (error : string) (details : string).

Definition status (r : CalculateResponse) : Z :=
  match r with
  | Results _ => 200
  | NotFound _ => 404
  | Failed _ _ => 500
  end.

(** [x || undefined] for a nullable column [x]. *)
Definition truthy_or_undefined (x : option Q) : option Q :=
  if truthy x then x else None.

Definition isCarType (t : InvestmentType) : bool :=
  match t with
  | car_leasing | car_cash => true
  | equipment => false
  end.

Definition carDetailOf (db : Db) (inv : InvestmentRow) : option CarDetailRow :=
  find (fun d => String.eqb (cd_investmentId d) (i_id inv)) (carDetails db).

(** The object pushed on [carInvestments]. *)
Definition carOf (inv : InvestmentRow) (carDetail : CarDetailRow)
  : CarInvestment := {|
  car_name := i_name inv;
  carPriceNetto := cd_carPriceNetto carDetail;
  engineType := cd_engineType carDetail;
  financingMethod := cd_financingMethod carDetail;
  usageType := cd_usageType carDetail;
  leasingInitialPaymentPercent :=
    truthy_or_undefined (cd_leasingInitialPaymentPercent carDetail);
  leasingMonths := truthy_or_undefined (cd_leasingMonths carDetail);
  leasingBuyoutPercent :=
    truthy_or_undefined (cd_leasingBuyoutPercent carDetail);
  monthOfPurchase := i_monthOfPurchase inv
|}.

(** The object pushed on [equipmentInvestments]. *)
Definition equipmentOf (inv : InvestmentRow) : EquipmentInvestment := {|
  eq_name := i_name inv;
  costNetto := i_costNetto inv;
  eq_monthOfPurchase := i_monthOfPurchase inv
|}.

(** One turn of the loop [for (const inv of investmentsList)]. *)
Definition pushInvestment (db : Db)
    (acc : list CarInvestment * list EquipmentInvestment) (inv : InvestmentRow)
  : list CarInvestment * list EquipmentInvestment :=
  if isCarType (i_type inv) then
    match carDetailOf db inv with
    | Some carDetail => (fst acc ++ [carOf inv carDetail], snd acc)
    | None => acc
    end
  else (fst acc, snd acc ++ [equipmentOf inv]).

Definition taxYearConfigOf (configRecord : TaxYearConfigRow) : TaxYearConfigInput := {|
  year := c_year configRecord;
  minimumWageGross := c_minimumWageGross configRecord;
  averageWagePrognosis := c_averageWagePrognosis configRecord;
  averageWageQ4PreviousYear := c_averageWageQ4PreviousYear configRecord;
  retirementRate := c_retirementRate configRecord;
  disabilityRate := c_disabilityRate configRecord;
  accidentRate := c_accidentRate configRecord;
  sicknessRate := c_sicknessRate configRecord;
  workFundRate := c_workFundRate configRecord;
  solidarityFundRate := c_solidarityFundRate configRecord;
  healthInsuranceRateSkala := c_healthInsuranceRateSkala configRecord;
  healthInsuranceRateLiniowy := c_healthInsuranceRateLiniowy configRecord;
  healthInsuranceLimitLinear := c_healthInsuranceLimitLinear configRecord
|}.

Definition findTaxYearConfig (db : Db) (year : Q) : option TaxYearConfigRow :=
  find (fun c => Qeq_bool (c_year c) year) (taxYearConfigs db).

(** The [config] object the route passes to [compareAll], for a scenario
    that was found. *)
Definition scenarioConfigOf (db : Db) (scenario : ScenarioRow)
    (body : CalculateBody) : ScenarioConfig :=
  let selectedTaxYear := number_or (b_selectedTaxYear body) 2026 in
  let taxYearConfig :=
    option_map taxYearConfigOf (findTaxYearConfig db selectedTaxYear) in
  let investmentsList :=
    filter (fun inv => String.eqb (i_scenarioId inv) (s_id scenario))
           (investments db) in
  let built := fold_left (pushInvestment db) investmentsList ([], []) in
  {| yearlyRevenueNetto := b_yearlyRevenueNetto body;
     yearlyFixedCosts := b_yearlyFixedCosts body;
     vatPayer :=
       match s_vatPayer scenario with Some v => v | None => true end;
     vatRateMixed :=
       match s_vatRateMixed scenario with Some v => v | None => 1.0 end;
     zusType := s_zusType scenario;
     carInvestments := fst built;
     equipmentInvestments := snd built;
     taxYearConfig := taxYearConfig |}.

Definition calculate (db : Db) (scenarioId : string) (body : CalculateBody)
  : CalculateResponse :=
  match find (fun sc => String.eqb (s_id sc) scenarioId) (scenarios db) with
  | None => NotFound "Scenario not found"
  | Some scenario =>
      match TaxCalculator.compareAll (scenarioConfigOf db scenario body) with
      | Ok results => Results results
      | Err message =>
          Failed "Failed to calculate taxes" ("Error: " ++ message)
      end
  end.

(** *** GET /api/tax-config/:year and POST /api/tax-config *)

(** The body of the POST.  The year and the three wage figures are taken
    as given (their columns are [notNull] without a default); the nine
    other figures may be absent. *)
Record TaxConfigBody : Type := {
  tb_year : Q;
  tb_minimumWageGross : Q;
  tb_averageWagePrognosis : Q;
  tb_averageWageQ4PreviousYear : Q;
  tb_retirementRate : option Q;
  tb_disabilityRate : option Q;
  tb_accidentRate : option Q;
  tb_sicknessRate : option Q;
  tb_workFundRate : option Q;
  tb_solidarityFundRate : option Q;
  tb_healthInsuranceRateSkala : option Q;
  tb_healthInsuranceRateLiniowy : option Q;
  tb_healthInsuranceLimitLinear : option Q
}.

(** [x ?? d]. *)
Definition nullish_or (x : option Q) (d : Q) : Q :=
  match x with
  | Some v => v
  | None => d
  end.

(** The row written by [update(...).set({...})] over [old]: a column whose
    value in [set] is [undefined] is left as it is. *)
Definition updatedRow (old : TaxYearConfigRow) (body : TaxConfigBody) (now : Z)
  : TaxYearConfigRow := {|
  c_id := c_id old;
  c_year := c_year old;
  c_minimumWageGross := tb_minimumWageGross body;
  c_averageWagePrognosis := tb_averageWagePrognosis body;
  c_averageWageQ4PreviousYear := tb_averageWageQ4PreviousYear body;
  c_retirementRate := nullish_or (tb_retirementRate body) (c_retirementRate old);
  c_disabilityRate := nullish_or (tb_disabilityRate body) (c_disabilityRate old);
  c_accidentRate := nullish_or (tb_accidentRate body) (c_accidentRate old);
  c_sicknessRate := nullish_or (tb_sicknessRate body) (c_sicknessRate old);
  c_workFundRate := nullish_or (tb_workFundRate body) (c_workFundRate old);
  c_solidarityFundRate :=
    nullish_or (tb_solidarityFundRate body) (c_solidarityFundRate old);
  c_healthInsuranceRateSkala :=
    nullish_or (tb_healthInsuranceRateSkala body) (c_healthInsuranceRateSkala old);
  c_healthInsuranceRateLiniowy :=
    nullish_or (tb_healthInsuranceRateLiniowy body)
               (c_healthInsuranceRateLiniowy old);
  c_healthInsuranceLimitLinear :=
    nullish_or (tb_healthInsuranceLimitLinear body)
               (c_healthInsuranceLimitLinear old);
  c_createdAt := c_createdAt old;
  c_updatedAt := now
|}.

(** The row written by [insert(...).values({...})]. *)
Definition insertedRow (id : string) (body : TaxConfigBody) (now : Z)
  : TaxYearConfigRow := {|
  c_id := id;
  c_year := tb_year body;
  c_minimumWageGross := tb_minimumWageGross body;
  c_averageWagePrognosis := tb_averageWagePrognosis body;
  c_averageWageQ4PreviousYear := tb_averageWageQ4PreviousYear body;
  c_retirementRate := nullish_or (tb_retirementRate body) 0.1952;
  c_disabilityRate := nullish_or (tb_disabilityRate body) 0.08;
  c_accidentRate := nullish_or (tb_accidentRate body) 0.0167;
  c_sicknessRate := nullish_or (tb_sicknessRate body) 0.0245;
  c_workFundRate := nullish_or (tb_workFundRate body) 0.0245;
  c_solidarityFundRate := nullish_or (tb_solidarityFundRate body) 0.0245;
  c_healthInsuranceRateSkala := nullish_or (tb_healthInsuranceRateSkala body) 0.09;
  c_healthInsuranceRateLiniowy :=
    nullish_or (tb_healthInsuranceRateLiniowy body) 0.049;
  c_healthInsuranceLimitLinear :=
    nullish_or (tb_healthInsuranceLimitLinear body) 11600;
  c_createdAt := now;
  c_updatedAt := now
|}.

Record SaveResponse : Type := {
  sr_id : string;
  sr_message : string
}.

Definition withTaxYearConfigs (db : Db) (rows : list TaxYearConfigRow) : Db := {|
  scenarios := scenarios db;
  investments := investments db;
  carDetails := carDetails db;
  taxYearConfigs := rows
|}.

(** POST /api/tax-config with a fresh identifier [id] and the time [now]:
    the table afterwards and the response. *)
Definition saveTaxConfig (db : Db) (body : TaxConfigBody) (id : string) (now : Z)
  : Db * SaveResponse :=
  match findTaxYearConfig db (tb_year body) with
  | Some existing =>
      (withTaxYearConfigs db
         (map (fun c =>
                 if Qeq_bool (c_year c) (tb_year body)
                 then updatedRow c body now else c)
              (taxYearConfigs db)),
       {| sr_id := c_id existing; sr_message := "Config updated" |})
  | None =>
      (withTaxYearConfigs db (taxYearConfigs db ++ [insertedRow id body now]),
       {| sr_id := id; sr_message := "Config created" |})
  end.

(** GET /api/tax-config/:year, for the year that [parseInt] returned: the
    row sent back, or nothing when the answer is 404. *)
Definition getTaxConfig (db : Db) (year : Q) : option TaxYearConfigRow :=
  findTaxYearConfig db year.

End Api.

(** ** The specification's formulas *)

Module CC := ContributionCalculator.

(** The flat-rate formula in the words of the specification: prior-year-Q4
    average wage * 9% * multiplier, the multiplier tiered by the cumulative
    yearly revenue (at most 60,000: 0.6; at most 300,000: 1.0; else 1.8). *)
Definition spec_flatRateHealth (averageWageQ4 yearlyRevenue : Q) : Q :=
  let multiplier :=
    if Qle_bool yearlyRevenue 60000 then 0.6
    else if Qle_bool yearlyRevenue 300000 then 1.0
    else 1.8 in
  averageWageQ4 * 0.09 * multiplier.



(** ** Notions used in the statements *)

(** The contribution input that describes a scenario under the flat-rate
    regime: monthly figures are a twelfth of the yearly ones and the
    cumulative revenue is the scenario's yearly revenue. *)
Definition ryczaltInputOf (config : ScenarioConfig) : CC.ContributionInput := {|
  CC.taxationForm := ryczalt;
  CC.zusType := zusType config;
  CC.monthlyRevenue := yearlyRevenueNetto config / 12;
  CC.monthlyCosts := yearlyFixedCosts config / 12;
  CC.monthlySocialSecurityBase := None;
  CC.voluntarySickness := false;
  CC.yearlyRevenueToDate := Some (yearlyRevenueNetto config)
|}.

(** The scenario with its yearly revenue replaced and every other field
    kept. *)
Definition withRevenue (config : ScenarioConfig) (revenue : Q) : ScenarioConfig := {|
  yearlyRevenueNetto := revenue;
  yearlyFixedCosts := yearlyFixedCosts config;
  vatPayer := vatPayer config;
  vatRateMixed := vatRateMixed config;
  zusType := zusType config;
  carInvestments := carInvestments config;
  equipmentInvestments := equipmentInvestments config;
  taxYearConfig := taxYearConfig config
|}.

(** The 2026 rates: the seeded 2026 record, or no record at all, in which
    case the calculator falls back on its built-in 2026 values. *)
Definition default_2026 (config : ScenarioConfig) : Prop :=
  taxYearConfig config = Some DEFAULT_2026_INPUT
  \/ taxYearConfig config = None.

(** A field that is present with a value other than 0. *)
Definition present_nonzero (o : option Q) : Prop :=
  exists q : Q, o = Some q /\ ~ q == 0.



(** ** More example inputs *)

(** A flat-rate contribution input with a given cumulative revenue. *)
Definition ryczaltInput (yearlyRevenueToDate : option Q) : CC.ContributionInput := {|
  CC.taxationForm := ryczalt;
  CC.zusType := maly_plus;
  CC.monthlyRevenue := 15000;
  CC.monthlyCosts := 3000;
  CC.monthlySocialSecurityBase := None;
  CC.voluntarySickness := false;
  CC.yearlyRevenueToDate := yearlyRevenueToDate
|}.

(** A combustion vehicle priced 150,000, bought for cash in January. *)
Definition car_combustion_150k : CarInvestment := {|
  car_name := "combustion 150k";
  carPriceNetto := 150000;
  engineType := combustion;
  financingMethod := cash;
  usageType := mixed;
  leasingInitialPaymentPercent := None;
  leasingMonths := None;
  leasingBuyoutPercent := None;
  monthOfPurchase := 1
|}.

(** An electric vehicle priced 300,000, leased from July for 48 months
    with a 10% down-payment and a 1% buyout. *)
Definition car_electric_lease : CarInvestment := {|
  car_name := "electric lease";
  carPriceNetto := 300000;
  engineType := electric;
  financingMethod := leasing;
  usageType := full_business;
  leasingInitialPaymentPercent := Some 10;
  leasingMonths := Some 48;
  leasingBuyoutPercent := Some 1;
  monthOfPurchase := 7
|}.

(** A 36-month lease with a 10% down-payment and a 0% buyout. *)
Definition car_zero_buyout : CarInvestment := {|
  car_name := "zero buyout";
  carPriceNetto := 120000;
  engineType := combustion;
  financingMethod := leasing;
  usageType := mixed;
  leasingInitialPaymentPercent := Some 10;
  leasingMonths := Some 36;
  leasingBuyoutPercent := Some 0;
  monthOfPurchase := 3
|}.

(** A lease over 0 months, the other two parameters being positive. *)
Definition car_zero_term : CarInvestment := {|
  car_name := "zero term";
  carPriceNetto := 120000;
  engineType := combustion;
  financingMethod := leasing;
  usageType := mixed;
  leasingInitialPaymentPercent := Some 10;
  leasingMonths := Some 0;
  leasingBuyoutPercent := Some 1;
  monthOfPurchase := 3
|}.

(** A lease whose term is not given. *)
Definition car_no_term : CarInvestment := {|
  car_name := "no term";
  carPriceNetto := 120000;
  engineType := combustion;
  financingMethod := leasing;
  usageType := mixed;
  leasingInitialPaymentPercent := Some 10;
  leasingMonths := None;
  leasingBuyoutPercent := Some 1;
  monthOfPurchase := 3
|}.

(** The 180,000 scenario with a given list of vehicles. *)
Definition scenario_with_cars (cars : list CarInvestment) : ScenarioConfig := {|
  yearlyRevenueNetto := 180000;
  yearlyFixedCosts := 36000;
  vatPayer := true;
  vatRateMixed := 1.0;
  zusType := maly_plus;
  carInvestments := cars;
  equipmentInvestments := [];
  taxYearConfig := Some DEFAULT_2026_INPUT
|}.

(** Equipment costing 10,000 bought in July. *)
Definition equipment_10k_july : EquipmentInvestment := {|
  eq_name := "laptop";
  costNetto := 10000;
  eq_monthOfPurchase := 7
|}.

(** An electric vehicle priced 400,000, bought for cash in January. *)
Definition car_electric_400k_cash : CarInvestment := {|
  car_name := "electric 400k";
  carPriceNetto := 400000;
  engineType := electric;
  financingMethod := cash;
  usageType := full_business;
  leasingInitialPaymentPercent := None;
  leasingMonths := None;
  leasingBuyoutPercent := None;
  monthOfPurchase := 1
|}.

(** An electric vehicle priced 250,000, bought for cash in January. *)
Definition car_electric_250k_cash : CarInvestment := {|
  car_name := "electric 250k";
  carPriceNetto := 250000;
  engineType := electric;
  financingMethod := cash;
  usageType := full_business;
  leasingInitialPaymentPercent := None;
  leasingMonths := None;
  leasingBuyoutPercent := None;
  monthOfPurchase := 1
|}.

(** Equipment costing 4,000 bought in November. *)
Definition equipment_4k_november : EquipmentInvestment := {|
  eq_name := "monitor";
  costNetto := 4000;
  eq_monthOfPurchase := 11
|}.

(** Two outcomes of regime calculators that both return, with results
    related by [R], or both raise the same error. *)
Definition both_return (R : TaxResult -> TaxResult -> Prop)
    (a b : result TaxResult) : Prop :=
  match a, b with
  | Ok x, Ok y => R x y
  | Err m, Err m' => m = m'
  | _, _ => False
  end.

(** The scenario with its contribution class replaced and every other
    field kept. *)
Definition withZusType (config : ScenarioConfig) (z : ZusType) : ScenarioConfig := {|
  yearlyRevenueNetto := yearlyRevenueNetto config;
  yearlyFixedCosts := yearlyFixedCosts config;
  vatPayer := vatPayer config;
  vatRateMixed := vatRateMixed config;
  zusType := z;
  carInvestments := carInvestments config;
  equipmentInvestments := equipmentInvestments config;
  taxYearConfig := taxYearConfig config
|}.

(** The scenario with its rate configuration replaced and every other
    field kept. *)
Definition withTaxYearConfig (config : ScenarioConfig)
    (c : option TaxYearConfigInput) : ScenarioConfig := {|
  yearlyRevenueNetto := yearlyRevenueNetto config;
  yearlyFixedCosts := yearlyFixedCosts config;
  vatPayer := vatPayer config;
  vatRateMixed := vatRateMixed config;
  zusType := zusType config;
  carInvestments := carInvestments config;
  equipmentInvestments := equipmentInvestments config;
  taxYearConfig := c
|}.

(** A year with revenue 30,000 and fixed costs 36,000, one piece of
    equipment, 2026 rates. *)
Definition scenario_loss : ScenarioConfig := {|
  yearlyRevenueNetto := 30000;
  yearlyFixedCosts := 36000;
  vatPayer := true;
  vatRateMixed := 1.0;
  zusType := maly_plus;
  carInvestments := [car_combustion_150k];
  equipmentInvestments := [equipment_10k_july];
  taxYearConfig := Some DEFAULT_2026_INPUT
|}.

(** Revenue 400,000, fixed costs 36,000, a leased and a cash-bought
    vehicle and one piece of equipment, half of the VAT recoverable, 2026
    rates. *)
Definition scenario_400k : ScenarioConfig := {|
  yearlyRevenueNetto := 400000;
  yearlyFixedCosts := 36000;
  vatPayer := true;
  vatRateMixed := 0.5;
  zusType := duzy;
  carInvestments := [car_electric_lease; car_combustion_150k];
  equipmentInvestments := [equipment_10k_july];
  taxYearConfig := Some DEFAULT_2026_INPUT
|}.

(** An optional number that JavaScript treats as false: absent, or 0. *)
Definition absent_or_zero (o : option Q) : Prop :=
  o = None \/ exists q : Q, o = Some q /\ q == 0.

(** A lease-financed vehicle one of whose lease parameters is absent
    or 0. *)
Definition lacks_lease_parameter (car : CarInvestment) : Prop :=
  financingMethod car = leasing
  /\ (absent_or_zero (leasingMonths car)
      \/ absent_or_zero (leasingInitialPaymentPercent car)
      \/ absent_or_zero (leasingBuyoutPercent car)).

(** The value of an optional entry of a breakdown, an absent entry
    counting for 0. *)
Definition entry (o : option Q) : Q :=
  match o with
  | Some q => q
  | None => 0
  end.

(** A contribution input with the given taxation form, contribution
    class, custom base and sickness option; monthly revenue 15,000 and
    costs 3,000. *)
Definition contributionInput (form : TaxationForm) (z : ZusType)
    (customBase : option Q) (sick : bool) : CC.ContributionInput := {|
  CC.taxationForm := form;
  CC.zusType := z;
  CC.monthlyRevenue := 15000;
  CC.monthlyCosts := 3000;
  CC.monthlySocialSecurityBase := customBase;
  CC.voluntarySickness := sick;
  CC.yearlyRevenueToDate := None
|}.

(** The contribution input with its contribution class, custom base and
    sickness option replaced. *)
Definition withContributionClass (input : CC.ContributionInput) (z : ZusType)
    (customBase : option Q) (sick : bool) : CC.ContributionInput := {|
  CC.taxationForm := CC.taxationForm input;
  CC.zusType := z;
  CC.monthlyRevenue := CC.monthlyRevenue input;
  CC.monthlyCosts := CC.monthlyCosts input;
  CC.monthlySocialSecurityBase := customBase;
  CC.voluntarySickness := sick;
  CC.yearlyRevenueToDate := CC.yearlyRevenueToDate input
|}.

(** Rates and wages that are not negative. *)
Definition nonnegative_config (config : CC.TaxYearConfig) : Prop :=
  0 <= CC.minimumWageGross config
  /\ 0 <= CC.averageWagePrognosis config
  /\ 0 <= CC.retirement (CC.socialSecurityRates config)
  /\ 0 <= CC.disability (CC.socialSecurityRates config)
  /\ 0 <= CC.accident (CC.socialSecurityRates config)
  /\ 0 <= CC.sickness (CC.socialSecurityRates config)
  /\ 0 <= CC.workFundRate config
  /\ 0 <= CC.solidarityFundRate config.

(** The object the calculate route would push for a vehicle if it passed
    the three lease columns as they are stored, without [|| undefined]. *)
Definition rawCarOf (inv : Api.InvestmentRow) (carDetail : Api.CarDetailRow)
  : CarInvestment := {|
  car_name := Api.i_name inv;
  carPriceNetto := Api.cd_carPriceNetto carDetail;
  engineType := Api.cd_engineType carDetail;
  financingMethod := Api.cd_financingMethod carDetail;
  usageType := Api.cd_usageType carDetail;
  leasingInitialPaymentPercent := Api.cd_leasingInitialPaymentPercent carDetail;
  leasingMonths := Api.cd_leasingMonths carDetail;
  leasingBuyoutPercent := Api.cd_leasingBuyoutPercent carDetail;
  monthOfPurchase := Api.i_monthOfPurchase inv
|}.

(** The database with its table of investments replaced. *)
Definition withInvestments (db : Api.Db) (rows : list Api.InvestmentRow) : Api.Db := {|
  Api.scenarios := Api.scenarios db;
  Api.investments := rows;
  Api.carDetails := Api.carDetails db;
  Api.taxYearConfigs := Api.taxYearConfigs db
|}.

(** A stored details row of a lease one of whose lease columns is null
    or 0. *)
Definition row_lacks_lease_parameter (d : Api.CarDetailRow) : Prop :=
  Api.cd_financingMethod d = leasing
  /\ (absent_or_zero (Api.cd_leasingMonths d)
      \/ absent_or_zero (Api.cd_leasingInitialPaymentPercent d)
      \/ absent_or_zero (Api.cd_leasingBuyoutPercent d)).

(** A small database: one scenario with a leased vehicle whose buyout is
    stored as 0, a piece of equipment, a car investment without a details
    row, and the 2026 record. *)
Definition example_db : Api.Db := {|
  Api.scenarios :=
    [ {| Api.s_id := "s1"; Api.s_createdAt := 0%Z; Api.s_title := None;
         Api.s_yearlyRevenueNetto := Some 0; Api.s_yearlyFixedCosts := Some 0;
         Api.s_vatPayer := Some true; Api.s_vatRateMixed := Some 1.0;
         Api.s_zusType := maly_plus; Api.s_currentTaxationForm := liniowy |} ];
  Api.investments :=
    [ {| Api.i_id := "i1"; Api.i_scenarioId := "s1"; Api.i_name := "car";
         Api.i_costNetto := 120000; Api.i_monthOfPurchase := 3;
         Api.i_type := Api.car_leasing |};
      {| Api.i_id := "i2"; Api.i_scenarioId := "s1"; Api.i_name := "laptop";
         Api.i_costNetto := 10000; Api.i_monthOfPurchase := 7;
         Api.i_type := Api.equipment |};
      {| Api.i_id := "i3"; Api.i_scenarioId := "s1"; Api.i_name := "ghost";
         Api.i_costNetto := 90000; Api.i_monthOfPurchase := 1;
         Api.i_type := Api.car_cash |} ];
  Api.carDetails :=
    [ {| Api.cd_investmentId := "i1"; Api.cd_engineType := combustion;
         Api.cd_financingMethod := leasing; Api.cd_carPriceNetto := 120000;
         Api.cd_leasingInitialPaymentPercent := Some 10;
         Api.cd_leasingMonths := Some 36;
         Api.cd_leasingBuyoutPercent := Some 0;
         Api.cd_usageType := mixed |} ];
  Api.taxYearConfigs :=
    [ {| Api.c_id := "cfg-2026"; Api.c_year := 2026;
         Api.c_minimumWageGross := 4626; Api.c_averageWagePrognosis := 7286;
         Api.c_averageWageQ4PreviousYear := 7000;
         Api.c_retirementRate := 0.1952; Api.c_disabilityRate := 0.08;
         Api.c_accidentRate := 0.0167; Api.c_sicknessRate := 0.0245;
         Api.c_workFundRate := 0.0245; Api.c_solidarityFundRate := 0.0245;
         Api.c_healthInsuranceRateSkala := 0.09;
         Api.c_healthInsuranceRateLiniowy := 0.049;
         Api.c_healthInsuranceLimitLinear := 11600;
         Api.c_createdAt := 1767225600000%Z;
         Api.c_updatedAt := 1767225600000%Z |} ]
|}.

Definition example_body : Api.CalculateBody := {|
  Api.b_yearlyRevenueNetto := 180000;
  Api.b_yearlyFixedCosts := 36000;
  Api.b_selectedTaxYear := None
|}.

(** The scenario with its VAT-recoverable fraction replaced and every
    other field kept. *)
Definition withVatRateMixed (config : ScenarioConfig) (fraction : Q)
  : ScenarioConfig := {|
  yearlyRevenueNetto := yearlyRevenueNetto config;
  yearlyFixedCosts := yearlyFixedCosts config;
  vatPayer := vatPayer config;
  vatRateMixed := fraction;
  zusType := zusType config;
  carInvestments := carInvestments config;
  equipmentInvestments := equipmentInvestments config;
  taxYearConfig := taxYearConfig config
|}.

(** Investments whose prices and costs are not negative. *)
Definition nonnegative_investments (config : ScenarioConfig) : Prop :=
  Forall (fun car => 0 <= carPriceNetto car) (carInvestments config)
  /\ Forall (fun eq => 0 <= costNetto eq) (equipmentInvestments config).

(** Two outcomes of one regime calculator: both return, the second with
    at least the taxable income and the income tax of the first, or both
    raise the same error. *)
Definition tax_le (a b : result TaxResult) : Prop :=
  both_return
    (fun x y => taxableIncome x <= taxableIncome y /\ incomeTax x <= incomeTax y)
    a b.

(** ** The tax calculator in binary64

    Class [TaxCalculator] once more, over the binary64 numbers of the
    kernel: every [+], [-], [*], [/] of the source is the rounded
    operation, every literal is the nearest binary64 value, comparisons
    are those of IEEE 754.  The definitions follow the source line by
    line, like those of module [TaxCalculator] above. *)

(** The rational number a finite binary64 value stands for (0 for the two
    zeros; an infinity or a NaN, which stands for no number, is sent
    to 0). *)
Definition binary64_value (x : float) : Q :=
  match FloatOps.Prim2SF x with
  | SpecFloat.S754_finite sign mantissa exponent =>
      (if sign then -1 else 1) * inject_Z (Zpos mantissa) * 2 ^ exponent
  | _ => 0
  end.

Module B64.

Local Open Scope float_scope.

(** Truthiness of an optional number: [undefined], [0], [-0] and [NaN]
    are falsy. *)
Definition truthy (o : option float) : bool :=
  match o with
  | Some x => negb (x =? 0) && negb (is_nan x)
  | None => false
  end.

(** [Math.min] and [Math.max] on two numbers: NaN if one of them is NaN,
    and [-0] counts as less than [+0]. *)
Definition Math_min (a b : float) : float :=
  if is_nan a || is_nan b then nan
  else if a <? b then a
  else if b <? a then b
  else if get_sign a then a else b.

Definition Math_max (a b : float) : float :=
  if is_nan a || is_nan b then nan
  else if a <? b then b
  else if b <? a then a
  else if get_sign a then b else a.

Fixpoint forEach_add {A : Type} (f : A -> result float) (xs : list A)
    (acc : float) : result float :=
  match xs with
  | [] => Ok acc
  | x :: rest => d <- f x ;; forEach_add f rest (acc + d)
  end.

Definition CAR_DEPRECIATION_LIMITS (e : EngineType) : float :=
  match e with
  | combustion => 100000
  | hybrid_plugin => 150000
  | electric => 225000
  end.

Record HealthInsuranceRates : Type := {
  hi_liniowy : float;
  hi_skala : float;
  hi_ryczalt : float
}.

Definition HEALTH_INSURANCE : HealthInsuranceRates :=
  {| hi_liniowy := 0.049; hi_skala := 0.09; hi_ryczalt := 0.049 |}.

Definition RYCZALT_RATES_it_services : float := 0.12.

Definition tax_free_allowance : float := 30000.
Definition first_bracket_rate : float := 0.12.
Definition first_bracket_limit : float := 120000.
Definition second_bracket_rate : float := 0.32.

Record CarInvestment : Type := {
  car_name : string;
  carPriceNetto : float;
  engineType : EngineType;
  financingMethod : FinancingMethod;
  usageType : UsageType;
  leasingInitialPaymentPercent : option float;
  leasingMonths : option float;
  leasingBuyoutPercent : option float;
  monthOfPurchase : float
}.

Record EquipmentInvestment : Type := {
  eq_name : string;
  costNetto : float;
  eq_monthOfPurchase : float
}.

Record TaxYearConfigInput : Type := {
  year : float;
  minimumWageGross : float;
  averageWagePrognosis : float;
  averageWageQ4PreviousYear : float;
  retirementRate : float;
  disabilityRate : float;
  accidentRate : float;
  sicknessRate : float;
  workFundRate : float;
  solidarityFundRate : float;
  healthInsuranceRateSkala : float;
  healthInsuranceRateLiniowy : float;
  healthInsuranceLimitLinear : float
}.

Record ScenarioConfig : Type := {
  yearlyRevenueNetto : float;
  yearlyFixedCosts : float;
  vatPayer : bool;
  vatRateMixed : float;
  zusType : ZusType;
  carInvestments : list CarInvestment;
  equipmentInvestments : list EquipmentInvestment;
  taxYearConfig : option TaxYearConfigInput
}.

Record Breakdown : Type := {
  carDepreciationDeduction : float;
  equipmentDepreciationDeduction : float;
  vatBenefit : float
}.

Record TaxResult : Type := {
  taxationForm : TaxationForm;
  grossRevenue : float;
  totalCosts : float;
  taxableIncome : float;
  incomeTax : float;
  healthInsurance : float;
  zusTotal : float;
  netCashInHand : float;
  breakdown : Breakdown
}.

Definition getZUSMonthly (zusType : ZusType) (config : option TaxYearConfigInput)
  : float :=
  match zusType with
  | ulga_na_start => 0
  | preferencyjny => 650
  | maly_plus => 1700
  | duzy => 1900
  end.

Definition getHealthInsuranceRates (config : option TaxYearConfigInput)
  : HealthInsuranceRates :=
  match config with
  | Some c =>
      {| hi_liniowy := healthInsuranceRateLiniowy c;
         hi_skala := healthInsuranceRateSkala c;
         hi_ryczalt := healthInsuranceRateLiniowy c |}
  | None => HEALTH_INSURANCE
  end.

Definition getHealthInsuranceLimit (config : option TaxYearConfigInput) : float :=
  match config with
  | Some c => healthInsuranceLimitLinear c
  | None => 11000
  end.

(** The leasing branch after its guard, with the three leasing fields
    read.  The division by the price is performed as written. *)
Definition leasingDeduction
    (car : CarInvestment) (limit : float)
    (leasingMonths leasingInitialPaymentPercent leasingBuyoutPercent : float)
  : float :=
  let totalLeasingCost := carPriceNetto car in
  let initialPayment := totalLeasingCost * (leasingInitialPaymentPercent / 100) in
  let buyout := totalLeasingCost * (leasingBuyoutPercent / 100) in
  let capitalPart := totalLeasingCost - initialPayment - buyout in
  let deductibleRatio := Math_min 1 (limit / carPriceNetto car) in
  let monthsInYear := Math_min (13 - monthOfPurchase car) leasingMonths in
  let monthlyCapital := capitalPart / leasingMonths in
  let yearlyCapitalDeductible := monthlyCapital * monthsInYear * deductibleRatio in
  let initialPaymentDeductible := initialPayment * deductibleRatio in
  let interestRate := 0.05 in
  let yearlyInterest := (capitalPart * interestRate * monthsInYear) / 12 in
  initialPaymentDeductible + yearlyCapitalDeductible + yearlyInterest.

Definition calculateCarDepreciation (car : CarInvestment) : result float :=
  let limit := CAR_DEPRECIATION_LIMITS (engineType car) in
  match financingMethod car with
  | cash =>
      let depreciableAmount := Math_min (carPriceNetto car) limit in
      let monthsInYear := 13 - monthOfPurchase car in
      Ok ((depreciableAmount * 0.20 * monthsInYear) / 12)
  | leasing =>
      if negb (truthy (leasingMonths car))
         || negb (truthy (leasingInitialPaymentPercent car))
         || negb (truthy (leasingBuyoutPercent car))
      then Err leasing_error
      else
        match leasingMonths car, leasingInitialPaymentPercent car,
              leasingBuyoutPercent car with
        | Some months, Some initialPercent, Some buyoutPercent =>
            Ok (leasingDeduction car limit months initialPercent buyoutPercent)
        | _, _, _ => Err leasing_error (* not reached: a truthy field is present *)
        end
  end.

Definition calculateCarVATBenefit (car : CarInvestment) : float :=
  let vatRate := 0.23 in
  let vatAmount := carPriceNetto car * vatRate in
  match usageType car with
  | full_business => vatAmount
  | mixed => vatAmount * 0.50
  end.

Definition calculateEquipmentDepreciation (equipment : EquipmentInvestment)
  : float :=
  let monthsInYear := 13 - eq_monthOfPurchase equipment in
  (costNetto equipment * 0.30 * monthsInYear) / 12.

Definition calculateYearlyZUS (zusType : ZusType) (config : option TaxYearConfigInput)
  : float :=
  let monthlyRate := getZUSMonthly zusType config in
  monthlyRate * 12.

Definition vatBenefitOf (config : ScenarioConfig) : float :=
  if vatPayer config then
    let afterCars :=
      fold_left
        (fun vatBenefit car =>
           vatBenefit + calculateCarVATBenefit car * vatRateMixed config)
        (carInvestments config) 0 in
    fold_left
      (fun vatBenefit eq => vatBenefit + costNetto eq * 0.23 * vatRateMixed config)
      (equipmentInvestments config) afterCars
  else 0.

Definition carDepreciationOf (config : ScenarioConfig) : result float :=
  forEach_add calculateCarDepreciation (carInvestments config) 0.

Definition equipmentDepreciationOf (config : ScenarioConfig) : float :=
  fold_left
    (fun equipmentDepreciation eq =>
       equipmentDepreciation + calculateEquipmentDepreciation eq)
    (equipmentInvestments config) 0.

Definition calculateRyczalt (config : ScenarioConfig) : TaxResult :=
  let ryczaltRate := RYCZALT_RATES_it_services in
  let grossRevenue := yearlyRevenueNetto config in
  let incomeTax := grossRevenue * ryczaltRate in
  let healthInsurance := 6000 in
  let zusTotal := calculateYearlyZUS (zusType config) (taxYearConfig config) in
  let vatBenefit := vatBenefitOf config in
  let netCashInHand :=
    grossRevenue - incomeTax - healthInsurance - zusTotal + vatBenefit in
  {| taxationForm := ryczalt;
     grossRevenue := grossRevenue;
     totalCosts := 0;
     taxableIncome := grossRevenue;
     incomeTax := incomeTax;
     healthInsurance := healthInsurance;
     zusTotal := zusTotal;
     netCashInHand := netCashInHand;
     breakdown := {| carDepreciationDeduction := 0;
                     equipmentDepreciationDeduction := 0;
                     vatBenefit := vatBenefit |} |}.

Definition calculateLiniowy (config : ScenarioConfig) : result TaxResult :=
  let grossRevenue := yearlyRevenueNetto config in
  let healthInsuranceRates := getHealthInsuranceRates (taxYearConfig config) in
  let healthInsuranceLimit := getHealthInsuranceLimit (taxYearConfig config) in
  carDepreciation <- carDepreciationOf config ;;
  let equipmentDepreciation := equipmentDepreciationOf config in
  let totalCosts := yearlyFixedCosts config + carDepreciation + equipmentDepreciation in
  let taxableIncome := Math_max 0 (grossRevenue - totalCosts) in
  let incomeTax := taxableIncome * 0.19 in
  let healthInsuranceBase := taxableIncome in
  let healthInsurance :=
    Math_min (healthInsuranceBase * hi_liniowy healthInsuranceRates)
             healthInsuranceLimit in
  let zusTotal := calculateYearlyZUS (zusType config) (taxYearConfig config) in
  let vatBenefit := vatBenefitOf config in
  let netCashInHand :=
    grossRevenue - totalCosts - incomeTax - healthInsurance - zusTotal + vatBenefit in
  Ok {| taxationForm := liniowy;
        grossRevenue := grossRevenue;
        totalCosts := totalCosts;
        taxableIncome := taxableIncome;
        incomeTax := incomeTax;
        healthInsurance := healthInsurance;
        zusTotal := zusTotal;
        netCashInHand := netCashInHand;
        breakdown := {| carDepreciationDeduction := carDepreciation;
                        equipmentDepreciationDeduction := equipmentDepreciation;
                        vatBenefit := vatBenefit |} |}.

Definition calculateSkala (config : ScenarioConfig) : result TaxResult :=
  let grossRevenue := yearlyRevenueNetto config in
  let healthInsuranceRates := getHealthInsuranceRates (taxYearConfig config) in
  carDepreciation <- carDepreciationOf config ;;
  let equipmentDepreciation := equipmentDepreciationOf config in
  let totalCosts := yearlyFixedCosts config + carDepreciation + equipmentDepreciation in
  let income := Math_max 0 (grossRevenue - totalCosts) in
  let taxableIncome := Math_max 0 (income - tax_free_allowance) in
  let incomeTax :=
    if taxableIncome <=? first_bracket_limit then
      taxableIncome * first_bracket_rate
    else
      let firstBracketTax := first_bracket_limit * first_bracket_rate in
      let secondBracketIncome := taxableIncome - first_bracket_limit in
      let secondBracketTax := secondBracketIncome * second_bracket_rate in
      firstBracketTax + secondBracketTax in
  let healthInsurance := income * hi_skala healthInsuranceRates in
  let zusTotal := calculateYearlyZUS (zusType config) (taxYearConfig config) in
  let vatBenefit := vatBenefitOf config in
  let netCashInHand :=
    grossRevenue - totalCosts - incomeTax - healthInsurance - zusTotal + vatBenefit in
  Ok {| taxationForm := skala;
        grossRevenue := grossRevenue;
        totalCosts := totalCosts;
        taxableIncome := taxableIncome;
        incomeTax := incomeTax;
        healthInsurance := healthInsurance;
        zusTotal := zusTotal;
        netCashInHand := netCashInHand;
        breakdown := {| carDepreciationDeduction := carDepreciation;
                        equipmentDepreciationDeduction := equipmentDepreciation;
                        vatBenefit := vatBenefit |} |}.

(** The seeded rate configuration for 2026. *)
Definition DEFAULT_2026_INPUT : TaxYearConfigInput := {|
  year := 2026;
  minimumWageGross := 4626;
  averageWagePrognosis := 7286;
  averageWageQ4PreviousYear := 7000;
  retirementRate := 0.1952;
  disabilityRate := 0.08;
  accidentRate := 0.0167;
  sicknessRate := 0.0245;
  workFundRate := 0.0245;
  solidarityFundRate := 0.0245;
  healthInsuranceRateSkala := 0.09;
  healthInsuranceRateLiniowy := 0.049;
  healthInsuranceLimitLinear := 11600
|}.

(** The 180,000 scenario (fixed costs 36,000, class maly_plus, VAT payer
    with a recoverable fraction of 1.0, no investments, 2026 rates) with
    a given yearly revenue. *)
Definition scenario_180k_at (revenue : float) : ScenarioConfig := {|
  yearlyRevenueNetto := revenue;
  yearlyFixedCosts := 36000;
  vatPayer := true;
  vatRateMixed := 1.0;
  zusType := maly_plus;
  carInvestments := [];
  equipmentInvestments := [];
  taxYearConfig := Some DEFAULT_2026_INPUT
|}.

(** A combustion vehicle priced 150,000, bought for cash in a given
    month. *)
Definition car_combustion_150k_in (month : float) : CarInvestment := {|
  car_name := "combustion 150k";
  carPriceNetto := 150000;
  engineType := combustion;
  financingMethod := cash;
  usageType := mixed;
  leasingInitialPaymentPercent := None;
  leasingMonths := None;
  leasingBuyoutPercent := None;
  monthOfPurchase := month
|}.

(** A vehicle of a given engine class and price, bought for cash in a
    given month. *)
Definition car_cash (engine : EngineType) (price month : float)
  : CarInvestment := {|
  car_name := "cash";
  carPriceNetto := price;
  engineType := engine;
  financingMethod := cash;
  usageType := mixed;
  leasingInitialPaymentPercent := None;
  leasingMonths := None;
  leasingBuyoutPercent := None;
  monthOfPurchase := month
|}.

(** Whether two outcomes of [calculateCarDepreciation] are the same
    number. *)
Definition same_deduction (a b : result float) : bool :=
  match a, b with
  | Ok x, Ok y => x =? y
  | _, _ => false
  end.

(** A combustion vehicle of a given price, leased from January for 48
    months with a 10% down-payment and a 1% buyout. *)
Definition car_lease_priced (price : float) : CarInvestment := {|
  car_name := "lease";
  carPriceNetto := price;
  engineType := combustion;
  financingMethod := leasing;
  usageType := mixed;
  leasingInitialPaymentPercent := Some 10;
  leasingMonths := Some 48;
  leasingBuyoutPercent := Some 1;
  monthOfPurchase := 1
|}.


End B64.

(** * Properties *)

(** ** Arithmetic helpers *)

(** Case analysis on every [Math.min] / [Math.max] of the goal, leaving
    linear arithmetic. *)
Ltac split_minmax :=
  unfold Math_min, Math_max in *;
  repeat match goal with
  | |- context [Qmax ?a ?b] =>
      let H := fresh "Hmax" in
      let E := fresh "Emax" in
      destruct (Q.max_spec a b) as [[H E] | [H E]];
      rewrite E in *; clear E
  | |- context [Qmin ?a ?b] =>
      let H := fresh "Hmin" in
      let E := fresh "Emin" in
      destruct (Q.min_spec a b) as [[H E] | [H E]];
      rewrite E in *; clear E
  end.

Lemma Qle_bool_false (x y : Q) : Qle_bool x y = false -> y < x.
Proof.
  intros H. apply Qnot_le_lt. intros Hle.
  apply Qle_bool_iff in Hle. congruence.
Qed.

Lemma truthy_Some (q : Q) : truthy (Some q) = true <-> ~ q == 0.
Proof.
  unfold truthy. rewrite negb_true_iff. split.
  - intros H Hq. apply Qeq_bool_iff in Hq. congruence.
  - intros H. destruct (Qeq_bool q 0) eqn:E; [|reflexivity].
    apply Qeq_bool_iff in E. contradiction.
Qed.

Lemma truthy_zero (q : Q) : q == 0 -> truthy (Some q) = false.
Proof.
  intros H. unfold truthy. apply Qeq_bool_iff in H. now rewrite H.
Qed.

(** ** The end-to-end example *)

(** C1. On the scenario with revenue 180,000, fixed costs 36,000, class
    maly_plus, VAT payer, recoverable fraction 1.0, no investments and the
    2026 rates: [calculateRyczalt] gives income tax 21,600 = 180,000 * 0.12;
    [calculateLiniowy] gives taxable income 144,000 and income tax
    27,360 = 144,000 * 0.19; [calculateSkala] gives taxable income 114,000
    (which is at most 120,000) and income tax 13,680 = 114,000 * 0.12. *)
Theorem C1_end_to_end_example :
  incomeTax (calculateRyczalt scenario_180k) == 21600
  /\ 21600 == 180000 * 0.12
  /\ (exists l, calculateLiniowy scenario_180k = Ok l
       /\ taxableIncome l == 144000
       /\ incomeTax l == 27360
       /\ 27360 == 144000 * 0.19)
  /\ (exists s, calculateSkala scenario_180k = Ok s
       /\ taxableIncome s == 114000
       /\ taxableIncome s <= 120000
       /\ incomeTax s == 13680
       /\ 13680 == 114000 * 0.12).
Proof.
  split; [vm_compute; reflexivity|].
  split; [vm_compute; reflexivity|].
  split.
  - eexists. split; [reflexivity|].
    repeat split; vm_compute; reflexivity.
  - eexists. split; [reflexivity|].
    repeat split; vm_compute; try reflexivity; discriminate.
Qed.

(** The operations the three calculators perform on that scenario, in
    IEEE 754 binary64 (the arithmetic of a JavaScript [number], literals
    rounded to the nearest double): every rounded result is the exact
    one. *)
Remark binary64_end_to_end_example :
  (PrimFloat.eqb (180000 * 0.12) 21600
   && PrimFloat.eqb (180000 - (36000 + 0 + 0)) 144000
   && PrimFloat.eqb (144000 * 0.19) 27360
   && PrimFloat.eqb (144000 - 30000) 114000
   && PrimFloat.leb 114000 120000
   && PrimFloat.eqb (114000 * 0.12) 13680)%float
  = true.
Proof. reflexivity. Qed.

(** ** Social insurance for the year *)

(** C8. [calculateYearlyZUS] does not depend on the rate configuration it
    is given (present or absent): it is the fixed monthly tier times 12,
    that is 0 for ulga_na_start, 7,800 for preferencyjny, 20,400 for
    maly_plus and 22,800 for duzy. *)
Theorem C8_yearly_zus_ignores_config :
  forall (z : ZusType) (c1 c2 : option TaxYearConfigInput),
    calculateYearlyZUS z c1 = calculateYearlyZUS z c2
    /\ calculateYearlyZUS z c1 = ZUS_MONTHLY_RATES z * 12
    /\ calculateYearlyZUS ulga_na_start c1 == 0
    /\ calculateYearlyZUS preferencyjny c1 == 7800
    /\ calculateYearlyZUS maly_plus c1 == 20400
    /\ calculateYearlyZUS duzy c1 == 22800.
Proof.
  intros z c1 c2. split; [reflexivity|].
  split; [destruct z; reflexivity|].
  repeat split; vm_compute; reflexivity.
Qed.

(** ** Health insurance of the flat-rate regime *)

(** On the 180,000 scenario the charge of [calculateRyczalt] is 6,000,
    while the flat-rate formula gives 630 a month (7,560 a year), whether
    it is taken from the specification's words or from
    [calculateHealthInsurance]. *)
Lemma C2_counterexample :
  healthInsurance (calculateRyczalt scenario_180k) == 6000
  /\ spec_flatRateHealth 7000 180000 == 630
  /\ CC.amount (CC.calculateHealthInsurance (ryczaltInputOf scenario_180k)
                  CC.DEFAULT_2026_CONFIG 12000) == 630
  /\ ~ healthInsurance (calculateRyczalt scenario_180k)
       == spec_flatRateHealth 7000 180000
  /\ ~ healthInsurance (calculateRyczalt scenario_180k)
       == 12 * spec_flatRateHealth 7000 180000
  /\ ~ healthInsurance (calculateRyczalt scenario_180k)
       == CC.amount (CC.calculateHealthInsurance (ryczaltInputOf scenario_180k)
                       CC.DEFAULT_2026_CONFIG 12000).
Proof.
  repeat split; vm_compute; try reflexivity; discriminate.
Qed.

(** C2 (amended). For every scenario the health-insurance charge of
    [calculateRyczalt] is the fixed amount 6,000: it is the same for any
    two scenarios, whatever their rate configuration and revenue. *)
Theorem C2_ryczalt_health_is_fixed :
  forall config : ScenarioConfig,
    healthInsurance (calculateRyczalt config) = 6000
    /\ forall config' : ScenarioConfig,
         healthInsurance (calculateRyczalt config)
         = healthInsurance (calculateRyczalt config').
Proof.
  intros config. split; reflexivity.
Qed.

(** The multiplier of the ryczalt branch, by cases on the cumulative
    revenue. *)
Lemma rateMultiplier_absent (input : CC.ContributionInput) :
  CC.yearlyRevenueToDate input = None -> CC.rateMultiplier input = 1.8.
Proof.
  intros H. unfold CC.rateMultiplier. rewrite H. reflexivity.
Qed.

Lemma rateMultiplier_zero (input : CC.ContributionInput) (y : Q) :
  CC.yearlyRevenueToDate input = Some y -> y == 0 ->
  CC.rateMultiplier input = 1.8.
Proof.
  intros H Hy. unfold CC.rateMultiplier, truthy_and_le. rewrite H.
  rewrite (truthy_zero y Hy). reflexivity.
Qed.

Lemma rateMultiplier_low (input : CC.ContributionInput) (y : Q) :
  CC.yearlyRevenueToDate input = Some y -> ~ y == 0 -> y <= 60000 ->
  CC.rateMultiplier input = 0.6.
Proof.
  intros H Hy Hle. unfold CC.rateMultiplier, truthy_and_le. rewrite H.
  apply truthy_Some in Hy. rewrite Hy.
  apply Qle_bool_iff in Hle. rewrite Hle. reflexivity.
Qed.

Lemma ryczalt_amount (input : CC.ContributionInput) (config : CC.TaxYearConfig)
    (monthlyIncome : Q) :
  CC.taxationForm input = ryczalt ->
  CC.amount (CC.calculateHealthInsurance input config monthlyIncome)
  = CC.averageWageQ4PreviousYear config * 0.09 * CC.rateMultiplier input.
Proof.
  intros H. unfold CC.calculateHealthInsurance. rewrite H. reflexivity.
Qed.

(** With the cumulative revenue absent, the amount under the 2026 defaults
    is 7,000 * 0.09 * 1.8 = 1,134, not 7,000 * 0.09 * 0.6 = 378. *)
Lemma C7_counterexample :
  CC.amount (CC.calculateHealthInsurance (ryczaltInput None)
               CC.DEFAULT_2026_CONFIG 12000) == 1134
  /\ ~ CC.amount (CC.calculateHealthInsurance (ryczaltInput None)
                    CC.DEFAULT_2026_CONFIG 12000)
       == CC.averageWageQ4PreviousYear CC.DEFAULT_2026_CONFIG * 0.09 * 0.6.
Proof.
  split; vm_compute; [reflexivity | discriminate].
Qed.

(** C7 (amended). For a flat-rate contribution input, when the cumulative
    yearly revenue is present, not zero and at most 60,000, the amount is
    the Q4 average wage * 0.09 * 0.6; when it is absent, the amount is the
    Q4 average wage * 0.09 * 1.8. *)
Theorem C7_ryczalt_lowest_tier :
  forall (input : CC.ContributionInput) (config : CC.TaxYearConfig)
         (monthlyIncome : Q),
    CC.taxationForm input = ryczalt ->
    (forall y : Q,
        CC.yearlyRevenueToDate input = Some y -> ~ y == 0 -> y <= 60000 ->
        CC.amount (CC.calculateHealthInsurance input config monthlyIncome)
        == CC.averageWageQ4PreviousYear config * 0.09 * 0.6)
    /\ (CC.yearlyRevenueToDate input = None ->
        CC.amount (CC.calculateHealthInsurance input config monthlyIncome)
        == CC.averageWageQ4PreviousYear config * 0.09 * 1.8).
Proof.
  intros input config monthlyIncome Hform. split.
  - intros y Hy Hnz Hle.
    rewrite (ryczalt_amount _ _ _ Hform), (rateMultiplier_low _ _ Hy Hnz Hle).
    reflexivity.
  - intros Hy.
    rewrite (ryczalt_amount _ _ _ Hform), (rateMultiplier_absent _ Hy).
    reflexivity.
Qed.

Lemma C7_witness :
  CC.amount (CC.calculateHealthInsurance (ryczaltInput (Some 50000))
               CC.DEFAULT_2026_CONFIG 12000)
  == 7000 * 0.09 * 0.6
  /\ CC.amount (CC.calculateHealthInsurance (ryczaltInput None)
                  CC.DEFAULT_2026_CONFIG 12000)
     == 7000 * 0.09 * 1.8.
Proof.
  split.
  - apply (proj1 (C7_ryczalt_lowest_tier (ryczaltInput (Some 50000))
                    CC.DEFAULT_2026_CONFIG 12000 eq_refl) 50000).
    + reflexivity.
    + intros H; discriminate H.
    + intros H; discriminate H.
  - apply (proj2 (C7_ryczalt_lowest_tier (ryczaltInput None)
                    CC.DEFAULT_2026_CONFIG 12000 eq_refl)).
    reflexivity.
Defined.

(** A cumulative revenue of exactly 0 takes the [else] branch as well. *)
Lemma ryczalt_health_at_zero_revenue :
  forall (config : CC.TaxYearConfig) (monthlyIncome : Q),
    CC.amount (CC.calculateHealthInsurance (ryczaltInput (Some 0)) config
                 monthlyIncome)
    == CC.averageWageQ4PreviousYear config * 0.09 * 1.8.
Proof.
  intros config monthlyIncome.
  rewrite (ryczalt_amount (ryczaltInput (Some 0)) config monthlyIncome eq_refl).
  rewrite (rateMultiplier_zero (ryczaltInput (Some 0)) 0 eq_refl); reflexivity.
Qed.

(** ** Vehicle depreciation *)

(** In binary64 the bound ceiling * 20% * (months remaining / 12) is
    exceeded: for the combustion vehicle priced 150,000 (above the
    ceiling of 100,000) bought for cash in May, the code returns
    (100,000 * 0.20 * 8) / 12 = 13333.333333333334, which is above
    100,000 * 0.20 * (8 / 12) = 13333.333333333332 and above the exact
    value 40,000 / 3 of that bound. *)
Lemma C3_counterexample :
  B64.financingMethod (B64.car_combustion_150k_in 5) = cash
  /\ (B64.CAR_DEPRECIATION_LIMITS (B64.engineType (B64.car_combustion_150k_in 5))
      <? B64.carPriceNetto (B64.car_combustion_150k_in 5))%float = true
  /\ exists d : float,
       B64.calculateCarDepreciation (B64.car_combustion_150k_in 5) = Ok d
       /\ d = 13333.333333333334%float
       /\ (100000 * 0.20 * ((13 - 5) / 12))%float = 13333.333333333332%float
       /\ (100000 * 0.20 * ((13 - 5) / 12) <? d)%float = true
       /\ 100000 * 0.20 * ((13 - 5) / 12) < binary64_value d.
Proof.
  split; [reflexivity|]. split; [reflexivity|].
  eexists. split; [reflexivity|]. split; [reflexivity|].
  split; [reflexivity|]. split; [reflexivity|].
  vm_compute. reflexivity.
Qed.

(** C3 (amended). For every cash-financed vehicle (any purchase month, in
    particular 1..12), [calculateCarDepreciation] returns
    (min(price, ceiling) * 0.20 * (13 - m)) / 12, the product taken before
    the division, the ceilings being 100,000 (combustion), 150,000
    (plug-in hybrid) and 225,000 (electric); when the price exceeds the
    ceiling the deduction is (ceiling * 0.20 * (13 - m)) / 12, the
    deduction of a vehicle priced at the ceiling; and the combustion
    vehicle priced 150,000, bought for cash in month 1, yields 20,000. *)
Theorem C3_cash_depreciation :
  (forall car : CarInvestment,
      financingMethod car = cash ->
      let ceiling := CAR_DEPRECIATION_LIMITS (engineType car) in
      exists d : Q,
        calculateCarDepreciation car = Ok d
        /\ d == (Qmin (carPriceNetto car) ceiling
                 * 0.20 * (13 - monthOfPurchase car)) / 12
        /\ (ceiling < carPriceNetto car ->
            d == (ceiling * 0.20 * (13 - monthOfPurchase car)) / 12))
  /\ CAR_DEPRECIATION_LIMITS combustion = 100000
  /\ CAR_DEPRECIATION_LIMITS hybrid_plugin = 150000
  /\ CAR_DEPRECIATION_LIMITS electric = 225000
  /\ (exists d : Q,
         calculateCarDepreciation car_combustion_150k = Ok d /\ d == 20000).
Proof.
  split; [|repeat split].
  - intros car Hcash ceiling.
    unfold calculateCarDepreciation. rewrite Hcash. fold ceiling.
    eexists. split; [reflexivity|]. split.
    + unfold Math_min. reflexivity.
    + intros Hlt. unfold Math_min.
      rewrite (Q.min_r (carPriceNetto car) ceiling) by lra. reflexivity.
  - eexists. split; [reflexivity|]. vm_compute. reflexivity.
Qed.

Lemma C3_witness :
  financingMethod car_combustion_150k = cash
  /\ exists d : Q,
       calculateCarDepreciation car_combustion_150k = Ok d
       /\ d == (Qmin 150000 100000 * 0.20 * (13 - 1)) / 12
       /\ (100000 < 150000 -> d == (100000 * 0.20 * (13 - 1)) / 12).
Proof.
  split; [reflexivity|].
  exact (proj1 C3_cash_depreciation car_combustion_150k eq_refl).
Defined.

(** In binary64 as well, a cash-financed vehicle priced above the ceiling
    of its class gets the deduction of a vehicle priced at the ceiling,
    in each of the twelve months (here at twice the ceiling). *)
Remark binary64_cash_above_ceiling :
  forallb
    (fun engine =>
       forallb
         (fun month =>
            B64.same_deduction
              (B64.calculateCarDepreciation
                 (B64.car_cash engine
                    (2 * B64.CAR_DEPRECIATION_LIMITS engine)%float month))
              (B64.calculateCarDepreciation
                 (B64.car_cash engine (B64.CAR_DEPRECIATION_LIMITS engine)
                    month)))
         [1; 2; 3; 4; 5; 6; 7; 8; 9; 10; 11; 12]%float)
    [combustion; hybrid_plugin; electric]
  = true.
Proof. reflexivity. Qed.

(** The division by the price in the leasing branch, in binary64: a
    vehicle priced 0 gets the deduction 0 (the ratio is
    min(1, +Infinity) = 1); on the value -0 the ratio is -Infinity and
    the result is NaN. *)
Remark binary64_lease_price_zero :
  B64.calculateCarDepreciation (B64.car_lease_priced 0) = Ok 0%float
  /\ exists d : float,
       B64.calculateCarDepreciation (B64.car_lease_priced (-0)) = Ok d
       /\ PrimFloat.is_nan d = true.
Proof.
  split; [reflexivity|].
  eexists. split; reflexivity.
Qed.

(** The guard of the leasing branch: a falsy leasing field (absent, or the
    number 0) raises the error. *)
Lemma leasing_guard_raises (car : CarInvestment) :
  financingMethod car = leasing ->
  truthy (leasingMonths car) = false
  \/ truthy (leasingInitialPaymentPercent car) = false
  \/ truthy (leasingBuyoutPercent car) = false ->
  calculateCarDepreciation car = Err leasing_error.
Proof.
  intros Hl H. unfold calculateCarDepreciation. rewrite Hl.
  destruct H as [H | [H | H]]; rewrite H; cbn [negb orb];
    rewrite ?orb_true_r; reflexivity.
Qed.

(** Past the guard, the three fields are read and the deduction returned. *)
Lemma leasing_guard_passes (car : CarInvestment) (term down buyout : Q) :
  financingMethod car = leasing ->
  leasingMonths car = Some term ->
  leasingInitialPaymentPercent car = Some down ->
  leasingBuyoutPercent car = Some buyout ->
  ~ term == 0 -> ~ down == 0 -> ~ buyout == 0 ->
  calculateCarDepreciation car
  = Ok (leasingDeduction car (CAR_DEPRECIATION_LIMITS (engineType car))
          term down buyout).
Proof.
  intros Hl Ht Hd Hb Hnt Hnd Hnb.
  unfold calculateCarDepreciation. rewrite Hl, Ht, Hd, Hb.
  apply truthy_Some in Hnt, Hnd, Hnb. rewrite Hnt, Hnd, Hnb.
  reflexivity.
Qed.

(** The only message [calculateCarDepreciation] raises. *)
Lemma calculateCarDepreciation_Err (car : CarInvestment) (m : string) :
  calculateCarDepreciation car = Err m -> m = leasing_error.
Proof.
  unfold calculateCarDepreciation.
  destruct (financingMethod car); [discriminate|].
  destruct (_ || _); [congruence|].
  destruct (leasingMonths car), (leasingInitialPaymentPercent car),
    (leasingBuyoutPercent car); congruence.
Qed.

(** C4. For every lease-financed vehicle with price > 0, lease term >= 1,
    down-payment > 0 and buyout > 0 (any purchase month, in particular
    1..12), [calculateCarDepreciation] returns
    downPayment * r + (capitalPortion / term) * M * r
    + capitalPortion * 0.05 * M / 12, where the down-payment and buyout
    fractions are the stored percentages divided by 100,
    downPayment = price * down-payment fraction,
    buyout = price * buyout fraction,
    capitalPortion = price - downPayment - buyout,
    r = min(1, ceiling / price) and M = min(13 - m, term); the interest
    term carries no factor r. *)
Theorem C4_leasing_deduction :
  forall (car : CarInvestment) (term downPercent buyoutPercent : Q),
    financingMethod car = leasing ->
    leasingMonths car = Some term ->
    leasingInitialPaymentPercent car = Some downPercent ->
    leasingBuyoutPercent car = Some buyoutPercent ->
    0 < carPriceNetto car ->
    1 <= term ->
    0 < downPercent / 100 ->
    0 < buyoutPercent / 100 ->
    let price := carPriceNetto car in
    let downPayment := price * (downPercent / 100) in
    let buyout := price * (buyoutPercent / 100) in
    let capitalPortion := price - downPayment - buyout in
    let r := Qmin 1 (CAR_DEPRECIATION_LIMITS (engineType car) / price) in
    let M := Qmin (13 - monthOfPurchase car) term in
    exists d : Q,
      calculateCarDepreciation car = Ok d
      /\ d == downPayment * r + (capitalPortion / term) * M * r
              + capitalPortion * 0.05 * M / 12.
Proof.
  intros car term downPercent buyoutPercent Hl Ht Hd Hb Hprice Hterm Hdown Hbuy.
  intros price downPayment buyout capitalPortion r M.
  assert (Hnt : ~ term == 0) by lra.
  assert (Hnd : ~ downPercent == 0).
  { intros E. rewrite E in Hdown. discriminate Hdown. }
  assert (Hnb : ~ buyoutPercent == 0).
  { intros E. rewrite E in Hbuy. discriminate Hbuy. }
  rewrite (leasing_guard_passes car term downPercent buyoutPercent)
    by assumption.
  eexists. split; [reflexivity|].
  unfold leasingDeduction, deductibleRatio, Math_min.
  destruct (Qeq_bool (carPriceNetto car) 0) eqn:E.
  - apply Qeq_bool_iff in E. lra.
  - reflexivity.
Qed.

Lemma C4_witness :
  exists d : Q,
    calculateCarDepreciation car_electric_lease = Ok d
    /\ d == 300000 * (10 / 100) * Qmin 1 (225000 / 300000)
            + ((300000 - 300000 * (10 / 100) - 300000 * (1 / 100)) / 48)
              * Qmin (13 - 7) 48 * Qmin 1 (225000 / 300000)
            + (300000 - 300000 * (10 / 100) - 300000 * (1 / 100))
              * 0.05 * Qmin (13 - 7) 48 / 12.
Proof.
  apply (C4_leasing_deduction car_electric_lease 48 10 1);
    try reflexivity; intros H; discriminate H.
Defined.

(** C10. A lease-financed vehicle whose lease term, down-payment percentage
    or buyout percentage is present with the value 0 is handled like one
    with the field absent: [calculateCarDepreciation] raises the
    'Leasing parameters required' error. *)
Theorem C10_zero_lease_parameter_raises :
  forall (car : CarInvestment) (z : Q),
    financingMethod car = leasing ->
    z == 0 ->
    leasingMonths car = Some z
    \/ leasingInitialPaymentPercent car = Some z
    \/ leasingBuyoutPercent car = Some z ->
    calculateCarDepreciation car
    = Err "Leasing parameters required for leasing financing method".
Proof.
  intros car z Hl Hz H. apply leasing_guard_raises; [assumption|].
  destruct H as [H | [H | H]]; rewrite H; auto using truthy_zero.
Qed.

Lemma C10_witness :
  calculateCarDepreciation car_zero_buyout
  = Err "Leasing parameters required for leasing financing method".
Proof.
  apply (C10_zero_lease_parameter_raises car_zero_buyout 0).
  - reflexivity.
  - reflexivity.
  - right. right. reflexivity.
Defined.

(** ** Loops *)

Section ForEach.
Context {A : Type}.
Variable f : A -> result Q.

(** The loop raises what its first failing element raises; when every
    failure carries the same message [m], it raises [m]. *)
Lemma forEach_add_raises (m : string) :
  (forall (y : A) (m' : string), f y = Err m' -> m' = m) ->
  forall (xs : list A) (acc : Q) (x : A),
    In x xs -> f x = Err m -> forEach_add f xs acc = Err m.
Proof.
  intros Hmsg xs. induction xs as [|a rest IH]; intros acc x Hin Hx.
  - destruct Hin.
  - cbn [forEach_add]. destruct (f a) as [d|m'] eqn:Ea.
    + cbn [bind]. destruct Hin as [-> | Hin]; [congruence|].
      now apply IH with x.
    + cbn [bind]. now rewrite (Hmsg a m' Ea).
Qed.

Lemma forEach_add_returns :
  forall (xs : list A) (acc : Q),
    (forall x : A, In x xs -> exists d : Q, f x = Ok d) ->
    exists total : Q, forEach_add f xs acc = Ok total.
Proof.
  induction xs as [|a rest IH]; intros acc Hall.
  - now exists acc.
  - cbn [forEach_add]. destruct (Hall a (or_introl eq_refl)) as [d ->].
    cbn [bind]. apply IH. intros x Hin. apply Hall. now right.
Qed.

(** A loop that raises has a failing element. *)
Lemma forEach_add_Err :
  forall (xs : list A) (acc : Q) (m : string),
    forEach_add f xs acc = Err m -> exists x : A, In x xs /\ f x = Err m.
Proof.
  induction xs as [|a rest IH]; intros acc m H.
  - discriminate H.
  - cbn [forEach_add] in H. destruct (f a) as [d|m'] eqn:Ea.
    + cbn [bind] in H. destruct (IH _ _ H) as [x [Hin Hx]].
      exists x. split; [now right | assumption].
    + cbn [bind] in H. exists a. split; [now left | congruence].
Qed.
End ForEach.


(** ** Failure of a scenario *)

Lemma present_nonzero_truthy (o : option Q) :
  present_nonzero o -> truthy o = true.
Proof.
  intros [q [-> Hq]]. now apply truthy_Some.
Qed.

Lemma calculateCarDepreciation_returns (car : CarInvestment) :
  (financingMethod car = leasing ->
   present_nonzero (leasingMonths car)
   /\ present_nonzero (leasingInitialPaymentPercent car)
   /\ present_nonzero (leasingBuyoutPercent car)) ->
  exists d : Q, calculateCarDepreciation car = Ok d.
Proof.
  intros H. destruct (financingMethod car) eqn:Ef.
  - unfold calculateCarDepreciation. rewrite Ef. eexists. reflexivity.
  - destruct (H eq_refl) as [[t [Ht Hnt]] [[d [Hd Hnd]] [b [Hb Hnb]]]].
    eexists. now apply leasing_guard_passes with (term := t) (down := d)
                                                (buyout := b).
Qed.

Lemma carDepreciationOf_raises (config : ScenarioConfig) (car : CarInvestment) :
  In car (carInvestments config) ->
  calculateCarDepreciation car = Err leasing_error ->
  carDepreciationOf config = Err leasing_error.
Proof.
  intros Hin Hcar. unfold carDepreciationOf.
  apply forEach_add_raises with (x := car); try assumption.
  apply calculateCarDepreciation_Err.
Qed.

(** The only lease-financed vehicle of the scenario carries its three
    lease parameters (term 0, down-payment 10%, buyout 1%), and yet
    [compareAll], [calculateLiniowy] and [calculateSkala] raise the
    error. *)
Lemma C5_counterexample :
  (forall car : CarInvestment,
      In car (carInvestments (scenario_with_cars [car_zero_term])) ->
      financingMethod car = leasing ->
      leasingMonths car <> None
      /\ leasingInitialPaymentPercent car <> None
      /\ leasingBuyoutPercent car <> None)
  /\ compareAll (scenario_with_cars [car_zero_term]) = Err leasing_error
  /\ calculateLiniowy (scenario_with_cars [car_zero_term]) = Err leasing_error
  /\ calculateSkala (scenario_with_cars [car_zero_term]) = Err leasing_error.
Proof.
  split; [|repeat split; reflexivity].
  intros car [<- | []] _. repeat split; discriminate.
Qed.

(** C5 (amended). A scenario containing a lease-financed vehicle whose
    lease term, down-payment percentage or buyout percentage is absent
    makes [compareAll], [calculateLiniowy] and [calculateSkala] raise the
    'Leasing parameters required' error, and no comparison is returned;
    on every scenario whose lease-financed vehicles all carry the three
    lease parameters with values other than 0, no error is raised: the
    three calls return, and [compareAll] returns the three results. *)
Theorem C5_missing_lease_parameters_abort :
  forall config : ScenarioConfig,
    ((exists car : CarInvestment,
         In car (carInvestments config)
         /\ financingMethod car = leasing
         /\ (leasingMonths car = None
             \/ leasingInitialPaymentPercent car = None
             \/ leasingBuyoutPercent car = None)) ->
     compareAll config
     = Err "Leasing parameters required for leasing financing method"
     /\ calculateLiniowy config
        = Err "Leasing parameters required for leasing financing method"
     /\ calculateSkala config
        = Err "Leasing parameters required for leasing financing method")
    /\
    ((forall car : CarInvestment,
         In car (carInvestments config) ->
         financingMethod car = leasing ->
         present_nonzero (leasingMonths car)
         /\ present_nonzero (leasingInitialPaymentPercent car)
         /\ present_nonzero (leasingBuyoutPercent car)) ->
     exists cmp : Comparison,
       compareAll config = Ok cmp
       /\ cmp_ryczalt cmp = calculateRyczalt config
       /\ calculateLiniowy config = Ok (cmp_liniowy cmp)
       /\ calculateSkala config = Ok (cmp_skala cmp)).
Proof.
  intros config. split.
  - intros [car [Hin [Hl Habs]]].
    assert (Hcar : calculateCarDepreciation car = Err leasing_error).
    { apply leasing_guard_raises; [assumption|].
      destruct Habs as [H | [H | H]]; rewrite H; auto. }
    pose proof (carDepreciationOf_raises config car Hin Hcar) as Hloop.
    assert (Hlin : calculateLiniowy config = Err leasing_error).
    { unfold calculateLiniowy. now rewrite Hloop. }
    assert (Hska : calculateSkala config = Err leasing_error).
    { unfold calculateSkala. now rewrite Hloop. }
    repeat split; try assumption.
    unfold compareAll. now rewrite Hlin.
  - intros Hall.
    destruct (forEach_add_returns calculateCarDepreciation
                (carInvestments config) 0) as [total Htotal].
    { intros car Hin. apply calculateCarDepreciation_returns.
      intros Hl. now apply Hall. }
    fold (carDepreciationOf config) in Htotal.
    exists {| cmp_ryczalt := calculateRyczalt config;
              cmp_liniowy := liniowyAfterCars config total;
              cmp_skala := skalaAfterCars config total |}.
    unfold compareAll, calculateLiniowy, calculateSkala.
    rewrite Htotal. repeat split; reflexivity.
Qed.

Lemma C5_witness :
  (compareAll (scenario_with_cars [car_electric_lease; car_no_term])
   = Err "Leasing parameters required for leasing financing method"
   /\ calculateLiniowy (scenario_with_cars [car_electric_lease; car_no_term])
      = Err "Leasing parameters required for leasing financing method"
   /\ calculateSkala (scenario_with_cars [car_electric_lease; car_no_term])
      = Err "Leasing parameters required for leasing financing method")
  /\ exists cmp : Comparison,
       compareAll (scenario_with_cars [car_combustion_150k; car_electric_lease])
       = Ok cmp
       /\ cmp_ryczalt cmp
          = calculateRyczalt
              (scenario_with_cars [car_combustion_150k; car_electric_lease])
       /\ calculateLiniowy
            (scenario_with_cars [car_combustion_150k; car_electric_lease])
          = Ok (cmp_liniowy cmp)
       /\ calculateSkala
            (scenario_with_cars [car_combustion_150k; car_electric_lease])
          = Ok (cmp_skala cmp).
Proof.
  split.
  - apply (proj1 (C5_missing_lease_parameters_abort
                    (scenario_with_cars [car_electric_lease; car_no_term]))).
    exists car_no_term. split; [right; left; reflexivity|].
    split; [reflexivity|]. left. reflexivity.
  - apply (proj2 (C5_missing_lease_parameters_abort
                    (scenario_with_cars [car_combustion_150k; car_electric_lease]))).
    intros car [<- | [<- | []]] Hl.
    + discriminate Hl.
    + repeat split; eexists; (split; [reflexivity | intros H; discriminate H]).
Defined.

(** ** VAT benefit *)



(** ** Monotonicity in the revenue *)

Lemma progressiveTax_cases (t : Q) :
  (t <= 120000 /\ progressiveTax t == t * 0.12)
  \/ (120000 < t /\ progressiveTax t == 120000 * 0.12 + (t - 120000) * 0.32).
Proof.
  unfold progressiveTax, first_bracket_limit, first_bracket_rate,
    second_bracket_rate.
  destruct (Qle_bool t 120000) eqn:E.
  - left. apply Qle_bool_iff in E. split; [assumption | reflexivity].
  - right. apply Qle_bool_false in E. split; [assumption | reflexivity].
Qed.




(** The loops over the investments do not read the revenue. *)
Lemma carDepreciationOf_withRevenue (config : ScenarioConfig) (r : Q) :
  carDepreciationOf (withRevenue config r) = carDepreciationOf config.
Proof. reflexivity. Qed.





(** On the same scenario a step of one grosz raises the net cash in
    binary64 too. *)
Remark binary64_grosz_step :
  (exists l1 l2 : B64.TaxResult,
      B64.calculateLiniowy (B64.scenario_180k_at 124491.15) = Ok l1
      /\ B64.calculateLiniowy (B64.scenario_180k_at 124491.16) = Ok l2
      /\ (B64.netCashInHand l1 <? B64.netCashInHand l2)%float = true)
  /\ (exists s1 s2 : B64.TaxResult,
         B64.calculateSkala (B64.scenario_180k_at 187343.19) = Ok s1
         /\ B64.calculateSkala (B64.scenario_180k_at 187343.20) = Ok s2
         /\ (B64.netCashInHand s1 <? B64.netCashInHand s2)%float = true).
Proof.
  split; do 2 eexists; repeat split; reflexivity.
Qed.


(** * Further properties of the code *)

(** ** Bounds on the depreciation deductions *)

Lemma Qdiv_12 (x : Q) : x / 12 == x * (1 # 12).
Proof. field. Qed.

(** A product prorated over months: larger for a larger amount and for
    more months. *)
Lemma prorated_le (a a' k k' : Q) :
  0 <= a -> a <= a' -> 0 <= k -> k <= k' ->
  0 <= a * k / 12 /\ a * k / 12 <= a' * k' / 12.
Proof.
  intros Ha Haa Hk Hkk. rewrite !Qdiv_12.
  assert (0 <= a * k) by nra.
  assert (0 <= (a' - a) * k') by nra.
  assert (0 <= a * (k' - k)) by nra.
  split; lra.
Qed.

(** X1. Equipment of non-negative cost bought in month 1..12 gets a
    deduction that is not negative, and a piece of equipment that costs
    no more and is bought no earlier in the year never gets a larger
    deduction. *)
Theorem X1_equipment_depreciation_order :
  forall eq eq' : EquipmentInvestment,
    0 <= costNetto eq ->
    costNetto eq <= costNetto eq' ->
    eq_monthOfPurchase eq' <= eq_monthOfPurchase eq ->
    eq_monthOfPurchase eq <= 12 ->
    0 <= calculateEquipmentDepreciation eq
    /\ calculateEquipmentDepreciation eq <= calculateEquipmentDepreciation eq'.
Proof.
  intros eq eq' Hc Hcc Hmm Hm. unfold calculateEquipmentDepreciation.
  cbv zeta. apply prorated_le; lra.
Qed.

Lemma X1_witness :
  0 <= calculateEquipmentDepreciation equipment_4k_november
  /\ calculateEquipmentDepreciation equipment_4k_november
     <= calculateEquipmentDepreciation equipment_10k_july.
Proof.
  apply (X1_equipment_depreciation_order equipment_4k_november
           equipment_10k_july);
    intros H; discriminate H.
Defined.

(** X2. For two cash-financed vehicles of the same engine class, the
    first of a non-negative price, priced no higher and bought no earlier
    in the year (months 1..12) than the second: the deduction of the first
    is not negative and at most that of the second, which is at most 20%
    of the ceiling of the class (20,000, 30,000 or 45,000). *)
Theorem X2_cash_depreciation_bounds :
  forall car car' : CarInvestment,
    financingMethod car = cash ->
    financingMethod car' = cash ->
    engineType car = engineType car' ->
    0 <= carPriceNetto car ->
    carPriceNetto car <= carPriceNetto car' ->
    1 <= monthOfPurchase car' ->
    monthOfPurchase car' <= monthOfPurchase car ->
    monthOfPurchase car <= 12 ->
    exists d d' : Q,
      calculateCarDepreciation car = Ok d
      /\ calculateCarDepreciation car' = Ok d'
      /\ 0 <= d
      /\ d <= d'
      /\ d' <= CAR_DEPRECIATION_LIMITS (engineType car) * 0.20.
Proof.
  intros car car' Hcash Hcash' He Hp Hpp Hm1 Hmm Hm12.
  unfold calculateCarDepreciation. rewrite Hcash, Hcash', <- He. cbv zeta.
  do 2 eexists. split; [reflexivity|]. split; [reflexivity|].
  set (limit := CAR_DEPRECIATION_LIMITS (engineType car)).
  assert (Hlimit : 0 < limit)
    by (subst limit; destruct (engineType car); reflexivity).
  set (base := Math_min (carPriceNetto car) limit).
  set (base' := Math_min (carPriceNetto car') limit).
  assert (Hbase : 0 <= base /\ base <= base' /\ base' <= limit).
  { subst base base'. split_minmax; repeat split; lra. }
  destruct Hbase as [Hb0 [Hb1 Hb2]]. clearbody base base' limit.
  destruct (prorated_le (base * 0.20) (base' * 0.20)
              (13 - monthOfPurchase car) (13 - monthOfPurchase car'))
    as [Hlo Hhi]; try lra.
  destruct (prorated_le (base' * 0.20) (limit * 0.20)
              (13 - monthOfPurchase car') 12)
    as [_ Hhi']; try lra.
  repeat split; try assumption.
  rewrite !Qdiv_12 in Hhi'. rewrite Qdiv_12. lra.
Qed.

Lemma X2_witness :
  exists d d' : Q,
    calculateCarDepreciation car_electric_250k_cash = Ok d
    /\ calculateCarDepreciation car_electric_400k_cash = Ok d'
    /\ 0 <= d
    /\ d <= d'
    /\ d' <= 225000 * 0.20.
Proof.
  apply (X2_cash_depreciation_bounds car_electric_250k_cash
           car_electric_400k_cash);
    try reflexivity; intros H; discriminate H.
Defined.

(** X3. Two cash-financed vehicles of the same engine class bought in the
    same month, both priced at or above the ceiling of the class, get the
    same deduction: the price above the ceiling brings nothing. *)
Theorem X3_cash_price_above_ceiling :
  forall car car' : CarInvestment,
    financingMethod car = cash ->
    financingMethod car' = cash ->
    engineType car = engineType car' ->
    monthOfPurchase car == monthOfPurchase car' ->
    CAR_DEPRECIATION_LIMITS (engineType car) <= carPriceNetto car ->
    CAR_DEPRECIATION_LIMITS (engineType car) <= carPriceNetto car' ->
    exists d d' : Q,
      calculateCarDepreciation car = Ok d
      /\ calculateCarDepreciation car' = Ok d'
      /\ d == d'.
Proof.
  intros car car' Hc Hc' He Hm Hp Hp'.
  unfold calculateCarDepreciation. rewrite Hc, Hc', <- He. cbv zeta.
  do 2 eexists. split; [reflexivity|]. split; [reflexivity|].
  unfold Math_min.
  rewrite (Q.min_r (carPriceNetto car) _ Hp).
  rewrite (Q.min_r (carPriceNetto car') _ Hp').
  rewrite Hm. reflexivity.
Qed.

Lemma X3_witness :
  exists d d' : Q,
    calculateCarDepreciation car_electric_400k_cash = Ok d
    /\ calculateCarDepreciation car_electric_250k_cash = Ok d'
    /\ d == d'.
Proof.
  apply (X3_cash_price_above_ceiling car_electric_400k_cash
           car_electric_250k_cash);
    try reflexivity; intros H; discriminate H.
Defined.


(** The deductible ratio of a positive price: positive, at most 1, and
    such that price * ratio does not exceed the ceiling. *)
Lemma deductibleRatio_bounds (limit price : Q) :
  0 < limit -> 0 < price ->
  0 < deductibleRatio limit price
  /\ deductibleRatio limit price <= 1
  /\ price * deductibleRatio limit price <= limit.
Proof.
  intros HL HP. unfold deductibleRatio, Math_min.
  destruct (Qeq_bool price 0) eqn:E.
  - apply Qeq_bool_iff in E. lra.
  - assert (HLP : 0 < limit / price) by (apply Qlt_shift_div_l; lra).
    assert (HPL : price * (limit / price) == limit) by (field; lra).
    destruct (Q.min_spec 1 (limit / price)) as [[H ->] | [H ->]].
    + repeat split; try lra. nra.
    + repeat split; lra.
Qed.

Lemma leasing_core_bounds (P L di cap term M r : Q) :
  0 <= di -> 0 <= cap -> di + cap <= P -> 0 < term ->
  1 <= M -> M <= term -> M <= 12 ->
  0 <= r -> r <= 1 -> P * r <= L ->
  0 <= di * r + cap / term * M * r + cap * 0.05 * M / 12
  /\ di * r + cap / term * M * r + cap * 0.05 * M / 12
     <= Qmin P L + cap * 0.05.
Proof.
  intros Hdi Hcap Hsum Hterm HM1 HMt HM12 Hr0 Hr1 HPr.
  assert (Hq : cap / term * term == cap) by (field; lra).
  assert (Hq0 : 0 <= cap / term) by (apply Qle_shift_div_l; lra).
  set (q := cap / term) in *.
  assert (HqM0 : 0 <= q * M) by nra.
  assert (HqM : q * M <= cap) by nra.
  set (A := di + q * M).
  assert (HA0 : 0 <= A) by (subst A; lra).
  assert (HAP : A <= P) by (subst A; lra).
  assert (HAr0 : 0 <= A * r) by nra.
  assert (HAr1 : A * r <= A) by nra.
  assert (HArL : A * r <= P * r) by nra.
  assert (Hi0 : 0 <= cap * 0.05 * M) by nra.
  assert (Hi1 : cap * 0.05 * M <= cap * 0.05 * 12) by nra.
  assert (E : di * r + q * M * r == A * r) by (subst A; ring).
  rewrite Qdiv_12.
  assert (Hmin : A * r <= Qmin P L).
  { destruct (Q.min_spec P L) as [[H ->] | [H ->]]; lra. }
  split; lra.
Qed.

(** X4. For a lease-financed vehicle with a positive price, a term of at
    least one month, positive down-payment and buyout percentages that
    add up to at most 100, bought in month 1..12,
    [calculateCarDepreciation] returns a deduction that is not negative
    and does not exceed min(price, ceiling) plus 5% of the capital
    portion: apart from the interest, the deduction stays within the
    ceiling of the engine class. *)
Theorem X4_leasing_deduction_bounds :
  forall (car : CarInvestment) (term downPercent buyoutPercent : Q),
    financingMethod car = leasing ->
    leasingMonths car = Some term ->
    leasingInitialPaymentPercent car = Some downPercent ->
    leasingBuyoutPercent car = Some buyoutPercent ->
    0 < carPriceNetto car ->
    1 <= term ->
    0 < downPercent ->
    0 < buyoutPercent ->
    downPercent + buyoutPercent <= 100 ->
    1 <= monthOfPurchase car ->
    monthOfPurchase car <= 12 ->
    let price := carPriceNetto car in
    let capitalPortion :=
      price - price * (downPercent / 100) - price * (buyoutPercent / 100) in
    exists d : Q,
      calculateCarDepreciation car = Ok d
      /\ 0 <= d
      /\ d <= Qmin price (CAR_DEPRECIATION_LIMITS (engineType car))
              + capitalPortion * 0.05.
Proof.
  intros car term dp bp Hl Ht Hd Hb HP Hterm Hdp Hbp Hsum Hm1 Hm12.
  cbv zeta.
  rewrite (leasing_guard_passes car term dp bp) by (assumption || lra).
  eexists. split; [reflexivity|].
  unfold leasingDeduction. cbv zeta.
  set (limit := CAR_DEPRECIATION_LIMITS (engineType car)).
  assert (Hlimit : 0 < limit)
    by (subst limit; destruct (engineType car); reflexivity).
  destruct (deductibleRatio_bounds limit (carPriceNetto car) Hlimit HP)
    as [Hr0 [Hr1 HPr]].
  set (r := deductibleRatio limit (carPriceNetto car)) in *. clearbody r.
  set (price := carPriceNetto car) in *. clearbody price limit.
  assert (Edp : dp / 100 == dp * (1 # 100)) by field.
  assert (Ebp : bp / 100 == bp * (1 # 100)) by field.
  assert (Hdi : 0 <= price * (dp / 100)) by (rewrite Edp; nra).
  assert (Hbu : 0 <= price * (bp / 100)) by (rewrite Ebp; nra).
  assert (Hcap : 0 <= price - price * (dp / 100) - price * (bp / 100)).
  { rewrite Edp, Ebp.
    assert (0 <= price * (100 - dp - bp)) by nra. lra. }
  apply leasing_core_bounds; try lra.
  - unfold Math_min. split_minmax; lra.
  - unfold Math_min. apply Q.le_min_r.
  - unfold Math_min. split_minmax; lra.
Qed.

Lemma X4_witness :
  exists d : Q,
    calculateCarDepreciation car_electric_lease = Ok d
    /\ 0 <= d
    /\ d <= Qmin 300000 225000
            + (300000 - 300000 * (10 / 100) - 300000 * (1 / 100)) * 0.05.
Proof.
  apply (X4_leasing_deduction_bounds car_electric_lease 48 10 1);
    try reflexivity; intros H; discriminate H.
Defined.

(** ** The results of the regimes with deductions *)

(** Case analysis on every [Math.min] / [Math.max] of the goal and of the
    hypotheses. *)
Ltac split_minmax_all :=
  unfold Math_min, Math_max in *;
  repeat match goal with
  | |- context [Qmax ?a ?b] =>
      let H := fresh "Hmax" in
      let E := fresh "Emax" in
      destruct (Q.max_spec a b) as [[H E] | [H E]];
      rewrite E in *; clear E
  | |- context [Qmin ?a ?b] =>
      let H := fresh "Hmin" in
      let E := fresh "Emin" in
      destruct (Q.min_spec a b) as [[H E] | [H E]];
      rewrite E in *; clear E
  | _ : context [Qmax ?a ?b] |- _ =>
      let H := fresh "Hmax" in
      let E := fresh "Emax" in
      destruct (Q.max_spec a b) as [[H E] | [H E]];
      rewrite E in *; clear E
  | _ : context [Qmin ?a ?b] |- _ =>
      let H := fresh "Hmin" in
      let E := fresh "Emin" in
      destruct (Q.min_spec a b) as [[H E] | [H E]];
      rewrite E in *; clear E
  end.

Lemma calculateLiniowy_Ok (config : ScenarioConfig) (l : TaxResult) :
  calculateLiniowy config = Ok l ->
  exists d : Q,
    carDepreciationOf config = Ok d /\ l = liniowyAfterCars config d.
Proof.
  unfold calculateLiniowy. destruct (carDepreciationOf config) as [d|m];
    cbn [bind]; intros H; [|discriminate H].
  exists d. split; [reflexivity | congruence].
Qed.

Lemma calculateSkala_Ok (config : ScenarioConfig) (s : TaxResult) :
  calculateSkala config = Ok s ->
  exists d : Q,
    carDepreciationOf config = Ok d /\ s = skalaAfterCars config d.
Proof.
  unfold calculateSkala. destruct (carDepreciationOf config) as [d|m];
    cbn [bind]; intros H; [|discriminate H].
  exists d. split; [reflexivity | congruence].
Qed.

(** Both calculators run the same car loop: their results carry the same
    car depreciation. *)
Lemma liniowy_skala_same_loop (config : ScenarioConfig) (l s : TaxResult) :
  calculateLiniowy config = Ok l ->
  calculateSkala config = Ok s ->
  exists d : Q,
    l = liniowyAfterCars config d /\ s = skalaAfterCars config d.
Proof.
  intros Hl Hs.
  destruct (calculateLiniowy_Ok _ _ Hl) as [d [Ed ->]].
  destruct (calculateSkala_Ok _ _ Hs) as [d' [Ed' ->]].
  exists d. split; [reflexivity|]. congruence.
Qed.

(** X6. In every result of [calculateSkala] the taxable income is not
    negative and the income tax lies between 12% and 32% of it; it is
    exactly 12% of it up to 120,000. *)
Theorem X6_skala_effective_rate :
  forall (config : ScenarioConfig) (s : TaxResult),
    calculateSkala config = Ok s ->
    0 <= taxableIncome s
    /\ taxableIncome s * 0.12 <= incomeTax s
    /\ incomeTax s <= taxableIncome s * 0.32
    /\ (taxableIncome s <= 120000 -> incomeTax s == taxableIncome s * 0.12).
Proof.
  intros config s Hs.
  destruct (calculateSkala_Ok _ _ Hs) as [d [_ ->]].
  unfold skalaAfterCars. cbv zeta. cbn [taxableIncome incomeTax].
  set (t := Math_max 0 _).
  assert (Ht : 0 <= t) by (subst t; unfold Math_max; apply Q.le_max_l).
  clearbody t.
  destruct (progressiveTax_cases t) as [[H E] | [H E]]; rewrite E;
    repeat split; lra.
Qed.

Lemma X6_witness :
  exists s : TaxResult,
    calculateSkala scenario_400k = Ok s
    /\ 0 <= taxableIncome s
    /\ taxableIncome s * 0.12 <= incomeTax s
    /\ incomeTax s <= taxableIncome s * 0.32
    /\ (taxableIncome s <= 120000 -> incomeTax s == taxableIncome s * 0.12).
Proof.
  eexists. split; [reflexivity|].
  apply (X6_skala_effective_rate scenario_400k). reflexivity.
Defined.

(** X7. When the revenue of a scenario grows and nothing else changes,
    neither the taxable income nor the income tax of [calculateLiniowy]
    and of [calculateSkala] decreases, across the bracket limit as well;
    the two calls both return, or both raise the same error. *)
Theorem X7_income_tax_monotone :
  forall (config : ScenarioConfig) (r1 r2 : Q),
    r1 <= r2 ->
    tax_le (calculateLiniowy (withRevenue config r1))
           (calculateLiniowy (withRevenue config r2))
    /\ tax_le (calculateSkala (withRevenue config r1))
              (calculateSkala (withRevenue config r2)).
Proof.
  intros config r1 r2 Hle. unfold tax_le, calculateLiniowy, calculateSkala.
  rewrite !carDepreciationOf_withRevenue.
  destruct (carDepreciationOf config) as [d|m]; cbn [bind both_return];
    [|split; reflexivity].
  unfold liniowyAfterCars, skalaAfterCars. cbv zeta.
  cbn [taxableIncome incomeTax withRevenue yearlyRevenueNetto yearlyFixedCosts].
  change (equipmentDepreciationOf (withRevenue config r1))
    with (equipmentDepreciationOf config).
  change (equipmentDepreciationOf (withRevenue config r2))
    with (equipmentDepreciationOf config).
  set (c := yearlyFixedCosts config + d + equipmentDepreciationOf config).
  clearbody c. unfold tax_free_allowance. split.
  - split_minmax_all; split; lra.
  - destruct (progressiveTax_cases (Math_max 0 (Math_max 0 (r1 - c) - 30000)))
      as [[H1 E1] | [H1 E1]];
    destruct (progressiveTax_cases (Math_max 0 (Math_max 0 (r2 - c) - 30000)))
      as [[H2 E2] | [H2 E2]];
    rewrite E1, E2; clear E1 E2; split_minmax_all; split; lra.
Qed.

Lemma X7_witness :
  tax_le (calculateLiniowy (withRevenue scenario_400k 100000))
         (calculateLiniowy (withRevenue scenario_400k 200000))
  /\ tax_le (calculateSkala (withRevenue scenario_400k 100000))
            (calculateSkala (withRevenue scenario_400k 200000)).
Proof.
  apply (X7_income_tax_monotone scenario_400k 100000 200000).
  intros H; discriminate H.
Defined.

(** Unfolds the results of the two calculators, in the goal and in the
    hypothesis [H], into arithmetic on the scenario's figures, named [g]
    (revenue), [c] (total costs), [z] (social insurance), [v] (VAT
    benefit), [rate] and [rate'] (the health-insurance rates of liniowy
    and skala) and [cap] (the health-insurance cap). *)
Ltac unfold_results_in config d H :=
  unfold liniowyAfterCars, skalaAfterCars, tax_free_allowance in H |- *;
  cbv zeta in H |- *;
  cbn [taxationForm grossRevenue totalCosts taxableIncome incomeTax
       healthInsurance zusTotal netCashInHand breakdown
       carDepreciationDeduction equipmentDepreciationDeduction vatBenefit]
    in H |- *;
  set (g := yearlyRevenueNetto config) in H |- *;
  set (c := yearlyFixedCosts config + d + equipmentDepreciationOf config)
    in H |- *;
  set (z := calculateYearlyZUS (zusType config) (taxYearConfig config))
    in H |- *;
  set (v := vatBenefitOf config) in H |- *;
  set (rate := hi_liniowy (getHealthInsuranceRates (taxYearConfig config)))
    in H |- *;
  set (rate' := hi_skala (getHealthInsuranceRates (taxYearConfig config)))
    in H |- *;
  set (cap := getHealthInsuranceLimit (taxYearConfig config)) in H |- *.

(** X8. In a year whose deductible costs reach the revenue,
    [calculateLiniowy] and [calculateSkala] charge no income tax and no
    health insurance (for [calculateLiniowy], as long as the configured
    cap is not negative), and both give the same net cash: revenue less
    costs less social insurance plus VAT benefit. *)
Theorem X8_loss_year :
  forall (config : ScenarioConfig) (l s : TaxResult),
    calculateLiniowy config = Ok l ->
    calculateSkala config = Ok s ->
    grossRevenue l <= totalCosts l ->
    0 <= getHealthInsuranceLimit (taxYearConfig config) ->
    incomeTax l == 0
    /\ healthInsurance l == 0
    /\ incomeTax s == 0
    /\ healthInsurance s == 0
    /\ netCashInHand l
       == grossRevenue l - totalCosts l - zusTotal l + vatBenefit (breakdown l)
    /\ netCashInHand s == netCashInHand l.
Proof.
  intros config l s Hl Hs Hloss Hcap.
  destruct (liniowy_skala_same_loop _ _ _ Hl Hs) as [d [-> ->]].
  clear Hl Hs.
  unfold_results_in config d Hloss. fold cap in Hcap.
  clearbody g c z v rate rate' cap.
  destruct (progressiveTax_cases (Math_max 0 (Math_max 0 (g - c) - 30000)))
    as [[H E] | [H E]]; rewrite E; clear E; split_minmax_all;
    repeat split; lra.
Qed.

Lemma X8_witness :
  exists l s : TaxResult,
    calculateLiniowy scenario_loss = Ok l
    /\ calculateSkala scenario_loss = Ok s
    /\ incomeTax l == 0
    /\ healthInsurance l == 0
    /\ incomeTax s == 0
    /\ healthInsurance s == 0
    /\ netCashInHand l
       == grossRevenue l - totalCosts l - zusTotal l + vatBenefit (breakdown l)
    /\ netCashInHand s == netCashInHand l.
Proof.
  do 2 eexists. split; [reflexivity|]. split; [reflexivity|].
  apply (X8_loss_year scenario_loss); try reflexivity;
    intros H; discriminate H.
Defined.

(** X9. On one scenario, the taxable income of [calculateSkala] is that
    of [calculateLiniowy] less the 30,000 allowance, floored at 0.  The
    two income taxes cross between a taxable income (of
    [calculateLiniowy]) of 258,461 and 258,462: up to 258,461 the income
    tax of [calculateSkala] is at most that of [calculateLiniowy], from
    258,462 on it is at least that of [calculateLiniowy]. *)
Theorem X9_income_tax_crossover :
  forall (config : ScenarioConfig) (l s : TaxResult),
    calculateLiniowy config = Ok l ->
    calculateSkala config = Ok s ->
    taxableIncome s == Qmax 0 (taxableIncome l - 30000)
    /\ (taxableIncome l <= 258461 -> incomeTax s <= incomeTax l)
    /\ (258462 <= taxableIncome l -> incomeTax l <= incomeTax s).
Proof.
  intros config l s Hl Hs.
  destruct (liniowy_skala_same_loop _ _ _ Hl Hs) as [d [-> ->]].
  clear Hl Hs.
  assert (Htrue : True) by exact I.
  unfold_results_in config d Htrue.
  set (income := Math_max 0 (g - c)).
  assert (Hi : 0 <= income) by (subst income; unfold Math_max; apply Q.le_max_l).
  clearbody income.
  split; [reflexivity|].
  destruct (progressiveTax_cases (Math_max 0 (income - 30000)))
    as [[H E] | [H E]]; rewrite E; clear E; split_minmax_all; split; intros; lra.
Qed.

Lemma X9_witness :
  exists l s : TaxResult,
    calculateLiniowy scenario_400k = Ok l
    /\ calculateSkala scenario_400k = Ok s
    /\ taxableIncome s == Qmax 0 (taxableIncome l - 30000)
    /\ (taxableIncome l <= 258461 -> incomeTax s <= incomeTax l)
    /\ (258462 <= taxableIncome l -> incomeTax l <= incomeTax s).
Proof.
  do 2 eexists. split; [reflexivity|]. split; [reflexivity|].
  apply (X9_income_tax_crossover scenario_400k); reflexivity.
Defined.

(** X10. Under the 2026 rates (the seeded record or the built-in
    fallback), the net cash of the two regimes with deductions crosses
    between a taxable income (of [calculateLiniowy]) of 196,491 and
    196,492: up to 196,491 the net cash of [calculateSkala] is at least
    that of [calculateLiniowy], from 196,492 on it is at most that of
    [calculateLiniowy]. *)
Theorem X10_net_cash_crossover_2026 :
  forall (config : ScenarioConfig) (l s : TaxResult),
    default_2026 config ->
    calculateLiniowy config = Ok l ->
    calculateSkala config = Ok s ->
    (taxableIncome l <= 196491 -> netCashInHand l <= netCashInHand s)
    /\ (196492 <= taxableIncome l -> netCashInHand s <= netCashInHand l).
Proof.
  intros config l s Hdef Hl Hs.
  destruct (liniowy_skala_same_loop _ _ _ Hl Hs) as [d [-> ->]].
  clear Hl Hs.
  assert (Hrates :
            hi_liniowy (getHealthInsuranceRates (taxYearConfig config)) = 0.049
            /\ hi_skala (getHealthInsuranceRates (taxYearConfig config)) = 0.09
            /\ (getHealthInsuranceLimit (taxYearConfig config) = 11600
                \/ getHealthInsuranceLimit (taxYearConfig config) = 11000)).
  { destruct Hdef as [E | E]; rewrite E; repeat split; [left | right];
      reflexivity. }
  unfold_results_in config d Hrates.
  destruct Hrates as [E1 [E2 E3]].
  set (income := Math_max 0 (g - c)).
  assert (Hi : 0 <= income) by (subst income; unfold Math_max; apply Q.le_max_l).
  clearbody income g c z v. clear Hdef.
  rewrite E1, E2. clear E1 E2. clearbody rate rate'.
  destruct E3 as [E3 | E3]; rewrite E3; clear E3; clearbody cap;
    destruct (progressiveTax_cases (Math_max 0 (income - 30000)))
      as [[H E'] | [H E']]; rewrite E'; clear E';
    split_minmax_all; split; intros; lra.
Qed.

Lemma X10_witness :
  exists l s : TaxResult,
    calculateLiniowy scenario_400k = Ok l
    /\ calculateSkala scenario_400k = Ok s
    /\ (taxableIncome l <= 196491 -> netCashInHand l <= netCashInHand s)
    /\ (196492 <= taxableIncome l -> netCashInHand s <= netCashInHand l).
Proof.
  do 2 eexists. split; [reflexivity|]. split; [reflexivity|].
  apply (X10_net_cash_crossover_2026 scenario_400k);
    [left; reflexivity | reflexivity | reflexivity].
Defined.


(** ** When a scenario fails *)

Lemma truthy_false_iff (o : option Q) :
  truthy o = false <-> absent_or_zero o.
Proof.
  unfold absent_or_zero. destruct o as [q|]; cbn [truthy].
  - rewrite negb_false_iff. split.
    + intros H. right. exists q. split; [reflexivity|].
      now apply Qeq_bool_iff.
    + intros [H | [q' [H Hq]]]; [discriminate H|].
      injection H as <-. now apply Qeq_bool_iff.
  - split; [now left | reflexivity].
Qed.

(** [calculateCarDepreciation] raises exactly on the lease-financed
    vehicles that lack a lease parameter. *)
Lemma calculateCarDepreciation_raises_iff (car : CarInvestment) :
  calculateCarDepreciation car = Err leasing_error
  <-> lacks_lease_parameter car.
Proof.
  unfold lacks_lease_parameter. rewrite <- !truthy_false_iff. split.
  - unfold calculateCarDepreciation.
    destruct (financingMethod car); [discriminate|]. intros H.
    split; [reflexivity|].
    destruct (truthy (leasingMonths car)) eqn:E1; [|now left].
    destruct (truthy (leasingInitialPaymentPercent car)) eqn:E2;
      [|now right; left].
    destruct (truthy (leasingBuyoutPercent car)) eqn:E3; [|now right; right].
    cbn [negb orb] in H.
    destruct (leasingMonths car); [|discriminate E1].
    destruct (leasingInitialPaymentPercent car); [|discriminate E2].
    destruct (leasingBuyoutPercent car); [|discriminate E3].
    discriminate H.
  - intros [Hl H]. now apply leasing_guard_raises.
Qed.

(** [compareAll] either raises because a vehicle lacks a lease parameter,
    or returns the three individual results, no vehicle lacking one. *)
Lemma compareAll_cases (config : ScenarioConfig) :
  (compareAll config = Err leasing_error
   /\ exists car : CarInvestment,
        In car (carInvestments config) /\ lacks_lease_parameter car)
  \/ (exists cmp : Comparison,
        compareAll config = Ok cmp
        /\ cmp_ryczalt cmp = calculateRyczalt config
        /\ calculateLiniowy config = Ok (cmp_liniowy cmp)
        /\ calculateSkala config = Ok (cmp_skala cmp)
        /\ ~ exists car : CarInvestment,
               In car (carInvestments config) /\ lacks_lease_parameter car).
Proof.
  unfold compareAll, calculateLiniowy, calculateSkala.
  destruct (carDepreciationOf config) as [d|m] eqn:E; cbn [bind].
  - right. eexists. repeat split.
    intros [car [Hin Hlack]].
    apply calculateCarDepreciation_raises_iff in Hlack.
    rewrite (carDepreciationOf_raises config car Hin Hlack) in E.
    discriminate E.
  - unfold carDepreciationOf in E.
    destruct (forEach_add_Err _ _ _ _ E) as [car [Hin Hcar]].
    assert (m = leasing_error) by (eapply calculateCarDepreciation_Err; eauto).
    subst m. left. split; [reflexivity|].
    exists car. split; [assumption|].
    now apply calculateCarDepreciation_raises_iff.
Qed.

(** X11. [compareAll] raises the 'Leasing parameters required' error
    exactly when the scenario contains a lease-financed vehicle one of
    whose lease parameters is absent or 0; otherwise it returns, and the
    three results it returns are those of [calculateRyczalt],
    [calculateLiniowy] and [calculateSkala] called on their own. *)
Theorem X11_compareAll_outcome :
  forall config : ScenarioConfig,
    (compareAll config
     = Err "Leasing parameters required for leasing financing method"
     <-> exists car : CarInvestment,
           In car (carInvestments config) /\ lacks_lease_parameter car)
    /\ (compareAll config
        = Err "Leasing parameters required for leasing financing method"
        \/ exists cmp : Comparison,
             compareAll config = Ok cmp
             /\ cmp_ryczalt cmp = calculateRyczalt config
             /\ calculateLiniowy config = Ok (cmp_liniowy cmp)
             /\ calculateSkala config = Ok (cmp_skala cmp)).
Proof.
  intros config.
  destruct (compareAll_cases config)
    as [[E Hex] | [cmp [E [H1 [H2 [H3 Hnex]]]]]]; rewrite E.
  - split; [|now left]. split; [intros _; exact Hex | reflexivity].
  - split.
    + split; [discriminate | intros H; contradiction].
    + right. exists cmp. repeat split; assumption.
Qed.

(** ** VAT benefit and contribution class across the regimes *)

(** An accumulation of terms none of which is negative, from a start that
    is not negative; and two accumulations compared term by term. *)
Lemma fold_left_add_nonneg {A : Type} (f : A -> Q) (xs : list A) :
  Forall (fun x => 0 <= f x) xs ->
  forall acc : Q, 0 <= acc -> 0 <= fold_left (fun a x => a + f x) xs acc.
Proof.
  induction 1 as [|x rest Hx _ IH]; intros acc Hacc; cbn [fold_left].
  - assumption.
  - apply IH. lra.
Qed.

Lemma fold_left_add_le {A : Type} (f f' : A -> Q) (xs : list A) :
  Forall (fun x => f x <= f' x) xs ->
  forall acc acc' : Q,
    acc <= acc' ->
    fold_left (fun a x => a + f x) xs acc
    <= fold_left (fun a x => a + f' x) xs acc'.
Proof.
  induction 1 as [|x rest Hx _ IH]; intros acc acc' Hacc; cbn [fold_left].
  - assumption.
  - apply IH. lra.
Qed.

Lemma fold_left_add_zero {A : Type} (f : A -> Q) (xs : list A) :
  Forall (fun x => f x == 0) xs ->
  forall acc : Q, fold_left (fun a x => a + f x) xs acc == acc.
Proof.
  induction 1 as [|x rest Hx _ IH]; intros acc; cbn [fold_left].
  - reflexivity.
  - rewrite IH. lra.
Qed.

Lemma calculateCarVATBenefit_nonneg (car : CarInvestment) :
  0 <= carPriceNetto car -> 0 <= calculateCarVATBenefit car.
Proof.
  intros H. unfold calculateCarVATBenefit. cbv zeta.
  destruct (usageType car); lra.
Qed.

(** The VAT benefit of a scenario whose investments are not negative, for
    two recoverable fractions. *)
Lemma vatBenefitOf_fraction (config : ScenarioConfig) (f1 f2 : Q) :
  nonnegative_investments config ->
  0 <= f1 -> f1 <= f2 ->
  0 <= vatBenefitOf (withVatRateMixed config f1)
  /\ vatBenefitOf (withVatRateMixed config f1)
     <= vatBenefitOf (withVatRateMixed config f2).
Proof.
  intros [Hcars Heqs] H0 H12. unfold vatBenefitOf.
  cbn [withVatRateMixed vatPayer vatRateMixed carInvestments
       equipmentInvestments].
  destruct (vatPayer config); [|split; lra].
  assert (Hcars1 : Forall (fun car => 0 <= calculateCarVATBenefit car * f1)
                     (carInvestments config)).
  { eapply Forall_impl; [|exact Hcars]. intros car Hp. cbv beta in *.
    pose proof (calculateCarVATBenefit_nonneg car Hp). nra. }
  assert (Hcars12 : Forall (fun car => calculateCarVATBenefit car * f1
                                       <= calculateCarVATBenefit car * f2)
                      (carInvestments config)).
  { eapply Forall_impl; [|exact Hcars]. intros car Hp. cbv beta in *.
    pose proof (calculateCarVATBenefit_nonneg car Hp). nra. }
  assert (Heqs1 : Forall (fun eq => 0 <= costNetto eq * 0.23 * f1)
                    (equipmentInvestments config)).
  { eapply Forall_impl; [|exact Heqs]. intros eq Hp. cbv beta in *. nra. }
  assert (Heqs12 : Forall (fun eq => costNetto eq * 0.23 * f1
                                     <= costNetto eq * 0.23 * f2)
                     (equipmentInvestments config)).
  { eapply Forall_impl; [|exact Heqs]. intros eq Hp. cbv beta in *. nra. }
  split.
  - apply (fold_left_add_nonneg (fun eq => costNetto eq * 0.23 * f1));
      [assumption|].
    apply (fold_left_add_nonneg (fun car => calculateCarVATBenefit car * f1));
      [assumption | lra].
  - apply (fold_left_add_le (fun eq => costNetto eq * 0.23 * f1)
             (fun eq => costNetto eq * 0.23 * f2)); [assumption|].
    apply (fold_left_add_le (fun car => calculateCarVATBenefit car * f1)
             (fun car => calculateCarVATBenefit car * f2));
      [assumption | lra].
Qed.

Lemma vatBenefitOf_fraction_zero (config : ScenarioConfig) :
  vatRateMixed config == 0 -> vatBenefitOf config == 0.
Proof.
  intros Hz. unfold vatBenefitOf. destruct (vatPayer config); [|reflexivity].
  rewrite (fold_left_add_zero (fun eq => costNetto eq * 0.23 * vatRateMixed config)).
  - apply (fold_left_add_zero
             (fun car => calculateCarVATBenefit car * vatRateMixed config)).
    apply Forall_forall. intros car _. cbv beta. rewrite Hz. ring.
  - apply Forall_forall. intros eq _. cbv beta. rewrite Hz. ring.
Qed.

(** X12. The three regimes report the same VAT benefit.  With a
    recoverable fraction of 0 it is 0; and when no price and no cost is
    negative, it is not negative and a larger recoverable fraction never
    gives a smaller VAT benefit. *)
Theorem X12_vat_benefit_and_fraction :
  forall config : ScenarioConfig,
    (forall l s : TaxResult,
        calculateLiniowy config = Ok l ->
        calculateSkala config = Ok s ->
        vatBenefit (breakdown l)
        = vatBenefit (breakdown (calculateRyczalt config))
        /\ vatBenefit (breakdown s)
           = vatBenefit (breakdown (calculateRyczalt config)))
    /\ (vatRateMixed config == 0 ->
        vatBenefit (breakdown (calculateRyczalt config)) == 0)
    /\ (nonnegative_investments config ->
        forall f1 f2 : Q,
          0 <= f1 -> f1 <= f2 ->
          0 <= vatBenefit
                 (breakdown (calculateRyczalt (withVatRateMixed config f1)))
          /\ vatBenefit
               (breakdown (calculateRyczalt (withVatRateMixed config f1)))
             <= vatBenefit
                  (breakdown (calculateRyczalt (withVatRateMixed config f2)))).
Proof.
  intros config. split; [|split].
  - intros l s Hl Hs.
    destruct (liniowy_skala_same_loop _ _ _ Hl Hs) as [d [-> ->]].
    split; reflexivity.
  - exact (vatBenefitOf_fraction_zero config).
  - intros Hnn f1 f2 H0 H12.
    exact (vatBenefitOf_fraction config f1 f2 Hnn H0 H12).
Qed.

(** X13. The contribution class of a scenario changes nothing but the
    social-insurance charge and the net cash: in every regime, taxable
    income, income tax and health insurance are the same for two classes,
    the social-insurance charge is the monthly amount of the class times
    12, and the class with the higher charge never has the higher net
    cash.  Social insurance is never deducted from the taxable income. *)
Theorem X13_contribution_class_shift :
  forall (config : ScenarioConfig) (z1 z2 : ZusType),
    let same_but_zus (x y : TaxResult) :=
      taxableIncome x == taxableIncome y
      /\ incomeTax x == incomeTax y
      /\ healthInsurance x == healthInsurance y
      /\ zusTotal x == ZUS_MONTHLY_RATES z1 * 12
      /\ zusTotal y == ZUS_MONTHLY_RATES z2 * 12
      /\ (ZUS_MONTHLY_RATES z1 <= ZUS_MONTHLY_RATES z2 ->
          netCashInHand y <= netCashInHand x) in
    same_but_zus (calculateRyczalt (withZusType config z1))
                 (calculateRyczalt (withZusType config z2))
    /\ both_return same_but_zus
         (calculateLiniowy (withZusType config z1))
         (calculateLiniowy (withZusType config z2))
    /\ both_return same_but_zus
         (calculateSkala (withZusType config z1))
         (calculateSkala (withZusType config z2)).
Proof.
  intros config z1 z2 same_but_zus.
  assert (Ez : forall z c, calculateYearlyZUS z c = ZUS_MONTHLY_RATES z * 12)
    by (intros z c; destruct z; reflexivity).
  split; [|split].
  - subst same_but_zus. cbv beta.
    unfold calculateRyczalt. cbv zeta.
    cbn [taxableIncome incomeTax healthInsurance zusTotal netCashInHand
         withZusType zusType yearlyRevenueNetto taxYearConfig].
    rewrite !Ez.
    change (vatBenefitOf (withZusType config z1)) with (vatBenefitOf config).
    change (vatBenefitOf (withZusType config z2)) with (vatBenefitOf config).
    repeat split; try reflexivity. intros Hz. lra.
  - unfold calculateLiniowy.
    change (carDepreciationOf (withZusType config z1))
      with (carDepreciationOf config).
    change (carDepreciationOf (withZusType config z2))
      with (carDepreciationOf config).
    destruct (carDepreciationOf config) as [d|m]; cbn [bind both_return];
      [|reflexivity].
    subst same_but_zus. cbv beta.
    unfold liniowyAfterCars. cbv zeta.
    cbn [taxableIncome incomeTax healthInsurance zusTotal netCashInHand
         withZusType zusType yearlyRevenueNetto yearlyFixedCosts taxYearConfig].
    rewrite !Ez.
    change (vatBenefitOf (withZusType config z1)) with (vatBenefitOf config).
    change (vatBenefitOf (withZusType config z2)) with (vatBenefitOf config).
    change (equipmentDepreciationOf (withZusType config z1))
      with (equipmentDepreciationOf config).
    change (equipmentDepreciationOf (withZusType config z2))
      with (equipmentDepreciationOf config).
    repeat split; try reflexivity. intros Hz. lra.
  - unfold calculateSkala.
    change (carDepreciationOf (withZusType config z1))
      with (carDepreciationOf config).
    change (carDepreciationOf (withZusType config z2))
      with (carDepreciationOf config).
    destruct (carDepreciationOf config) as [d|m]; cbn [bind both_return];
      [|reflexivity].
    subst same_but_zus. cbv beta.
    unfold skalaAfterCars. cbv zeta.
    cbn [taxableIncome incomeTax healthInsurance zusTotal netCashInHand
         withZusType zusType yearlyRevenueNetto yearlyFixedCosts taxYearConfig].
    rewrite !Ez.
    change (vatBenefitOf (withZusType config z1)) with (vatBenefitOf config).
    change (vatBenefitOf (withZusType config z2)) with (vatBenefitOf config).
    change (equipmentDepreciationOf (withZusType config z1))
      with (equipmentDepreciationOf config).
    change (equipmentDepreciationOf (withZusType config z2))
      with (equipmentDepreciationOf config).
    repeat split; try reflexivity. intros Hz. lra.
Qed.

(** X14. A scenario without a rate record is computed with built-in
    values that agree with the seeded 2026 record except for the
    health-insurance cap of [calculateLiniowy] (11,000 instead of 11,600):
    [calculateRyczalt] and [calculateSkala] give the same outcome, and
    [calculateLiniowy] gives the same income tax, a health insurance
    capped at 11,000, which is lower by at most 600, and a net cash that
    is not lower. *)
Theorem X14_fallback_rates :
  forall config : ScenarioConfig,
    calculateRyczalt (withTaxYearConfig config None)
    = calculateRyczalt (withTaxYearConfig config (Some DEFAULT_2026_INPUT))
    /\ calculateSkala (withTaxYearConfig config None)
       = calculateSkala (withTaxYearConfig config (Some DEFAULT_2026_INPUT))
    /\ both_return
         (fun x y =>
            incomeTax x == incomeTax y
            /\ healthInsurance x == Qmin (healthInsurance y) 11000
            /\ healthInsurance x <= healthInsurance y
            /\ healthInsurance y - healthInsurance x <= 600
            /\ netCashInHand y <= netCashInHand x)
         (calculateLiniowy (withTaxYearConfig config None))
         (calculateLiniowy (withTaxYearConfig config (Some DEFAULT_2026_INPUT))).
Proof.
  intros config. split; [|split].
  - unfold calculateRyczalt, calculateYearlyZUS, getZUSMonthly. reflexivity.
  - unfold calculateSkala.
    change (carDepreciationOf (withTaxYearConfig config None))
      with (carDepreciationOf config).
    change (carDepreciationOf (withTaxYearConfig config (Some DEFAULT_2026_INPUT)))
      with (carDepreciationOf config).
    destruct (carDepreciationOf config) as [d|m]; cbn [bind]; [|reflexivity].
    unfold skalaAfterCars, calculateYearlyZUS, getZUSMonthly. reflexivity.
  - unfold calculateLiniowy.
    change (carDepreciationOf (withTaxYearConfig config None))
      with (carDepreciationOf config).
    change (carDepreciationOf (withTaxYearConfig config (Some DEFAULT_2026_INPUT)))
      with (carDepreciationOf config).
    destruct (carDepreciationOf config) as [d|m]; cbn [bind both_return];
      [|reflexivity].
    unfold liniowyAfterCars, calculateYearlyZUS, getZUSMonthly. cbv zeta.
    cbn [incomeTax healthInsurance netCashInHand withTaxYearConfig
         yearlyRevenueNetto yearlyFixedCosts taxYearConfig zusType
         getHealthInsuranceRates getHealthInsuranceLimit hi_liniowy
         HEALTH_INSURANCE DEFAULT_2026_INPUT healthInsuranceRateLiniowy
         healthInsuranceLimitLinear].
    change (vatBenefitOf (withTaxYearConfig config None))
      with (vatBenefitOf config).
    change (vatBenefitOf (withTaxYearConfig config (Some DEFAULT_2026_INPUT)))
      with (vatBenefitOf config).
    change (equipmentDepreciationOf (withTaxYearConfig config None))
      with (equipmentDepreciationOf config).
    change (equipmentDepreciationOf
              (withTaxYearConfig config (Some DEFAULT_2026_INPUT)))
      with (equipmentDepreciationOf config).
    set (c := yearlyFixedCosts config + d + equipmentDepreciationOf config).
    set (g := yearlyRevenueNetto config).
    set (v := vatBenefitOf config).
    set (z := _ * 12).
    set (a := Math_max 0 (g - c) * 0.049).
    clearbody c g v z a. unfold Math_min.
    assert (E : Qmin (Qmin a 11600) 11000 == Qmin a 11000).
    { rewrite <- Q.min_assoc. rewrite (Q.min_r 11600 11000); [reflexivity|].
      intros H; discriminate H. }
    rewrite E.
    destruct (Q.min_spec a 11000) as [[H1 E1] | [H1 E1]];
      destruct (Q.min_spec a 11600) as [[H2 E2] | [H2 E2]];
      rewrite E1, E2; repeat split; lra.
Qed.

(** ** Social-insurance contributions *)

Lemma entry_number_or_undefined (x : Q) : entry (number_or_undefined x) == x.
Proof.
  unfold number_or_undefined. destruct (Qeq_bool x 0) eqn:E; cbn [entry].
  - apply Qeq_bool_iff in E. now rewrite E.
  - reflexivity.
Qed.

(** X15. In the output of [calculateMonthlyContributions] the
    social-insurance total is the sum of the retirement, disability,
    accident, sickness, work-fund and solidarity-fund entries of the
    breakdown (an absent entry counting for 0), the health entry of the
    breakdown is the health-insurance amount, and the amount deductible
    from income for social insurance is the whole total. *)
Theorem X15_breakdown_adds_up :
  forall (input : CC.ContributionInput) (config : CC.TaxYearConfig),
    let out := CC.calculateMonthlyContributions input config in
    let b := CC.breakdown out in
    CC.socialSecurityTotal out
    == CC.bd_retirement b + CC.bd_disability b + CC.bd_accident b
       + entry (CC.bd_sickness b) + entry (CC.bd_workFund b)
       + entry (CC.bd_solidarityFund b)
    /\ CC.bd_healthInsurance b = CC.healthInsuranceAmount out
    /\ CC.deductibleSocialFromIncome out = CC.socialSecurityTotal out.
Proof.
  intros input config out b. subst b out.
  unfold CC.calculateMonthlyContributions. cbv zeta.
  cbn [CC.socialSecurityTotal CC.breakdown CC.bd_retirement CC.bd_disability
       CC.bd_accident CC.bd_sickness CC.bd_workFund CC.bd_solidarityFund
       CC.bd_healthInsurance CC.healthInsuranceAmount
       CC.deductibleSocialFromIncome].
  split; [|split; reflexivity].
  unfold CC.calculateSocialSecurity. cbv zeta.
  destruct (Qeq_bool (CC.socialSecurityBase input config) 0).
  - cbn [CC.ss_amount CC.ss_breakdown CC.bd_retirement CC.bd_disability
         CC.bd_accident CC.bd_sickness CC.bd_workFund CC.bd_solidarityFund
         entry]. ring.
  - cbn [CC.ss_amount CC.ss_breakdown CC.bd_retirement CC.bd_disability
         CC.bd_accident CC.bd_sickness CC.bd_workFund CC.bd_solidarityFund].
    rewrite !entry_number_or_undefined. reflexivity.
Qed.

(** X16. For the preferencyjny class with a positive minimum wage, the
    base is 30% of the minimum wage and neither the work fund nor the
    solidarity fund is charged: both entries are absent from the
    breakdown and the amount is the sum of the retirement, disability and
    accident contributions (the base times each rate), plus the sickness
    contribution when the voluntary sickness insurance is taken. *)
Theorem X16_preferencyjny_without_funds :
  forall (input : CC.ContributionInput) (config : CC.TaxYearConfig),
    CC.zusType input = preferencyjny ->
    0 < CC.minimumWageGross config ->
    let r := CC.calculateSocialSecurity input config in
    let rates := CC.socialSecurityRates config in
    CC.ss_base r == CC.minimumWageGross config * 0.3
    /\ CC.bd_workFund (CC.ss_breakdown r) = None
    /\ CC.bd_solidarityFund (CC.ss_breakdown r) = None
    /\ CC.ss_amount r
       == CC.ss_base r * CC.retirement rates
          + CC.ss_base r * CC.disability rates
          + CC.ss_base r * CC.accident rates
          + (if CC.voluntarySickness input
             then CC.ss_base r * CC.sickness rates
             else 0).
Proof.
  intros input config Hz Hw r rates. subst r rates.
  unfold CC.calculateSocialSecurity, CC.socialSecurityBase. rewrite Hz.
  cbv zeta.
  set (w := CC.minimumWageGross config) in *.
  destruct (Qeq_bool (w * 0.3) 0) eqn:E0.
  { apply Qeq_bool_iff in E0. lra. }
  assert (E1 : Qle_bool w (w * 0.3) = false).
  { destruct (Qle_bool w (w * 0.3)) eqn:E; [|reflexivity].
    apply Qle_bool_iff in E. lra. }
  rewrite E1. cbn [negb orb].
  cbn [CC.ss_base CC.ss_amount CC.ss_breakdown CC.bd_workFund
       CC.bd_solidarityFund].
  repeat split; try reflexivity.
  destruct (CC.voluntarySickness input); ring.
Qed.

Lemma X16_witness :
  let r := CC.calculateSocialSecurity
             (contributionInput liniowy preferencyjny None true)
             CC.DEFAULT_2026_CONFIG in
  CC.ss_base r == 4626 * 0.3
  /\ CC.bd_workFund (CC.ss_breakdown r) = None
  /\ CC.bd_solidarityFund (CC.ss_breakdown r) = None
  /\ CC.ss_amount r
     == CC.ss_base r * 0.1952 + CC.ss_base r * 0.08 + CC.ss_base r * 0.0167
        + CC.ss_base r * 0.0245.
Proof.
  apply (X16_preferencyjny_without_funds
           (contributionInput liniowy preferencyjny None true)
           CC.DEFAULT_2026_CONFIG); reflexivity.
Defined.

(** X17. For the maly_plus class the base is the custom base when it is
    present and not 0, and the minimum wage when the custom base is
    absent or 0: a custom base of 0 is not honoured. *)
Theorem X17_maly_plus_base :
  forall (input : CC.ContributionInput) (config : CC.TaxYearConfig),
    CC.zusType input = maly_plus ->
    (absent_or_zero (CC.monthlySocialSecurityBase input) ->
     CC.ss_base (CC.calculateSocialSecurity input config)
     == CC.minimumWageGross config)
    /\ (forall b : Q,
          CC.monthlySocialSecurityBase input = Some b -> ~ b == 0 ->
          CC.ss_base (CC.calculateSocialSecurity input config) == b).
Proof.
  intros input config Hz.
  unfold CC.calculateSocialSecurity, CC.socialSecurityBase. rewrite Hz.
  cbv zeta. split.
  - intros Habs. apply truthy_false_iff in Habs.
    assert (E : number_or (CC.monthlySocialSecurityBase input)
                  (CC.minimumWageGross config)
                = CC.minimumWageGross config).
    { unfold number_or. rewrite Habs.
      now destruct (CC.monthlySocialSecurityBase input). }
    rewrite E.
    destruct (Qeq_bool (CC.minimumWageGross config) 0) eqn:E0;
      cbn [CC.ss_base]; [|reflexivity].
    apply Qeq_bool_iff in E0. now rewrite E0.
  - intros b Hb Hnz. rewrite Hb. unfold number_or.
    apply truthy_Some in Hnz as Ht. rewrite Ht.
    destruct (Qeq_bool b 0) eqn:E0; cbn [CC.ss_base]; [|reflexivity].
    apply Qeq_bool_iff in E0. contradiction.
Qed.

Lemma X17_witness :
  CC.ss_base (CC.calculateSocialSecurity
                (contributionInput liniowy maly_plus (Some 0) false)
                CC.DEFAULT_2026_CONFIG)
  == 4626
  /\ CC.ss_base (CC.calculateSocialSecurity
                   (contributionInput liniowy maly_plus (Some 3000) false)
                   CC.DEFAULT_2026_CONFIG)
     == 3000.
Proof.
  split.
  - apply (proj1 (X17_maly_plus_base
                    (contributionInput liniowy maly_plus (Some 0) false)
                    CC.DEFAULT_2026_CONFIG eq_refl)).
    right. exists 0. split; reflexivity.
  - apply (proj2 (X17_maly_plus_base
                    (contributionInput liniowy maly_plus (Some 3000) false)
                    CC.DEFAULT_2026_CONFIG eq_refl) 3000).
    + reflexivity.
    + intros H; discriminate H.
Defined.


Lemma socialSecurityBase_nonneg
    (input : CC.ContributionInput) (config : CC.TaxYearConfig) :
  nonnegative_config config ->
  (forall b : Q, CC.monthlySocialSecurityBase input = Some b -> 0 <= b) ->
  0 <= CC.socialSecurityBase input config.
Proof.
  intros [Hw [Ha _]] Hb. unfold CC.socialSecurityBase.
  destruct (CC.zusType input); try lra.
  unfold number_or.
  destruct (CC.monthlySocialSecurityBase input) as [b|]; [|assumption].
  destruct (truthy (Some b)); [now apply Hb | assumption].
Qed.

(** X18. With rates and wages that are not negative, and a custom base
    that is not negative when given, the base and the amount of
    [calculateSocialSecurity] are not negative, the amount is at least
    the retirement contribution, and it is at most the sum of the six
    contributions (the base times the retirement, disability, accident,
    sickness, work-fund and solidarity-fund rates), which is the amount
    when all six are charged. *)
Theorem X18_social_security_bounds :
  forall (input : CC.ContributionInput) (config : CC.TaxYearConfig),
    nonnegative_config config ->
    (forall b : Q, CC.monthlySocialSecurityBase input = Some b -> 0 <= b) ->
    let r := CC.calculateSocialSecurity input config in
    let rates := CC.socialSecurityRates config in
    0 <= CC.ss_base r
    /\ 0 <= CC.ss_amount r
    /\ CC.ss_base r * CC.retirement rates <= CC.ss_amount r
    /\ CC.ss_amount r
       <= CC.ss_base r * CC.retirement rates
          + CC.ss_base r * CC.disability rates
          + CC.ss_base r * CC.accident rates
          + CC.ss_base r * CC.sickness rates
          + CC.ss_base r * CC.workFundRate config
          + CC.ss_base r * CC.solidarityFundRate config.
Proof.
  intros input config Hcfg Hb r rates. subst r rates.
  pose proof (socialSecurityBase_nonneg input config Hcfg Hb) as Hbase.
  destruct Hcfg as [_ [_ [H1 [H2 [H3 [H4 [H5 H6]]]]]]].
  unfold CC.calculateSocialSecurity. cbv zeta.
  set (base := CC.socialSecurityBase input config) in *.
  set (r1 := CC.retirement (CC.socialSecurityRates config)) in *.
  set (r2 := CC.disability (CC.socialSecurityRates config)) in *.
  set (r3 := CC.accident (CC.socialSecurityRates config)) in *.
  set (r4 := CC.sickness (CC.socialSecurityRates config)) in *.
  set (r5 := CC.workFundRate config) in *.
  set (r6 := CC.solidarityFundRate config) in *.
  destruct (Qeq_bool base 0); cbn [CC.ss_base CC.ss_amount].
  - repeat split; lra.
  - clearbody base r1 r2 r3 r4 r5 r6.
    assert (0 <= base * r1) by nra.
    assert (0 <= base * r2) by nra.
    assert (0 <= base * r3) by nra.
    assert (0 <= base * r4) by nra.
    assert (0 <= base * r5) by nra.
    assert (0 <= base * r6) by nra.
    destruct (CC.voluntarySickness input); destruct (_ || _);
      repeat split; lra.
Qed.

Lemma nonnegative_DEFAULT_2026_CONFIG : nonnegative_config CC.DEFAULT_2026_CONFIG.
Proof. repeat split; intros H; discriminate H. Defined.

Lemma X18_witness :
  let r := CC.calculateSocialSecurity
             (contributionInput skala duzy None true) CC.DEFAULT_2026_CONFIG in
  0 <= CC.ss_base r
  /\ 0 <= CC.ss_amount r
  /\ CC.ss_base r * 0.1952 <= CC.ss_amount r
  /\ CC.ss_amount r
     <= CC.ss_base r * 0.1952 + CC.ss_base r * 0.08 + CC.ss_base r * 0.0167
        + CC.ss_base r * 0.0245 + CC.ss_base r * 0.0245 + CC.ss_base r * 0.0245.
Proof.
  apply (X18_social_security_bounds (contributionInput skala duzy None true)
           CC.DEFAULT_2026_CONFIG).
  - exact nonnegative_DEFAULT_2026_CONFIG.
  - intros b H. discriminate H.
Defined.

(** ** Health-insurance contributions *)

(** The multiplier of the ryczalt branch for a cumulative revenue that is
    present and not 0. *)
Lemma rateMultiplier_present (input : CC.ContributionInput) (y : Q) :
  CC.yearlyRevenueToDate input = Some y -> ~ y == 0 ->
  (y <= 60000 /\ CC.rateMultiplier input = 0.6)
  \/ (60000 < y /\ y <= 300000 /\ CC.rateMultiplier input = 1.0)
  \/ (300000 < y /\ CC.rateMultiplier input = 1.8).
Proof.
  intros Hy Hnz. unfold CC.rateMultiplier, truthy_and_le. rewrite Hy.
  apply truthy_Some in Hnz. rewrite Hnz. cbn [andb].
  destruct (Qle_bool y 60000) eqn:E1.
  - left. apply Qle_bool_iff in E1. now split.
  - apply Qle_bool_false in E1. right.
    destruct (Qle_bool y 300000) eqn:E2.
    + left. apply Qle_bool_iff in E2. now repeat split.
    + right. apply Qle_bool_false in E2. now split.
Qed.

(** X19. For the flat-rate form with a cumulative yearly revenue that is
    present and not 0, the health-insurance amount is the Q4 average wage
    * 0.09 times 0.6 up to 60,000, times 1.0 above 60,000 and up to
    300,000, and times 1.8 above 300,000; half of the amount is
    deductible from income and nothing from tax. *)
Theorem X19_ryczalt_health_tiers :
  forall (input : CC.ContributionInput) (config : CC.TaxYearConfig)
         (monthlyIncome y : Q),
    CC.taxationForm input = ryczalt ->
    CC.yearlyRevenueToDate input = Some y ->
    ~ y == 0 ->
    let h := CC.calculateHealthInsurance input config monthlyIncome in
    let wage := CC.averageWageQ4PreviousYear config in
    (y <= 60000 -> CC.amount h == wage * 0.09 * 0.6)
    /\ (60000 < y -> y <= 300000 -> CC.amount h == wage * 0.09 * 1.0)
    /\ (300000 < y -> CC.amount h == wage * 0.09 * 1.8)
    /\ CC.deductibleFromIncome h == CC.amount h * 0.5
    /\ CC.deductibleFromTax h == 0.
Proof.
  intros input config monthlyIncome y Hform Hy Hnz h wage. subst h wage.
  unfold CC.calculateHealthInsurance. rewrite Hform. cbv zeta.
  cbn [CC.amount CC.deductibleFromIncome CC.deductibleFromTax].
  destruct (rateMultiplier_present input y Hy Hnz)
    as [[H1 ->] | [[H1 [H2 ->]] | [H1 ->]]];
    repeat split; intros; try reflexivity; lra.
Qed.

Lemma X19_witness :
  let h := CC.calculateHealthInsurance (ryczaltInput (Some 180000))
             CC.DEFAULT_2026_CONFIG 12000 in
  (180000 <= 60000 -> CC.amount h == 7000 * 0.09 * 0.6)
  /\ (60000 < 180000 -> 180000 <= 300000 -> CC.amount h == 7000 * 0.09 * 1.0)
  /\ (300000 < 180000 -> CC.amount h == 7000 * 0.09 * 1.8)
  /\ CC.deductibleFromIncome h == CC.amount h * 0.5
  /\ CC.deductibleFromTax h == 0.
Proof.
  apply (X19_ryczalt_health_tiers (ryczaltInput (Some 180000))
           CC.DEFAULT_2026_CONFIG 12000 180000);
    try reflexivity; intros H; discriminate H.
Defined.

(** X20. For the flat-rate form, among cumulative revenues that are
    positive, a larger revenue never gives a smaller health-insurance
    amount, provided the Q4 average wage is not negative. *)
Theorem X20_ryczalt_health_monotone :
  forall (input1 input2 : CC.ContributionInput) (config : CC.TaxYearConfig)
         (income1 income2 y1 y2 : Q),
    CC.taxationForm input1 = ryczalt ->
    CC.taxationForm input2 = ryczalt ->
    CC.yearlyRevenueToDate input1 = Some y1 ->
    CC.yearlyRevenueToDate input2 = Some y2 ->
    0 <= CC.averageWageQ4PreviousYear config ->
    0 < y1 ->
    y1 <= y2 ->
    CC.amount (CC.calculateHealthInsurance input1 config income1)
    <= CC.amount (CC.calculateHealthInsurance input2 config income2).
Proof.
  intros input1 input2 config income1 income2 y1 y2 Hf1 Hf2 Hy1 Hy2 Hw H0 Hle.
  rewrite (ryczalt_amount _ _ _ Hf1), (ryczalt_amount _ _ _ Hf2).
  set (w := CC.averageWageQ4PreviousYear config) in *. clearbody w.
  assert (Hn1 : ~ y1 == 0) by lra.
  assert (Hn2 : ~ y2 == 0) by lra.
  destruct (rateMultiplier_present input1 y1 Hy1 Hn1)
    as [[A1 ->] | [[A1 [A2 ->]] | [A1 ->]]];
  destruct (rateMultiplier_present input2 y2 Hy2 Hn2)
    as [[B1 ->] | [[B1 [B2 ->]] | [B1 ->]]];
  lra.
Qed.

Lemma X20_witness :
  CC.amount (CC.calculateHealthInsurance (ryczaltInput (Some 50000))
               CC.DEFAULT_2026_CONFIG 12000)
  <= CC.amount (CC.calculateHealthInsurance (ryczaltInput (Some 400000))
                  CC.DEFAULT_2026_CONFIG 12000).
Proof.
  apply (X20_ryczalt_health_monotone (ryczaltInput (Some 50000))
           (ryczaltInput (Some 400000)) CC.DEFAULT_2026_CONFIG 12000 12000
           50000 400000);
    try reflexivity; intros H; discriminate H.
Defined.

(** X21. For the skala and liniowy forms with a health-insurance rate that
    is not negative, the health-insurance amount is at least the rate
    times the minimum wage, whatever the income; for skala it is exactly
    that when the income does not exceed the minimum wage, and for
    liniowy it is never below the configured minimum
    [minHealthInsuranceLinear]. *)
Theorem X21_health_floor :
  forall (input : CC.ContributionInput) (config : CC.TaxYearConfig)
         (monthlyIncome : Q),
    0 <= CC.rate_skala (CC.healthInsuranceRate config) ->
    0 <= CC.rate_liniowy (CC.healthInsuranceRate config) ->
    let h := CC.calculateHealthInsurance input config monthlyIncome in
    (CC.taxationForm input = skala ->
     CC.minimumWageGross config * CC.rate_skala (CC.healthInsuranceRate config)
     <= CC.amount h
     /\ (monthlyIncome <= CC.minimumWageGross config ->
         CC.amount h
         == CC.minimumWageGross config
            * CC.rate_skala (CC.healthInsuranceRate config)))
    /\ (CC.taxationForm input = liniowy ->
        CC.minimumWageGross config
        * CC.rate_liniowy (CC.healthInsuranceRate config)
        <= CC.amount h
        /\ CC.minHealthInsuranceLinear config <= CC.amount h).
Proof.
  intros input config monthlyIncome Hs Hl h. subst h.
  unfold CC.calculateHealthInsurance.
  set (w := CC.minimumWageGross config).
  set (rs := CC.rate_skala (CC.healthInsuranceRate config)) in *.
  set (rl := CC.rate_liniowy (CC.healthInsuranceRate config)) in *.
  set (m := CC.minHealthInsuranceLinear config).
  clearbody w rs rl m.
  split; intros Hf; rewrite Hf; cbv zeta; cbn [CC.amount]; unfold Math_max.
  - destruct (Q.max_spec monthlyIncome w) as [[H E] | [H E]]; rewrite E.
    + split; [lra | intros; lra].
    + split; [nra | intros; assert (monthlyIncome == w) by lra; nra].
  - destruct (Q.max_spec monthlyIncome w) as [[H E] | [H E]]; rewrite E.
    + destruct (Q.max_spec (w * rl) m) as [[H' E'] | [H' E']]; rewrite E';
        split; lra.
    + destruct (Q.max_spec (monthlyIncome * rl) m) as [[H' E'] | [H' E']];
        rewrite E'; split; nra.
Qed.

Lemma X21_witness :
  let h := CC.calculateHealthInsurance
             (contributionInput skala duzy None false)
             CC.DEFAULT_2026_CONFIG 3000 in
  (skala = skala ->
   4626 * 0.09 <= CC.amount h
   /\ (3000 <= 4626 -> CC.amount h == 4626 * 0.09))
  /\ (skala = liniowy ->
      4626 * 0.049 <= CC.amount h /\ 4626 * 0.09 <= CC.amount h).
Proof.
  apply (X21_health_floor (contributionInput skala duzy None false)
           CC.DEFAULT_2026_CONFIG 3000); intros H; discriminate H.
Defined.

(** X22. The health-insurance figures of [calculateMonthlyContributions]
    do not depend on the contribution class, on the custom base or on the
    voluntary sickness insurance: the income they are computed from is
    revenue less costs, floored at 0, with no social insurance
    subtracted. *)
Theorem X22_health_ignores_contribution_class :
  forall (input : CC.ContributionInput) (config : CC.TaxYearConfig)
         (z : ZusType) (customBase : option Q) (sick : bool),
    let out := CC.calculateMonthlyContributions input config in
    let out' :=
      CC.calculateMonthlyContributions
        (withContributionClass input z customBase sick) config in
    CC.healthInsuranceAmount out' = CC.healthInsuranceAmount out
    /\ CC.deductibleHealthFromIncome out' = CC.deductibleHealthFromIncome out
    /\ CC.deductibleHealthFromTax out' = CC.deductibleHealthFromTax out
    /\ CC.healthInsuranceAmount out
       = CC.amount
           (CC.calculateHealthInsurance input config
              (Math_max 0 (CC.monthlyRevenue input - CC.monthlyCosts input))).
Proof.
  intros input config z customBase sick out out'. subst out out'.
  unfold CC.calculateMonthlyContributions, CC.calculateHealthInsurance,
    CC.rateMultiplier.
  cbn [CC.healthInsuranceAmount CC.deductibleHealthFromIncome
       CC.deductibleHealthFromTax withContributionClass CC.taxationForm
       CC.monthlyRevenue CC.monthlyCosts CC.yearlyRevenueToDate].
  repeat split.
Qed.

(** ** The user interface *)

Lemma Math_max3_spec (a b c : Q) :
  a <= Math_max3 a b c /\ b <= Math_max3 a b c /\ c <= Math_max3 a b c
  /\ (Math_max3 a b c == a \/ Math_max3 a b c == b \/ Math_max3 a b c == c).
Proof.
  unfold Math_max3.
  destruct (Q.max_spec a b) as [[H E] | [H E]];
    destruct (Q.max_spec (Qmax a b) c) as [[H' E'] | [H' E']];
    rewrite E', ?E; rewrite E in H'; repeat split; try lra; auto.
Qed.

(** X23. On the results page at least one of the three regimes is marked
    as recommended, and a regime is marked exactly when its net cash is at
    least that of the two others (so regimes that tie for the best net
    cash are all marked). *)
Theorem X23_recommended_regime :
  forall results : Comparison,
    let r := netCashInHand (cmp_ryczalt results) in
    let l := netCashInHand (cmp_liniowy results) in
    let s := netCashInHand (cmp_skala results) in
    (Simulator.ryczaltRecommended results = true
     \/ Simulator.liniowyRecommended results = true
     \/ Simulator.skalaRecommended results = true)
    /\ (Simulator.ryczaltRecommended results = true <-> l <= r /\ s <= r)
    /\ (Simulator.liniowyRecommended results = true <-> r <= l /\ s <= l)
    /\ (Simulator.skalaRecommended results = true <-> r <= s /\ l <= s).
Proof.
  intros results r l s.
  unfold Simulator.ryczaltRecommended, Simulator.liniowyRecommended,
    Simulator.skalaRecommended, Simulator.bestNetCash.
  fold r l s. rewrite !Qeq_bool_iff.
  destruct (Math_max3_spec r l s) as [H1 [H2 [H3 H4]]].
  clearbody r l s.
  split; [|split; [|split]].
  - destruct H4 as [H4 | [H4 | H4]]; rewrite H4; [left | right; left | right; right];
      reflexivity.
  - split; intros H; [rewrite H; now split | lra].
  - split; intros H; [rewrite H; now split | lra].
  - split; intros H; [rewrite H; now split | lra].
Qed.

(** [Math.round] is within one half of its argument. *)
Lemma Math_round_close (x : Q) :
  x - (1 # 2) < inject_Z (Math_round x) /\ inject_Z (Math_round x) <= x + (1 # 2).
Proof.
  unfold Math_round.
  pose proof (Qfloor_le (x + (1 # 2))) as Hle.
  pose proof (Qlt_floor (x + (1 # 2))) as Hlt.
  rewrite inject_Z_plus in Hlt.
  change (inject_Z 1) with 1 in Hlt.
  split; lra.
Qed.

(** The four bars of a row, added up. *)
Lemma chartRow_total (label : string) (r : TaxResult) :
  let row := TaxComparisonChart.chartRow label r in
  let total :=
    inject_Z (TaxComparisonChart.bar_netCash row
              + TaxComparisonChart.bar_incomeTax row
              + TaxComparisonChart.bar_healthInsurance row
              + TaxComparisonChart.bar_zus row) in
  let exact :=
    netCashInHand r + incomeTax r + healthInsurance r + zusTotal r in
  exact - 2 <= total /\ total <= exact + 2.
Proof.
  cbv zeta. unfold TaxComparisonChart.chartRow.
  cbn [TaxComparisonChart.bar_netCash TaxComparisonChart.bar_incomeTax
       TaxComparisonChart.bar_healthInsurance TaxComparisonChart.bar_zus].
  rewrite !inject_Z_plus.
  destruct (Math_round_close (netCashInHand r)) as [A1 A2].
  destruct (Math_round_close (incomeTax r)) as [B1 B2].
  destruct (Math_round_close (healthInsurance r)) as [C1 C2].
  destruct (Math_round_close (zusTotal r)) as [D1 D2].
  split; lra.
Qed.

(** X24. For the results of [compareAll], the four rounded bars the chart
    draws for a regime (net cash, income tax, health insurance, social
    insurance) add up to the regime's revenue less its total costs plus
    its VAT benefit, within 2. *)
Theorem X24_chart_bars_add_up :
  forall (config : ScenarioConfig) (cmp : Comparison),
    compareAll config = Ok cmp ->
    forall (row : TaxComparisonChart.ChartRow) (r : TaxResult),
      In (row, r)
         (combine (TaxComparisonChart.data cmp)
                  [cmp_ryczalt cmp; cmp_liniowy cmp; cmp_skala cmp]) ->
      let total :=
        inject_Z (TaxComparisonChart.bar_netCash row
                  + TaxComparisonChart.bar_incomeTax row
                  + TaxComparisonChart.bar_healthInsurance row
                  + TaxComparisonChart.bar_zus row) in
      let exact := grossRevenue r - totalCosts r + vatBenefit (breakdown r) in
      exact - 2 <= total /\ total <= exact + 2.
Proof.
  intros config cmp Hcmp row r Hin total exact.
  assert (Hsum : forall x : TaxResult,
             x = cmp_ryczalt cmp \/ x = cmp_liniowy cmp \/ x = cmp_skala cmp ->
             netCashInHand x + incomeTax x + healthInsurance x + zusTotal x
             == grossRevenue x - totalCosts x + vatBenefit (breakdown x)).
  { unfold compareAll in Hcmp.
    destruct (calculateLiniowy config) as [l|m] eqn:El; cbn [bind] in Hcmp;
      [|discriminate Hcmp].
    destruct (calculateSkala config) as [s|m] eqn:Es; cbn [bind] in Hcmp;
      [|discriminate Hcmp].
    injection Hcmp as <-. cbn [cmp_ryczalt cmp_liniowy cmp_skala].
    destruct (calculateLiniowy_Ok _ _ El) as [d [_ ->]].
    destruct (calculateSkala_Ok _ _ Es) as [d' [_ ->]].
    intros x [-> | [-> | ->]].
    - unfold calculateRyczalt. cbv zeta.
      cbn [netCashInHand incomeTax healthInsurance zusTotal grossRevenue
           totalCosts breakdown vatBenefit]. ring.
    - unfold liniowyAfterCars. cbv zeta.
      cbn [netCashInHand incomeTax healthInsurance zusTotal grossRevenue
           totalCosts breakdown vatBenefit]. ring.
    - unfold skalaAfterCars. cbv zeta.
      cbn [netCashInHand incomeTax healthInsurance zusTotal grossRevenue
           totalCosts breakdown vatBenefit]. ring. }
  subst total exact.
  cbn [TaxComparisonChart.data combine In] in Hin.
  destruct Hin as [H | [H | [H | []]]]; injection H as <- <-;
    rewrite <- Hsum by auto; apply chartRow_total.
Qed.

Lemma X24_witness :
  exists cmp : Comparison,
    compareAll scenario_400k = Ok cmp
    /\ forall (row : TaxComparisonChart.ChartRow) (r : TaxResult),
         In (row, r)
            (combine (TaxComparisonChart.data cmp)
                     [cmp_ryczalt cmp; cmp_liniowy cmp; cmp_skala cmp]) ->
         let total :=
           inject_Z (TaxComparisonChart.bar_netCash row
                     + TaxComparisonChart.bar_incomeTax row
                     + TaxComparisonChart.bar_healthInsurance row
                     + TaxComparisonChart.bar_zus row) in
         let exact := grossRevenue r - totalCosts r + vatBenefit (breakdown r) in
         exact - 2 <= total /\ total <= exact + 2.
Proof.
  eexists. split; [reflexivity|].
  apply (X24_chart_bars_add_up scenario_400k). reflexivity.
Defined.

(** X25. The car form and the calculator agree: the form's table of
    ceilings is the calculator's, and for a price that is not negative the
    form shows its warning exactly when the calculator's deductible ratio
    is below 1, the percentage it announces being that ratio times 100. *)
Theorem X25_form_warning_matches_calculator :
  forall car : CarInvestment,
    0 <= carPriceNetto car ->
    let limit := CAR_DEPRECIATION_LIMITS (engineType car) in
    CarInvestmentForm.ENGINE_TYPE_LIMITS (engineType car) = limit
    /\ (CarInvestmentForm.exceedsLimit car = true
        <-> deductibleRatio limit (carPriceNetto car) < 1)
    /\ (CarInvestmentForm.exceedsLimit car = true ->
        CarInvestmentForm.deductiblePercent car
        == deductibleRatio limit (carPriceNetto car) * 100).
Proof.
  intros car Hp limit.
  assert (Et : CarInvestmentForm.ENGINE_TYPE_LIMITS (engineType car) = limit)
    by (subst limit; destruct (engineType car); reflexivity).
  assert (Hlimit : 0 < limit)
    by (subst limit; destruct (engineType car); reflexivity).
  unfold CarInvestmentForm.exceedsLimit, CarInvestmentForm.deductiblePercent.
  rewrite Et. clearbody limit.
  set (price := carPriceNetto car) in *. clearbody price.
  split; [reflexivity|].
  unfold deductibleRatio, Math_min.
  destruct (Qle_bool price limit) eqn:Ele; cbn [negb].
  - apply Qle_bool_iff in Ele.
    split; [|discriminate].
    split; [discriminate|]. intros Hr. exfalso.
    destruct (Qeq_bool price 0) eqn:E0; [lra|].
    assert (Hnz : ~ price == 0)
      by (intros H; apply Qeq_bool_iff in H; congruence).
    assert (Hpos : 0 < price) by lra.
    assert (1 <= limit / price) by (apply Qle_shift_div_l; lra).
    rewrite Q.min_l in Hr by assumption. lra.
  - apply Qle_bool_false in Ele.
    destruct (Qeq_bool price 0) eqn:E0.
    { apply Qeq_bool_iff in E0. lra. }
    assert (Hpos : 0 < price) by lra.
    assert (Hlt : limit / price < 1) by (apply Qlt_shift_div_r; lra).
    rewrite Q.min_r by lra.
    split; [split; auto | reflexivity].
Qed.

Lemma X25_witness :
  CarInvestmentForm.ENGINE_TYPE_LIMITS (engineType car_electric_lease) = 225000
  /\ (CarInvestmentForm.exceedsLimit car_electric_lease = true
      <-> deductibleRatio 225000 (carPriceNetto car_electric_lease) < 1)
  /\ (CarInvestmentForm.exceedsLimit car_electric_lease = true ->
      CarInvestmentForm.deductiblePercent car_electric_lease
      == deductibleRatio 225000 (carPriceNetto car_electric_lease) * 100).
Proof.
  apply (X25_form_warning_matches_calculator car_electric_lease).
  intros H; discriminate H.
Defined.

(** X26. The initial state of the configuration form.  A revenue or
    fixed-costs figure of the AI suggestion that is not 0 takes
    precedence; otherwise the figure of the initial data is taken when it
    is present and not 0; otherwise (absent or 0 in both) the form starts
    with 180,000 and 36,000.  The tax year is that of the initial data
    when present and not 0, and 2026 otherwise.  So the form never starts
    with a revenue, fixed costs or tax year of 0.  A VAT-recoverable
    fraction given in the initial data is kept, 0 included, and it is 1.0
    when not given; the VAT-payer flag and the contribution class are
    those of the initial data, [true] and maly_plus when not given; the
    taxation form is liniowy when not given. *)
Theorem X26_initial_state :
  forall (initialData : option ConfigurationForm.PartialConfigurationData)
         (aiSuggestion : option ConfigurationForm.AiSuggestion),
    let st := ConfigurationForm.initialState initialData aiSuggestion in
    let ai_revenue :=
      ConfigurationForm.field aiSuggestion
        (fun a => Some (ConfigurationForm.revenue a)) in
    let ai_fixedCosts :=
      ConfigurationForm.field aiSuggestion
        (fun a => Some (ConfigurationForm.fixedCosts a)) in
    let revenue0 :=
      ConfigurationForm.field initialData ConfigurationForm.p_yearlyRevenueNetto in
    let fixedCosts0 :=
      ConfigurationForm.field initialData ConfigurationForm.p_yearlyFixedCosts in
    let year0 :=
      ConfigurationForm.field initialData ConfigurationForm.p_selectedTaxYear in
    let fraction0 :=
      ConfigurationForm.field initialData ConfigurationForm.p_vatRateMixed in
    (* revenue *)
    (forall v : Q, ai_revenue = Some v -> ~ v == 0 ->
       ConfigurationForm.yearlyRevenueNetto st = v)
    /\ (forall v : Q, absent_or_zero ai_revenue ->
          revenue0 = Some v -> ~ v == 0 ->
          ConfigurationForm.yearlyRevenueNetto st = v)
    /\ (absent_or_zero ai_revenue -> absent_or_zero revenue0 ->
        ConfigurationForm.yearlyRevenueNetto st = 180000)
    (* fixed costs *)
    /\ (forall v : Q, ai_fixedCosts = Some v -> ~ v == 0 ->
          ConfigurationForm.yearlyFixedCosts st = v)
    /\ (forall v : Q, absent_or_zero ai_fixedCosts ->
          fixedCosts0 = Some v -> ~ v == 0 ->
          ConfigurationForm.yearlyFixedCosts st = v)
    /\ (absent_or_zero ai_fixedCosts -> absent_or_zero fixedCosts0 ->
        ConfigurationForm.yearlyFixedCosts st = 36000)
    (* tax year *)
    /\ (forall v : Q, year0 = Some v -> ~ v == 0 ->
          ConfigurationForm.selectedTaxYear st = v)
    /\ (absent_or_zero year0 -> ConfigurationForm.selectedTaxYear st = 2026)
    (* never 0 *)
    /\ ~ ConfigurationForm.yearlyRevenueNetto st == 0
    /\ ~ ConfigurationForm.yearlyFixedCosts st == 0
    /\ ~ ConfigurationForm.selectedTaxYear st == 0
    (* VAT-recoverable fraction *)
    /\ (forall v : Q, fraction0 = Some v -> ConfigurationForm.vatRateMixed st = v)
    /\ (fraction0 = None -> ConfigurationForm.vatRateMixed st = 1.0)
    (* the other fields *)
    /\ (forall b : bool,
          ConfigurationForm.field initialData ConfigurationForm.p_vatPayer
          = Some b ->
          ConfigurationForm.vatPayer st = b)
    /\ (ConfigurationForm.field initialData ConfigurationForm.p_vatPayer = None ->
        ConfigurationForm.vatPayer st = true)
    /\ (forall z : ZusType,
          ConfigurationForm.field initialData ConfigurationForm.p_zusType
          = Some z ->
          ConfigurationForm.zusType st = z)
    /\ (ConfigurationForm.field initialData ConfigurationForm.p_zusType = None ->
        ConfigurationForm.zusType st = maly_plus)
    /\ (ConfigurationForm.field initialData
          ConfigurationForm.p_currentTaxationForm = None ->
        ConfigurationForm.currentTaxationForm st = "liniowy"%string).
Proof.
  intros initialData aiSuggestion st ai_revenue ai_fixedCosts revenue0
    fixedCosts0 year0 fraction0.
  assert (Hor : forall (o : option Q) (d : Q), ~ d == 0 -> ~ number_or o d == 0).
  { intros o d Hd. unfold number_or. destruct o as [q|]; [|assumption].
    destruct (truthy (Some q)) eqn:E; [|assumption].
    now apply truthy_Some. }
  assert (Hsome : forall (o : option Q) (d v : Q),
             o = Some v -> ~ v == 0 -> number_or o d = v).
  { intros o d v -> Hv. unfold number_or.
    apply truthy_Some in Hv. now rewrite Hv. }
  assert (Hnone : forall (o : option Q) (d : Q),
             absent_or_zero o -> number_or o d = d).
  { intros o d Ho. apply truthy_false_iff in Ho. unfold number_or.
    rewrite Ho. now destruct o. }
  assert (Hfirst : forall (a b : option Q) (v : Q),
             a = Some v -> ~ v == 0 -> ConfigurationForm.first_truthy a b = a).
  { intros a b v -> Hv. unfold ConfigurationForm.first_truthy.
    apply truthy_Some in Hv. now rewrite Hv. }
  assert (Hsecond : forall a b : option Q,
             absent_or_zero a -> ConfigurationForm.first_truthy a b = b).
  { intros a b Ha. apply truthy_false_iff in Ha.
    unfold ConfigurationForm.first_truthy. now rewrite Ha. }
  subst st. unfold ConfigurationForm.initialState.
  cbn [ConfigurationForm.yearlyRevenueNetto ConfigurationForm.yearlyFixedCosts
       ConfigurationForm.selectedTaxYear ConfigurationForm.vatRateMixed
       ConfigurationForm.vatPayer ConfigurationForm.zusType
       ConfigurationForm.currentTaxationForm].
  fold ai_revenue ai_fixedCosts revenue0 fixedCosts0 year0 fraction0.
  clearbody ai_revenue ai_fixedCosts revenue0 fixedCosts0 year0 fraction0.
  repeat match goal with |- _ /\ _ => split end.
  - intros v Ha Hv. rewrite (Hfirst _ _ v Ha Hv). now apply Hsome.
  - intros v Ha H0 Hv. rewrite (Hsecond _ _ Ha). now apply Hsome.
  - intros Ha H0. rewrite (Hsecond _ _ Ha). now apply Hnone.
  - intros v Ha Hv. rewrite (Hfirst _ _ v Ha Hv). now apply Hsome.
  - intros v Ha H0 Hv. rewrite (Hsecond _ _ Ha). now apply Hsome.
  - intros Ha H0. rewrite (Hsecond _ _ Ha). now apply Hnone.
  - intros v H0 Hv. now apply Hsome.
  - intros H0. now apply Hnone.
  - apply Hor. intros H; discriminate H.
  - apply Hor. intros H; discriminate H.
  - apply Hor. intros H; discriminate H.
  - intros v ->. reflexivity.
  - intros ->. reflexivity.
  - intros b ->. reflexivity.
  - intros ->. reflexivity.
  - intros z ->. reflexivity.
  - intros ->. reflexivity.
  - intros ->. reflexivity.
Qed.

(** ** The calculate route *)

Lemma truthy_truthy_or_undefined (o : option Q) :
  truthy (Api.truthy_or_undefined o) = truthy o.
Proof.
  unfold Api.truthy_or_undefined. destruct (truthy o) eqn:E;
    [assumption | reflexivity].
Qed.

Lemma truthy_or_undefined_truthy (o : option Q) :
  truthy o = true -> Api.truthy_or_undefined o = o.
Proof.
  intros H. unfold Api.truthy_or_undefined. now rewrite H.
Qed.

(** X27. Replacing a stored lease column that is 0 by [undefined] before
    the call, as the calculate route does, changes nothing in what
    [calculateCarDepreciation] returns for the vehicle. *)
Theorem X27_or_undefined_is_invisible :
  forall (inv : Api.InvestmentRow) (carDetail : Api.CarDetailRow),
    calculateCarDepreciation (Api.carOf inv carDetail)
    = calculateCarDepreciation (rawCarOf inv carDetail).
Proof.
  intros inv d. unfold calculateCarDepreciation.
  cbn [Api.carOf rawCarOf financingMethod engineType carPriceNetto
       monthOfPurchase leasingMonths leasingInitialPaymentPercent
       leasingBuyoutPercent].
  destruct (Api.cd_financingMethod d); [reflexivity|].
  rewrite !truthy_truthy_or_undefined.
  destruct (truthy (Api.cd_leasingMonths d)) eqn:E1; [|reflexivity].
  destruct (truthy (Api.cd_leasingInitialPaymentPercent d)) eqn:E2;
    [|reflexivity].
  destruct (truthy (Api.cd_leasingBuyoutPercent d)) eqn:E3; [|reflexivity].
  rewrite !truthy_or_undefined_truthy by assumption.
  reflexivity.
Qed.

Lemma carOf_lacks_lease_parameter
    (inv : Api.InvestmentRow) (d : Api.CarDetailRow) :
  lacks_lease_parameter (Api.carOf inv d) <-> row_lacks_lease_parameter d.
Proof.
  unfold lacks_lease_parameter, row_lacks_lease_parameter.
  cbn [Api.carOf financingMethod leasingMonths leasingInitialPaymentPercent
       leasingBuyoutPercent].
  rewrite <- !truthy_false_iff, !truthy_truthy_or_undefined. reflexivity.
Qed.

(** The two lists the loop of the route builds. *)
Lemma fold_pushInvestment (db : Api.Db) (invs : list Api.InvestmentRow) :
  forall acc : list CarInvestment * list EquipmentInvestment,
    fold_left (Api.pushInvestment db) invs acc
    = (fst acc
       ++ flat_map
            (fun inv =>
               if Api.isCarType (Api.i_type inv) then
                 match Api.carDetailOf db inv with
                 | Some d => [Api.carOf inv d]
                 | None => []
                 end
               else [])
            invs,
       snd acc
       ++ flat_map
            (fun inv =>
               if Api.isCarType (Api.i_type inv) then []
               else [Api.equipmentOf inv])
            invs).
Proof.
  induction invs as [|inv rest IH]; intros [cars eqs].
  - cbn. now rewrite !app_nil_r.
  - cbn [fold_left flat_map]. rewrite IH. unfold Api.pushInvestment.
    destruct (Api.isCarType (Api.i_type inv)).
    + destruct (Api.carDetailOf db inv); cbn [fst snd app];
        now rewrite <- ?app_assoc.
    + cbn [fst snd app]. now rewrite <- ?app_assoc.
Qed.

Lemma scenarioConfigOf_cars (db : Api.Db) (scenario : Api.ScenarioRow)
    (body : Api.CalculateBody) (car : CarInvestment) :
  In car (carInvestments (Api.scenarioConfigOf db scenario body))
  <-> exists (inv : Api.InvestmentRow) (d : Api.CarDetailRow),
        In inv (Api.investments db)
        /\ Api.i_scenarioId inv = Api.s_id scenario
        /\ Api.isCarType (Api.i_type inv) = true
        /\ Api.carDetailOf db inv = Some d
        /\ car = Api.carOf inv d.
Proof.
  unfold Api.scenarioConfigOf. cbv zeta. cbn [carInvestments].
  rewrite fold_pushInvestment. cbn [fst app]. rewrite in_flat_map.
  split.
  - intros [inv [Hin Hcar]]. apply filter_In in Hin as [Hin Hid].
    apply String.eqb_eq in Hid.
    destruct (Api.isCarType (Api.i_type inv)) eqn:Et; [|destruct Hcar].
    destruct (Api.carDetailOf db inv) as [d|] eqn:Ed; [|destruct Hcar].
    destruct Hcar as [<- | []]. now exists inv, d.
  - intros [inv [d [Hin [Hid [Ht [Hd ->]]]]]]. exists inv. split.
    + apply filter_In. split; [assumption|]. now apply String.eqb_eq.
    + rewrite Ht, Hd. now left.
Qed.

(** X28. The calculate route answers 404 exactly when no scenario has the
    requested identifier.  For a scenario that is found it answers 500
    with the details 'Error: Leasing parameters required for leasing
    financing method' exactly when one of the scenario's car investments
    has a details row of a lease with a lease column that is null or 0;
    otherwise it answers with the results of [compareAll] on the
    configuration built from the tables and the body. *)
Theorem X28_calculate_route_outcome :
  forall (db : Api.Db) (scenarioId : string) (body : Api.CalculateBody),
    (Api.status (Api.calculate db scenarioId body) = 404%Z
     <-> find (fun sc => String.eqb (Api.s_id sc) scenarioId) (Api.scenarios db)
         = None)
    /\ forall scenario : Api.ScenarioRow,
         find (fun sc => String.eqb (Api.s_id sc) scenarioId) (Api.scenarios db)
         = Some scenario ->
         (Api.calculate db scenarioId body
          = Api.Failed "Failed to calculate taxes"
              "Error: Leasing parameters required for leasing financing method"
          <-> exists (inv : Api.InvestmentRow) (d : Api.CarDetailRow),
                In inv (Api.investments db)
                /\ Api.i_scenarioId inv = Api.s_id scenario
                /\ Api.isCarType (Api.i_type inv) = true
                /\ Api.carDetailOf db inv = Some d
                /\ row_lacks_lease_parameter d)
         /\ (Api.calculate db scenarioId body
             = Api.Failed "Failed to calculate taxes"
                 "Error: Leasing parameters required for leasing financing method"
             \/ exists cmp : Comparison,
                  Api.calculate db scenarioId body = Api.Results cmp
                  /\ compareAll (Api.scenarioConfigOf db scenario body) = Ok cmp).
Proof.
  intros db scenarioId body. unfold Api.calculate. split.
  - destruct (find _ (Api.scenarios db)) as [scenario|].
    + destruct (compareAll _); cbn [Api.status]; split; discriminate.
    + cbn [Api.status]. split; reflexivity.
  - intros scenario ->.
    set (config := Api.scenarioConfigOf db scenario body).
    destruct (compareAll_cases config)
      as [[E [car [Hin Hlack]]] | [cmp [E [_ [_ [_ Hnex]]]]]]; rewrite E.
    + split; [|now left]. split; [|reflexivity]. intros _.
      apply scenarioConfigOf_cars in Hin
        as [inv [d [Hin [Hid [Ht [Hd ->]]]]]].
      exists inv, d. refine (conj Hin (conj Hid (conj Ht (conj Hd _)))).
      exact (proj1 (carOf_lacks_lease_parameter inv d) Hlack).
    + split; [|right; now exists cmp]. split; [discriminate|].
      intros [inv [d [Hin [Hid [Ht [Hd Hlack]]]]]]. exfalso. apply Hnex.
      exists (Api.carOf inv d). split.
      * apply scenarioConfigOf_cars. now exists inv, d.
      * exact (proj2 (carOf_lacks_lease_parameter inv d) Hlack).
Qed.

Lemma X28_witness :
  Api.calculate example_db "s1" example_body
  = Api.Failed "Failed to calculate taxes"
      "Error: Leasing parameters required for leasing financing method".
Proof.
  pose proof (proj2 (X28_calculate_route_outcome example_db "s1" example_body)
                _ eq_refl) as [Hiff _].
  apply Hiff.
  eexists. eexists.
  split; [left; reflexivity|].
  split; [reflexivity|]. split; [reflexivity|]. split; [reflexivity|].
  split; [reflexivity|]. right. right. right. exists 0.
  split; reflexivity.
Defined.

(** X29. A car investment (type car_leasing or car_cash) that has no
    details row is skipped without an error: the calculate route answers
    as if the investment were not in the table. *)
Theorem X29_car_without_details_is_skipped :
  forall (db : Api.Db) (before after : list Api.InvestmentRow)
         (inv : Api.InvestmentRow) (scenarioId : string)
         (body : Api.CalculateBody),
    Api.investments db = before ++ inv :: after ->
    Api.isCarType (Api.i_type inv) = true ->
    Api.carDetailOf db inv = None ->
    Api.calculate db scenarioId body
    = Api.calculate (withInvestments db (before ++ after)) scenarioId body.
Proof.
  intros db before after inv scenarioId body Hinv Ht Hd.
  unfold Api.calculate. cbn [withInvestments Api.scenarios].
  destruct (find _ (Api.scenarios db)) as [scenario|]; [|reflexivity].
  assert (E : Api.scenarioConfigOf db scenario body
              = Api.scenarioConfigOf (withInvestments db (before ++ after))
                  scenario body).
  { unfold Api.scenarioConfigOf. cbv zeta.
    cbn [withInvestments Api.investments].
    change (Api.findTaxYearConfig (withInvestments db (before ++ after)))
      with (Api.findTaxYearConfig db).
    rewrite Hinv, !fold_pushInvestment.
    change (Api.carDetailOf (withInvestments db (before ++ after)))
      with (Api.carDetailOf db).
    rewrite !filter_app. cbn [filter].
    destruct (String.eqb (Api.i_scenarioId inv) (Api.s_id scenario));
      [|reflexivity].
    rewrite !flat_map_app. cbn [flat_map]. rewrite Ht, Hd.
    cbn [app]. reflexivity. }
  now rewrite E.
Qed.

Lemma X29_witness :
  Api.calculate example_db "s1" example_body
  = Api.calculate
      (withInvestments example_db
         (firstn 2 (Api.investments example_db) ++ []))
      "s1" example_body.
Proof.
  apply (X29_car_without_details_is_skipped example_db
           (firstn 2 (Api.investments example_db)) []
           {| Api.i_id := "i3"; Api.i_scenarioId := "s1"; Api.i_name := "ghost";
              Api.i_costNetto := 90000; Api.i_monthOfPurchase := 1;
              Api.i_type := Api.car_cash |});
    reflexivity.
Defined.

(** ** The tax-configuration routes *)

Lemma find_map_preserved {A : Type} (p : A -> bool) (g : A -> A) (l : list A) :
  (forall x : A, p (g x) = p x) ->
  find p (map g l) = option_map g (find p l).
Proof.
  intros Hp. induction l as [|x rest IH]; [reflexivity|].
  cbn [map find]. rewrite Hp. destruct (p x); [reflexivity | exact IH].
Qed.

Lemma find_map_untouched {A : Type} (p : A -> bool) (g : A -> A) (l : list A) :
  (forall x : A, p (g x) = p x) ->
  (forall x : A, p x = true -> g x = x) ->
  find p (map g l) = find p l.
Proof.
  intros Hp Hg. induction l as [|x rest IH]; [reflexivity|].
  cbn [map find]. rewrite Hp. destruct (p x) eqn:E; [|exact IH].
  now rewrite Hg.
Qed.

Lemma find_app_last {A : Type} (p : A -> bool) (l : list A) (x : A) :
  find p (l ++ [x])
  = match find p l with
    | Some y => Some y
    | None => if p x then Some x else None
    end.
Proof.
  induction l as [|y rest IH]; cbn [app find]; [reflexivity|].
  destruct (p y); [reflexivity | exact IH].
Qed.

Lemma Qeq_bool_refl (x : Q) : Qeq_bool x x = true.
Proof. apply Qeq_bool_iff. reflexivity. Qed.

Lemma Qeq_bool_trans_false (x y z : Q) :
  Qeq_bool x y = true -> ~ z == y -> Qeq_bool x z = false.
Proof.
  intros Hxy Hzy. destruct (Qeq_bool x z) eqn:E; [|reflexivity].
  apply Qeq_bool_iff in Hxy, E. exfalso. apply Hzy.
  rewrite <- E. exact Hxy.
Qed.

(** The update of the matching rows keeps the year of every row. *)
Lemma updated_year_kept (body : Api.TaxConfigBody) (now : Z) (year : Q)
    (x : Api.TaxYearConfigRow) :
  Qeq_bool
    (Api.c_year
       (if Qeq_bool (Api.c_year x) (Api.tb_year body)
        then Api.updatedRow x body now else x))
    year
  = Qeq_bool (Api.c_year x) year.
Proof.
  destruct (Qeq_bool (Api.c_year x) (Api.tb_year body)); reflexivity.
Qed.

(** X30. After POST /api/tax-config, GET /api/tax-config/:year for the
    year of the body finds a row: it carries the three wage figures of the
    body, every other figure the body gives, the time of the request as
    its update time, and the identifier the POST answered with.  The rows
    of every other year are found as before. *)
Theorem X30_tax_config_round_trip :
  forall (db : Api.Db) (body : Api.TaxConfigBody) (id : string) (now : Z),
    let saved := Api.saveTaxConfig db body id now in
    (exists row : Api.TaxYearConfigRow,
        Api.getTaxConfig (fst saved) (Api.tb_year body) = Some row
        /\ Api.c_year row == Api.tb_year body
        /\ Api.c_id row = Api.sr_id (snd saved)
        /\ Api.c_updatedAt row = now
        /\ Api.c_minimumWageGross row = Api.tb_minimumWageGross body
        /\ Api.c_averageWagePrognosis row = Api.tb_averageWagePrognosis body
        /\ Api.c_averageWageQ4PreviousYear row
           = Api.tb_averageWageQ4PreviousYear body
        /\ (forall v : Q,
              (Api.tb_retirementRate body = Some v ->
               Api.c_retirementRate row = v)
              /\ (Api.tb_disabilityRate body = Some v ->
                  Api.c_disabilityRate row = v)
              /\ (Api.tb_accidentRate body = Some v ->
                  Api.c_accidentRate row = v)
              /\ (Api.tb_sicknessRate body = Some v ->
                  Api.c_sicknessRate row = v)
              /\ (Api.tb_workFundRate body = Some v ->
                  Api.c_workFundRate row = v)
              /\ (Api.tb_solidarityFundRate body = Some v ->
                  Api.c_solidarityFundRate row = v)
              /\ (Api.tb_healthInsuranceRateSkala body = Some v ->
                  Api.c_healthInsuranceRateSkala row = v)
              /\ (Api.tb_healthInsuranceRateLiniowy body = Some v ->
                  Api.c_healthInsuranceRateLiniowy row = v)
              /\ (Api.tb_healthInsuranceLimitLinear body = Some v ->
                  Api.c_healthInsuranceLimitLinear row = v)))
    /\ (forall year : Q,
          ~ year == Api.tb_year body ->
          Api.getTaxConfig (fst saved) year = Api.getTaxConfig db year).
Proof.
  intros db body id now saved. subst saved.
  unfold Api.saveTaxConfig, Api.getTaxConfig.
  destruct (Api.findTaxYearConfig db (Api.tb_year body)) as [existing|] eqn:E;
    cbn [fst snd Api.sr_id]; unfold Api.findTaxYearConfig in *;
    cbn [Api.withTaxYearConfigs Api.taxYearConfigs].
  - split.
    + exists (Api.updatedRow existing body now).
      split.
      { pose proof (find_some _ _ E) as [_ Eyear].
        rewrite find_map_preserved.
        - rewrite E. cbn [option_map]. now rewrite Eyear.
        - intros x. apply updated_year_kept. }
      apply find_some in E as [_ Eyear]. apply Qeq_bool_iff in Eyear.
      cbn [Api.updatedRow Api.c_year Api.c_id Api.c_updatedAt
           Api.c_minimumWageGross Api.c_averageWagePrognosis
           Api.c_averageWageQ4PreviousYear Api.c_retirementRate
           Api.c_disabilityRate Api.c_accidentRate Api.c_sicknessRate
           Api.c_workFundRate Api.c_solidarityFundRate
           Api.c_healthInsuranceRateSkala Api.c_healthInsuranceRateLiniowy
           Api.c_healthInsuranceLimitLinear].
      repeat split; try assumption; try reflexivity;
        intros ->; reflexivity.
    + intros year Hne. apply find_map_untouched.
      * intros x. apply updated_year_kept.
      * intros x Hx.
        destruct (Qeq_bool (Api.c_year x) (Api.tb_year body)) eqn:Ex;
          [|reflexivity].
        rewrite (Qeq_bool_trans_false _ _ _ Ex Hne) in Hx. discriminate Hx.
  - split.
    + exists (Api.insertedRow id body now).
      split.
      { rewrite find_app_last, E.
        cbn [Api.insertedRow Api.c_year]. now rewrite Qeq_bool_refl. }
      cbn [Api.insertedRow Api.c_year Api.c_id Api.c_updatedAt
           Api.c_minimumWageGross Api.c_averageWagePrognosis
           Api.c_averageWageQ4PreviousYear Api.c_retirementRate
           Api.c_disabilityRate Api.c_accidentRate Api.c_sicknessRate
           Api.c_workFundRate Api.c_solidarityFundRate
           Api.c_healthInsuranceRateSkala Api.c_healthInsuranceRateLiniowy
           Api.c_healthInsuranceLimitLinear].
      repeat split; try reflexivity; intros ->; reflexivity.
    + intros year Hne. rewrite find_app_last.
      destruct (find (fun c => Qeq_bool (Api.c_year c) year)
                  (Api.taxYearConfigs db)); [reflexivity|].
      cbn [Api.insertedRow Api.c_year].
      rewrite (Qeq_bool_trans_false _ _ _ (Qeq_bool_refl _) Hne).
      reflexivity.
Qed.
